(** * Copista: project and bundle persistence

    A shallow embedding of [project_manager.py], [file_utils.py] and the
    handlers of [gui/digitization_dialog.py] that open a project, insert a
    bundle and move through the bundles, over an executable model of the
    file system the code talks to.

    Python values are an inductive type, paths are strings joined the way
    [posixpath.join] joins them, the file system is a finite map from
    resolved paths to nodes, and every method is a function that threads the
    file system and the objects it mutates.  A method that returns a tuple
    returns a pair here; a call that can end in an exception returns a
    [result].  The third-party libraries ([json], [slugify]) are an
    interface; a reference implementation of it is given, so that every
    statement can be run on concrete inputs.

    A [str] is held as its UTF-8 encoding, and a file holds bytes.
    [save_to_json] opens its file with [encoding='utf-8'], so the file holds
    the text as it is; [load_from_json] opens it with no [encoding], so what
    it reads is the bytes decoded in the encoding of the locale, which is a
    parameter as the libraries are.

    What is left out of the model: floating point numbers; what [print]
    sends to the console; the widgets of the dialog, which are reduced to
    the trace of the message boxes and redraws asked for; symbolic links
    and [..] in paths; any other process working on the same directories. *)

From Stdlib Require Import Ascii String DecimalString DecimalNat.
From stdpp Require Import base option list gmap strings.

Local Open Scope string_scope.

(* ===================================================================== *)
(** * Strings and numbers as Python formats them *)
(* ===================================================================== *)

Module PyStr.

(** [str(n)] for a non-negative integer. *)
Definition of_nat (n : nat) : string := NilEmpty.string_of_uint (Nat.to_uint n).

Fixpoint zeros (k : nat) : string :=
  match k with
  | O => ""
  | S k' => String "0"%char (zeros k')
  end.

(** [s.zfill(width)] on a string of digits. *)
Definition zfill (width : nat) (s : string) : string :=
  zeros (width - String.length s) +:+ s.

(** The format specification [{n:03d}] for a non-negative [n]. *)
Definition fmt_03d (n : nat) : string := zfill 3 (of_nat n).

(** [str(z)] for any integer. *)
Definition of_Z (z : Z) : string :=
  match z with
  | Z0 => "0"
  | Zpos p => of_nat (Pos.to_nat p)
  | Zneg p => "-" +:+ of_nat (Pos.to_nat p)
  end.

(** [c in s] for a character. *)
Fixpoint contains (c : ascii) (s : string) : bool :=
  match s with
  | EmptyString => false
  | String a s' => Ascii.eqb a c || contains c s'
  end.

Definition startswith_char (c : ascii) (s : string) : bool :=
  match s with
  | String a _ => Ascii.eqb a c
  | EmptyString => false
  end.

Fixpoint endswith_char (c : ascii) (s : string) : bool :=
  match s with
  | EmptyString => false
  | String a EmptyString => Ascii.eqb a c
  | String _ s' => endswith_char c s'
  end.

(** [s.split(c)]: never empty, [""] splits to [[""]]. *)
Fixpoint split (c : ascii) (s : string) : list string :=
  match s with
  | EmptyString => [""]
  | String a s' =>
      if Ascii.eqb a c then "" :: split c s'
      else match split c s' with
           | h :: t => String a h :: t
           | [] => [String a ""]
           end
  end.

(** [s.rfind(c)]: the index of the last occurrence, if any. *)
Fixpoint rfind (c : ascii) (s : string) : option nat :=
  match s with
  | EmptyString => None
  | String a s' =>
      match rfind c s' with
      | Some i => Some (S i)
      | None => if Ascii.eqb a c then Some O else None
      end
  end.

Fixpoint take (n : nat) (s : string) : string :=
  match n, s with
  | S n', String a s' => String a (take n' s')
  | _, _ => ""
  end.

Fixpoint drop (n : nat) (s : string) : string :=
  match n, s with
  | S n', String _ s' => drop n' s'
  | _, _ => s
  end.

(** [len(s)]: the characters of a string, which is held as UTF-8: the
    bytes that do not continue a character ([10xxxxxx]). *)
Fixpoint len (s : string) : nat :=
  match s with
  | EmptyString => O
  | String c s' =>
      let b := nat_of_ascii c in
      if (128 <=? b)%nat && (b <? 192)%nat then len s' else S (len s')
  end.

End PyStr.

(* ===================================================================== *)
(** * Paths: [os.path] on POSIX *)
(* ===================================================================== *)

Module OsPath.

Definition sep : ascii := "/"%char.

(** [posixpath.join(a, b)]. *)
Definition join (a b : string) : string :=
  if PyStr.startswith_char sep b then b
  else if String.eqb a "" || PyStr.endswith_char sep a then a +:+ b
  else a +:+ "/" +:+ b.

(** [posixpath.basename(p)]: what follows the last separator. *)
Definition basename (p : string) : string :=
  List.last (PyStr.split sep p) "".

(** The components the kernel walks when it resolves [p]: empty components
    and ["."] are skipped.  Resolution is lexical and starts at the root of
    the modelled tree; [".."] and symbolic links are not interpreted. *)
Definition component_ok (c : string) : bool :=
  negb (String.eqb c "") && negb (String.eqb c ".").

Definition resolve (p : string) : list string :=
  List.filter component_ok (PyStr.split sep p).

End OsPath.

(* ===================================================================== *)
(** * Python values and exceptions *)
(* ===================================================================== *)

(** The values [json.load] can produce and [json.dump] can write (floating
    point numbers apart).  A [dict] keeps its insertion order, so it is an
    association list. *)
#[warnings="-register-all"]
Inductive pyval : Type :=
  | PNone
  | PBool (b : bool)
  | PInt (z : Z)
  | PStr (s : string)
  | PList (items : list pyval)
  | PDict (items : list (string * pyval)).

(** [bool(v)]: what [not v] and [if v] test. *)
Definition py_truthy (v : pyval) : bool :=
  match v with
  | PNone => false
  | PBool b => b
  | PInt z => negb (Z.eqb z 0%Z)
  | PStr s => negb (String.eqb s "")
  | PList items => match items with [] => false | _ => true end
  | PDict items => match items with [] => false | _ => true end
  end.

(** [type(v).__name__]. *)
Definition py_type_name (v : pyval) : string :=
  match v with
  | PNone => "NoneType"
  | PBool _ => "bool"
  | PInt _ => "int"
  | PStr _ => "str"
  | PList _ => "list"
  | PDict _ => "dict"
  end.

Inductive errno : Type := ENOENT | EACCES | EEXIST | ENOTDIR | EISDIR | ENOSPC.

(** The exceptions the modelled code can meet.  [OSError] carries its
    [errno] and file name; Python raises the subclass the [errno] selects
    ([FileNotFoundError] for [ENOENT], [PermissionError] for [EACCES], ...). *)
Inductive exn : Type :=
  | OSError (code : errno) (filename : string)
  | JSONDecodeError
  | AttributeError (detail : string)
  | TypeError (detail : string)
  | IndexError (detail : string)
  | KeyError (detail : string)
  | UnboundLocalError (name : string)
  | UnicodeDecodeError (detail : string).

Definition errno_number (code : errno) : string :=
  match code with
  | ENOENT => "2" | EACCES => "13" | EEXIST => "17"
  | ENOTDIR => "20" | EISDIR => "21" | ENOSPC => "28"
  end.

Definition strerror (code : errno) : string :=
  match code with
  | ENOENT => "No such file or directory"
  | EACCES => "Permission denied"
  | EEXIST => "File exists"
  | ENOTDIR => "Not a directory"
  | EISDIR => "Is a directory"
  | ENOSPC => "No space left on device"
  end.

(** [str(e)]. *)
Definition str_exn (e : exn) : string :=
  match e with
  | OSError code filename =>
      "[Errno " +:+ errno_number code +:+ "] " +:+ strerror code +:+ ": '" +:+ filename +:+ "'"
  | JSONDecodeError => "Expecting value"
  | AttributeError detail => detail
  | TypeError detail => detail
  | IndexError detail => detail
  | KeyError detail => detail
  | UnboundLocalError name =>
      "cannot access local variable '" +:+ name +:+ "' where it is not associated with a value"
  | UnicodeDecodeError detail => detail
  end.

(** [isinstance(e, FileNotFoundError)] and [isinstance(e, OSError)]. *)
Definition is_FileNotFoundError (e : exn) : bool :=
  match e with OSError ENOENT _ => true | _ => false end.

Definition is_OSError (e : exn) : bool :=
  match e with OSError _ _ => true | _ => false end.

Definition is_JSONDecodeError (e : exn) : bool :=
  match e with JSONDecodeError => true | _ => false end.

(** A computation that returns or raises. *)
Inductive result (A : Type) : Type :=
  | Ok (a : A)
  | Raise (e : exn).
Arguments Ok {A} a.
Arguments Raise {A} e.

Definition bind {A B : Type} (r : result A) (k : A -> result B) : result B :=
  match r with
  | Ok a => k a
  | Raise e => Raise e
  end.

Notation "'do' x <- r ; k" := (bind r (fun x => k))
  (at level 10, x name, r at level 100, k at level 200).

(** ** Dictionaries and lists *)

Fixpoint assoc_get (key : string) (items : list (string * pyval)) : option pyval :=
  match items with
  | [] => None
  | (k, v) :: rest => if String.eqb k key then Some v else assoc_get key rest
  end.

(** [d[key] = value] on the items of a dict: an existing key keeps its
    place, a new one goes last. *)
Fixpoint assoc_set (key : string) (value : pyval) (items : list (string * pyval))
  : list (string * pyval) :=
  match items with
  | [] => [(key, value)]
  | (k, v) :: rest =>
      if String.eqb k key then (k, value) :: rest
      else (k, v) :: assoc_set key value rest
  end.

Definition no_attribute (v : pyval) (attr : string) : exn :=
  AttributeError ("'" +:+ py_type_name v +:+ "' object has no attribute '" +:+ attr +:+ "'").

(** [data.get(key, default)]. *)
Definition py_get (data : pyval) (key : string) (default : pyval) : result pyval :=
  match data with
  | PDict items => Ok (from_option id default (assoc_get key items))
  | _ => Raise (no_attribute data "get")
  end.

(** [d[key] = value]. *)
Definition py_setitem (d : pyval) (key : string) (value : pyval) : result pyval :=
  match d with
  | PDict items => Ok (PDict (assoc_set key value items))
  | PList _ => Raise (TypeError "list indices must be integers or slices, not str")
  | _ => Raise (TypeError ("'" +:+ py_type_name d +:+ "' object does not support item assignment"))
  end.

(** [l.insert(i, x)] on the items of a list: a negative index counts from
    the end, and an index out of range is clamped to the nearest end. *)
Definition list_insert_at (i : Z) (x : pyval) (l : list pyval) : list pyval :=
  let len := Z.of_nat (length l) in
  let i := (if i <? 0 then Z.max 0 (i + len) else Z.min i len)%Z in
  (take (Z.to_nat i) l ++ x :: drop (Z.to_nat i) l)%list.

(** [l.pop(i)] on the items of a list: a negative index counts from the
    end, and an index out of range raises. *)
Definition list_pop_at (i : Z) (l : list pyval) : result (list pyval) :=
  let len := Z.of_nat (length l) in
  let i := (if i <? 0 then i + len else i)%Z in
  if (i <? 0)%Z || (len <=? i)%Z then
    Raise (IndexError (match l with [] => "pop from empty list" | _ => "pop index out of range" end))
  else Ok (take (Z.to_nat i) l ++ drop (S (Z.to_nat i)) l)%list.

Definition py_insert (v : pyval) (i : Z) (x : pyval) : result pyval :=
  match v with
  | PList l => Ok (PList (list_insert_at i x l))
  | _ => Raise (no_attribute v "insert")
  end.

Definition py_pop (v : pyval) (i : Z) : result pyval :=
  match v with
  | PList l => do l' <- list_pop_at i l; Ok (PList l')
  | PDict _ => Raise (KeyError (PyStr.of_Z i))
  | _ => Raise (no_attribute v "pop")
  end.

(* ===================================================================== *)
(** * The file system *)
(* ===================================================================== *)

(** A node is a directory or a regular file with its permission bits.  The
    file system maps resolved paths to nodes and counts the free space:
    every node costs one unit and every byte of a file one more, so
    that a write or a [mkdir] can fail half way through an operation, as it
    does on a full disk. *)
Inductive node : Type :=
  | Dir (writable : bool)
  | File (readable writable : bool) (content : string).

(** A file opened in text mode with no [encoding] is decoded in the
    preferred encoding of the locale the program runs in.  [locale_decode]
    is that decoder, from the bytes of a file to the text read ([inl], held
    as UTF-8 like every [str]) or to the message of the [UnicodeDecodeError]
    it raises ([inr]).  A UTF-8 locale hands back well-formed text as it
    is; another locale does so for ASCII text, and not for the rest. *)
Class Locale : Type := {
  locale_decode : string -> string + string
}.

Record filesystem : Type := Filesystem {
  nodes : gmap (list string) node;
  free : nat
}.

Module Os.

Import OsPath.

Definition parent_key (k : list string) : list string := removelast k.

(** What [stat] reports for a path with no node: a regular file in the place
    of the parent makes it [ENOTDIR]. *)
Definition missing (k : list string) (p : string) (st : filesystem) : exn :=
  match nodes st !! parent_key k with
  | Some (File _ _ _) => OSError ENOTDIR p
  | _ => OSError ENOENT p
  end.

Definition stat (p : string) (st : filesystem) : result node :=
  if String.eqb p "" then Raise (OSError ENOENT p)
  else match nodes st !! resolve p with
       | Some (Dir w) => Ok (Dir w)
       | Some (File r w content) =>
           if PyStr.endswith_char sep p then Raise (OSError ENOTDIR p)
           else Ok (File r w content)
       | None => Raise (missing (resolve p) p st)
       end.

(** [os.path.exists(p)], [os.path.isdir(p)], [os.path.isfile(p)]. *)
Definition path_exists (p : string) (st : filesystem) : bool :=
  match stat p st with Ok _ => true | Raise _ => false end.

Definition path_isdir (p : string) (st : filesystem) : bool :=
  match stat p st with Ok (Dir _) => true | _ => false end.

Definition path_isfile (p : string) (st : filesystem) : bool :=
  match stat p st with Ok (File _ _ _) => true | _ => false end.

(** [open(p, 'rb').read()]: the bytes of a file. *)
Definition read_bytes (p : string) (st : filesystem) : result string :=
  do n <- stat p st;
  match n with
  | Dir _ => Raise (OSError EISDIR p)
  | File r _ content => if r then Ok content else Raise (OSError EACCES p)
  end.

(** Bytes turned into text by the decoder of the locale. *)
Definition decode `{Locale} (bytes : string) : result string :=
  match locale_decode bytes with
  | inl text => Ok text
  | inr detail => Raise (UnicodeDecodeError detail)
  end.

(** [open(p, 'r').read()]: the file is opened as [read_bytes] opens it, and
    what it holds is decoded in the encoding of the locale. *)
Definition read_text `{Locale} (p : string) (st : filesystem) : result string :=
  do bytes <- read_bytes p st;
  decode bytes.

(** The data of a file being written: all of it when it fits in [avail]
    units, otherwise the part that fits and [ENOSPC]. *)
Definition store (k : list string) (p : string) (r w : bool) (content : string)
    (avail : nat) (st : filesystem) : filesystem * result unit :=
  if (String.length content <=? avail)%nat
  then (Filesystem (<[k := File r w content]> (nodes st))
                   (avail - String.length content), Ok ())
  else (Filesystem (<[k := File r w (PyStr.take avail content)]> (nodes st)) 0,
        Raise (OSError ENOSPC p)).

(** [with open(p, 'w', encoding='utf-8') as f: f.write(content)]: the file
    is created or truncated, then written; encoded as UTF-8, the text is
    stored as it is. *)
Definition write_text (p : string) (content : string) (st : filesystem)
  : filesystem * result unit :=
  if String.eqb p "" then (st, Raise (OSError ENOENT p))
  else
    let k := resolve p in
    match nodes st !! k with
    | Some (Dir _) => (st, Raise (OSError EISDIR p))
    | Some (File r w old) =>
        if PyStr.endswith_char sep p then (st, Raise (OSError ENOTDIR p))
        else if w then store k p r w content (free st + String.length old) st
        else (st, Raise (OSError EACCES p))
    | None =>
        match nodes st !! parent_key k with
        | None => (st, Raise (OSError ENOENT p))
        | Some (File _ _ _) => (st, Raise (OSError ENOTDIR p))
        | Some (Dir false) => (st, Raise (OSError EACCES p))
        | Some (Dir true) =>
            if PyStr.endswith_char sep p then (st, Raise (OSError EISDIR p))
            else match free st with
                 | O => (st, Raise (OSError ENOSPC p))
                 | S avail => store k p true true content avail st
                 end
        end
    end.

(** [os.mkdir] of one resolved path, reported under the name [p]. *)
Definition mkdir_key (k : list string) (p : string) (st : filesystem)
  : filesystem * result unit :=
  match nodes st !! k with
  | Some _ => (st, Raise (OSError EEXIST p))
  | None =>
      match nodes st !! parent_key k with
      | None => (st, Raise (OSError ENOENT p))
      | Some (File _ _ _) => (st, Raise (OSError ENOTDIR p))
      | Some (Dir false) => (st, Raise (OSError EACCES p))
      | Some (Dir true) =>
          match free st with
          | O => (st, Raise (OSError ENOSPC p))
          | S avail => (Filesystem (<[k := Dir true]> (nodes st)) avail, Ok ())
          end
      end
  end.

(** [os.makedirs(p, exist_ok=True)] walks the components of [p] from the
    root: a directory on the way is entered, a missing one is created, a
    regular file stops the walk ([EEXIST] when it is the target itself), and
    the walk ends well in a directory.  The error is reported under the
    name [p]. *)
Fixpoint makedirs_walk (p : string) (done todo : list string) (st : filesystem)
  : filesystem * result unit :=
  match todo with
  | [] =>
      match nodes st !! done with
      | Some (Dir _) => (st, Ok ())
      | _ => (st, Raise (OSError ENOENT p))
      end
  | c :: todo' =>
      let k := (done ++ [c])%list in
      match nodes st !! k with
      | Some (Dir _) => makedirs_walk p k todo' st
      | Some (File _ _ _) =>
          (st, Raise (OSError (match todo' with [] => EEXIST | _ => ENOTDIR end) p))
      | None =>
          match mkdir_key k p st with
          | (st', Ok _) => makedirs_walk p k todo' st'
          | (st', Raise e) => (st', Raise e)
          end
      end
  end.

Definition makedirs (p : string) (st : filesystem) : filesystem * result unit :=
  if String.eqb p "" then (st, Raise (OSError ENOENT p))
  else makedirs_walk p [] (resolve p) st.

(** [os.remove(p)]. *)
Definition remove (p : string) (st : filesystem) : filesystem * result unit :=
  match stat p st with
  | Raise e => (st, Raise e)
  | Ok (Dir _) => (st, Raise (OSError EISDIR p))
  | Ok (File _ _ content) =>
      match nodes st !! parent_key (resolve p) with
      | Some (Dir true) =>
          (Filesystem (delete (resolve p) (nodes st))
                      (free st + S (String.length content)), Ok ())
      | _ => (st, Raise (OSError EACCES p))
      end
  end.

(** [shutil.copy2(src, dst)] towards a path that names no directory: the
    bytes are copied as they are. *)
Definition copy2 (src dst : string) (st : filesystem) : filesystem * result unit :=
  match read_bytes src st with
  | Raise e => (st, Raise e)
  | Ok content => write_text dst content st
  end.

End Os.

(** ** [pathlib.Path] *)

Module PathLib.

(** [Path(p).exists()]: [Path] drops trailing separators before it asks. *)
Definition path_exists (p : string) (st : filesystem) : bool :=
  bool_decide (is_Some (nodes st !! OsPath.resolve p)).

(** [Path(p).name]. *)
Definition name (p : string) : string := List.last (OsPath.resolve p) "".

(** [Path(p).suffix]: from the last dot of the name, unless that dot is the
    first or the last character. *)
Definition suffix (p : string) : string :=
  let n := name p in
  match PyStr.rfind "." n with
  | Some i =>
      if (0 <? i)%nat && (i <? String.length n - 1)%nat then PyStr.drop i n else ""
  | None => ""
  end.

(** [Path(p).stem]: the name without its suffix. *)
Definition stem (p : string) : string :=
  let n := name p in
  PyStr.take (String.length n - String.length (suffix p)) n.

End PathLib.

(* ===================================================================== *)
(** * The third-party libraries *)
(* ===================================================================== *)

(** What the code imports and this development does not define:
    [slugify.slugify], [json.dumps(_, indent=2, ensure_ascii=False)], and
    [json.loads], where [None] stands for [json.JSONDecodeError]. *)
Class Libraries : Type := {
  slugify : string -> string;
  json_dumps : pyval -> string;
  json_loads : string -> option pyval
}.

(** [json.load(f)] on the text of a file. *)
Definition json_load `{Libraries} (text : string) : result pyval :=
  match json_loads text with
  | Some data => Ok data
  | None => Raise JSONDecodeError
  end.

(* ===================================================================== *)
(** * project_manager.py *)
(* ===================================================================== *)

(** A [(title, detail)] pair, in the order [messagebox.showerror] takes. *)
Definition message : Type := string * string.

(** [self.files] and [self.subfolders]: dicts whose keys are fixed by
    [__init__]; [subfolders_values] is [self.subfolders.values()]. *)
Record ProjectFiles : Type := {
  files_bundles : string;
  files_project_metadata : string;
  files_documents_metadata : string
}.

Record ProjectSubfolders : Type := {
  cache_subfolder : string;
  capture_subfolder : string
}.

Definition subfolders_values (s : ProjectSubfolders) : list string :=
  [cache_subfolder s; capture_subfolder s].

Record Project : Type := {
  directory : string;
  project_metadata : pyval;
  bundles : pyval;
  files : ProjectFiles;
  subfolders : ProjectSubfolders
}.

Definition set_bundles (self : Project) (v : pyval) : Project :=
  {| directory := directory self; project_metadata := project_metadata self;
     bundles := v; files := files self; subfolders := subfolders self |}.

Definition set_project_metadata (self : Project) (v : pyval) : Project :=
  {| directory := directory self; project_metadata := v;
     bundles := bundles self; files := files self; subfolders := subfolders self |}.

(** [Project.__init__]. *)
Definition Project_init (directory : string) : Project :=
  {| directory := directory;
     project_metadata := PDict [("title", PNone); ("description", PNone)];
     bundles := PList [];
     files := {| files_bundles := OsPath.join directory "bundles.json";
                 files_project_metadata := OsPath.join directory "project_metadata.json";
                 files_documents_metadata := OsPath.join directory "documents_metadata.json" |};
     subfolders := {| cache_subfolder := OsPath.join directory ".cache";
                      capture_subfolder := OsPath.join directory ".capture" |} |}.

(** [project.directory], for the places where [directory] names an
    argument. *)
Definition Project_directory (project : Project) : string := directory project.

(** [is_copista_project]. *)
Definition is_copista_project (directory : string) (st : filesystem) : bool :=
  let path_to_check := OsPath.join directory "bundles.json" in
  if Os.path_isfile path_to_check st then true else false.

Section ProjectMethods.

Context `{Libraries} `{Locale}.

(** [Project.load_from_json]: the file is opened with no [encoding], and
    the three handlers are tried in the order in which they are written; a
    [UnicodeDecodeError] of the read falls to the last one.  The message of
    the [JSONDecodeError] handler and the warning are plain string literals
    in the source, not f-strings: their braces are part of the text. *)
Definition load_from_json (file item_name : string) (st : filesystem)
  : bool * option message * pyval :=
  match (do text <- Os.read_text file st;
         do data <- json_load text;
         py_get data item_name (PList [])) with
  | Raise e =>
      if is_FileNotFoundError e then
        let filename := OsPath.basename file in
        (false, Some ("Error", "No existe " +:+ filename +:+ " en el proyecto"), PNone)
      else if is_JSONDecodeError e then
        (false, Some ("Error", "Error al leer {filename}"), PNone)
      else
        (false, Some ("Error", "Error inesperado: " +:+ str_exn e), PNone)
  | Ok item =>
      let message :=
        if negb (py_truthy item)
        then Some ("Advertencia", "No se encontro {item_name} en el archivo JSON")
        else None in
      (true, message, item)
  end.

(** [Project.save_to_json]: the file is opened with [encoding='utf-8'], and
    [ensure_ascii=False] lets every character through as it is. *)
Definition save_to_json (file : string) (data : pyval) (st : filesystem)
  : filesystem * (bool * option message) :=
  match Os.write_text file (json_dumps data) st with
  | (st', Raise e) =>
      (st', (false, Some ("Error", "Error actualizando " +:+ file +:+ ": " +:+ str_exn e)))
  | (st', Ok _) => (st', (true, None))
  end.

(** [Project.load_bundles]. *)
Definition load_bundles (self : Project) (st : filesystem)
  : Project * (bool * option message) :=
  let '(result, message, bundles) := load_from_json (files_bundles (files self)) "bundles" st in
  if negb result then (self, (false, message))
  else (set_bundles self bundles, (true, None)).

(** [Project.save_bundles]. *)
Definition save_bundles (self : Project) (st : filesystem)
  : filesystem * (bool * option message) :=
  let bundles := PDict [("bundles", bundles self)] in
  let '(st', (result, message)) := save_to_json (files_bundles (files self)) bundles st in
  if negb result then (st', (false, message))
  else (st', (true, message)).

(** [Project.load_project_metadata]. *)
Definition load_project_metadata (self : Project) (st : filesystem)
  : Project * (bool * option message) :=
  let '(result, message, project_metadata) :=
    load_from_json (files_project_metadata (files self)) "project_metadata" st in
  if negb result then (self, (false, message))
  else (set_project_metadata self project_metadata, (true, None)).

(** [Project.save_project_metadata]. *)
Definition save_project_metadata (self : Project) (st : filesystem)
  : filesystem * (bool * option message) :=
  let project_metadata := PDict [("project_metadata", project_metadata self)] in
  let '(st', (result, message)) :=
    save_to_json (files_project_metadata (files self)) project_metadata st in
  if negb result then (st', (false, message))
  else (st', (true, message)).

(** The loop of [Project.ensure_subfolders] over the folders still to visit.
    Every exception of [os.makedirs] is an [OSError], which the handler
    catches; the progress line printed on the console is not modelled. *)
Fixpoint ensure_subfolders_from (todo : list string) (st : filesystem)
  : filesystem * (bool * option message) :=
  match todo with
  | [] => (st, (true, None))
  | subfolder :: rest =>
      match Os.makedirs subfolder st with
      | (st', Ok _) => ensure_subfolders_from rest st'
      | (st', Raise e) =>
          (st', (false, Some ("Error", "Error al crear " +:+ subfolder +:+ ": " +:+ str_exn e)))
      end
  end.

(** [Project.ensure_subfolders]. *)
Definition ensure_subfolders (self : Project) (st : filesystem)
  : filesystem * (bool * option message) :=
  ensure_subfolders_from (subfolders_values (subfolders self)) st.

End ProjectMethods.

(** The [settings] dict handed to the manager, and the [config] dict
    [load_config] builds from it: the same two keys. *)
Record Settings : Type := {
  base_projects_folder : string;
  copista_folder : string
}.

Record ProjectManager : Type := {
  config : Settings;
  session : Settings;
  current_project : option Project
}.

Definition set_current_project (self : ProjectManager) (p : option Project)
  : ProjectManager :=
  {| config := config self; session := session self; current_project := p |}.

(** [ProjectManager.load_config]. *)
Definition load_config (settings : Settings) : Settings :=
  let default_config :=
    {| base_projects_folder := base_projects_folder settings;
       copista_folder := copista_folder settings |} in
  default_config.

(** [ProjectManager.__init__]. *)
Definition ProjectManager_init (settings : Settings) : ProjectManager :=
  {| config := load_config settings;
     session := settings;
     current_project := None |}.

(** What a method of the manager hands back: the bare [False] of
    [create_project], or a [(result, message)] tuple. *)
Inductive returned : Type :=
  | RetBool (b : bool)
  | RetTuple (result : bool) (message : option message).

(** [bool(s)] for an argument that is a string or [None]. *)
Definition str_truthy (s : option string) : bool :=
  match s with
  | Some s => negb (String.eqb s "")
  | None => false
  end.

(** Reading a local variable: one that no assignment has reached yet
    raises [UnboundLocalError]. *)
Definition read_local {A : Type} (name : string) (v : option A) : result A :=
  match v with
  | Some a => Ok a
  | None => Raise (UnboundLocalError name)
  end.

Section ManagerMethods.

Context `{Libraries} `{Locale}.

(** The [while os.path.exists(new_directory)] loop of [create_project], from
    a state [(new_directory, counter)]; [None] when [fuel] iterations did
    not end it. *)
Fixpoint probe_directory (fuel : nat) (parent slug : string) (st : filesystem)
    (new_directory : string) (counter : nat) : option string :=
  match fuel with
  | O => None
  | S fuel' =>
      if Os.path_exists new_directory st then
        let alt_slug := slug +:+ "_" +:+ PyStr.fmt_03d counter in
        let new_directory := OsPath.join parent alt_slug in
        probe_directory fuel' parent slug st new_directory (S counter)
      else Some new_directory
  end.

(** [parent_directory if parent_directory else
    self.config['base_projects_folder']]. *)
Definition project_parent (self : ProjectManager) (parent_directory : option string)
  : string :=
  if str_truthy parent_directory then default "" parent_directory
  else base_projects_folder (config self).

(** [ProjectManager.create_project]; [None] when the probing loop ran out
    of fuel. *)
Definition create_project (fuel : nat) (self : ProjectManager)
    (title parent_directory : option string) (st : filesystem)
  : option (ProjectManager * filesystem * result returned) :=
  if negb (str_truthy title) then Some (self, st, Ok (RetBool false))
  else
    let title := default "" title in
    let slug := slugify title in
    let parent := project_parent self parent_directory in
    let new_directory := OsPath.join parent slug in
    match probe_directory fuel parent slug st new_directory 1 with
    | None => None
    | Some new_directory =>
        let new_project := Project_init new_directory in
        match py_setitem (project_metadata new_project) "title" (PStr title) with
        | Raise e => Some (self, st, Raise e)
        | Ok metadata =>
            let new_project := set_project_metadata new_project metadata in
            match Os.makedirs (directory new_project) st with
            | (st, Raise e) =>
                let message :=
                  ("Error", "Error al crear " +:+ directory new_project +:+ ": " +:+ str_exn e) in
                Some (self, st, Ok (RetTuple false (Some message)))
            | (st, Ok _) =>
                let '(st, (result, message)) := ensure_subfolders new_project st in
                if negb result then Some (self, st, Ok (RetTuple false message))
                else
                  let '(st, (result, message)) := save_bundles new_project st in
                  if negb result then Some (self, st, Ok (RetTuple false message))
                  else
                    let '(st, (result, message)) := save_project_metadata new_project st in
                    if negb result then Some (self, st, Ok (RetTuple false message))
                    else
                      let self := set_current_project self (Some new_project) in
                      Some (self, st, Ok (RetTuple true None))
            end
        end
    end.

(** [ProjectManager.load_project].  [project] is a local variable of the
    function, assigned only after the existence test; the message of the
    first branch reads it. *)
Definition load_project (self : ProjectManager) (directory : string) (st : filesystem)
  : ProjectManager * filesystem * result returned :=
  let project : option Project := None in
  if negb (Os.path_exists directory st) then
    match read_local "project" project with
    | Raise e => (self, st, Raise e)
    | Ok project =>
        let message :=
          ("Error", "No existe el directorio del proyecto " +:+ Project_directory project) in
        (self, st, Ok (RetTuple false (Some message)))
    end
  else
    let project := Project_init directory in
    let '(project, (result, message)) := load_bundles project st in
    if negb result then (self, st, Ok (RetTuple false message))
    else
      let '(st, (result, message_update)) := ensure_subfolders project st in
      if negb result then (self, st, Ok (RetTuple false message))
      else
        let '(project, (result, message)) := load_project_metadata project st in
        if negb result then (self, st, Ok (RetTuple false message))
        else
          let self := set_current_project self (Some project) in
          (self, st, Ok (RetTuple true message)).

(** [ProjectManager._cleanup_copied_files]: every failure is caught and
    printed, file by file. *)
Fixpoint _cleanup_copied_files (self : ProjectManager) (filenames : list string)
    (st : filesystem) : filesystem :=
  match filenames with
  | [] => st
  | filename :: rest =>
      match current_project self with
      | None => _cleanup_copied_files self rest st
      | Some project =>
          let file_path := OsPath.join (directory project) filename in
          if Os.path_exists file_path st
          then _cleanup_copied_files self rest (fst (Os.remove file_path st))
          else _cleanup_copied_files self rest st
      end
  end.

End ManagerMethods.

(* ===================================================================== *)
(** * file_utils.py and gui/digitization_dialog.py *)
(* ===================================================================== *)

(** What the user is shown: the widget layer is reduced to the trace of the
    dialogs opened and of the redraws asked for. *)
Inductive gui_event : Type :=
  | ShowError (title detail : string)
  | ShowCurrentBundle.

(** [DigitizationDialog] extends [ProjectManager]: the manager's attributes,
    the index of the bundle on display, and the trace. *)
Record DigitizationDialog : Type := {
  manager : ProjectManager;
  current_bundle_index : Z;
  gui : list gui_event
}.

Definition set_manager (self : DigitizationDialog) (m : ProjectManager) : DigitizationDialog :=
  {| manager := m; current_bundle_index := current_bundle_index self; gui := gui self |}.

Definition set_current_bundle_index (self : DigitizationDialog) (i : Z) : DigitizationDialog :=
  {| manager := manager self; current_bundle_index := i; gui := gui self |}.

Definition emit (ev : gui_event) (self : DigitizationDialog) : DigitizationDialog :=
  {| manager := manager self; current_bundle_index := current_bundle_index self;
     gui := (gui self ++ [ev])%list |}.

(** The loop of [copy_image_to_directory] that looks for a free name, from a
    state [(dest_filename, dest_path, counter)]. *)
Fixpoint probe_filename (fuel : nat) (dest_directory base_name extension : string)
    (st : filesystem) (dest_filename dest_path : string) (counter : nat)
  : option (string * string) :=
  match fuel with
  | O => None
  | S fuel' =>
      if Os.path_exists dest_path st then
        let dest_filename := base_name +:+ "_" +:+ PyStr.fmt_03d counter +:+ extension in
        let dest_path := OsPath.join dest_directory dest_filename in
        probe_filename fuel' dest_directory base_name extension st dest_filename dest_path (S counter)
      else Some (dest_filename, dest_path)
  end.

(** [file_utils.copy_image_to_directory]: the name under which the file was
    copied, or [None] after an error dialog.  The outer [option] is the fuel
    of the probing loop. *)
Definition copy_image_to_directory (fuel : nat) (source_path dest_directory : string)
    (st : filesystem) : option (filesystem * list gui_event * option string) :=
  if negb (PathLib.path_exists source_path st) then Some (st, [], None)
  else
    let base_name := PathLib.stem source_path in
    let extension := PathLib.suffix source_path in
    let dest_filename := base_name +:+ extension in
    let dest_path := OsPath.join dest_directory dest_filename in
    match probe_filename fuel dest_directory base_name extension st dest_filename dest_path 1 with
    | None => None
    | Some (dest_filename, dest_path) =>
        match Os.copy2 source_path dest_path st with
        | (st', Ok _) => Some (st', [], Some dest_filename)
        | (st', Raise e) =>
            Some (st', [ShowError "Error" ("Error copiando " +:+ source_path +:+ ": " +:+ str_exn e)],
                  None)
        end
    end.

(** How the copying loop of [add_bundle_from_images] ends: all images
    copied, an early [return], or an exception for the outer handler. *)
Inductive copy_outcome : Type :=
  | Copied (copied_filenames : list string)
  | Returned (b : bool)
  | Raised (e : exn).

Section DialogMethods.

Context `{Libraries} `{Locale}.

Fixpoint copy_images (fuel : nat) (self : DigitizationDialog) (image_paths : list string)
    (copied_filenames : list string) (st : filesystem)
  : option (DigitizationDialog * filesystem * copy_outcome) :=
  match image_paths with
  | [] => Some (self, st, Copied copied_filenames)
  | img_path :: rest =>
      if negb (Os.path_exists img_path st) then
        Some (emit (ShowError "Error" ("No se encuentra el archivo: " +:+ img_path)) self,
              st, Returned false)
      else
        match current_project (manager self) with
        | None =>
            Some (self, st, Raised (AttributeError "'NoneType' object has no attribute 'directory'"))
        | Some project =>
            match copy_image_to_directory fuel img_path (directory project) st with
            | None => None
            | Some (st, events, filename) =>
                let self := fold_left (fun d ev => emit ev d) events self in
                if str_truthy filename then
                  copy_images fuel self rest (copied_filenames ++ [default "" filename])%list st
                else
                  let st := _cleanup_copied_files (manager self) copied_filenames st in
                  Some (self, st, Returned false)
            end
        end
  end.

(** The [except Exception] handler that closes [add_bundle_from_images]. *)
Definition unexpected (self : DigitizationDialog) (st : filesystem) (e : exn)
  : DigitizationDialog * filesystem * bool :=
  (emit (ShowError "Error" ("Error inesperado al agregar bundle: " +:+ str_exn e)) self,
   st, false).

(** [self.current_project.bundles], and the list mutated in place through it. *)
Definition dialog_bundles (self : DigitizationDialog) : result pyval :=
  match current_project (manager self) with
  | Some project => Ok (bundles project)
  | None => Raise (AttributeError "'NoneType' object has no attribute 'bundles'")
  end.

Definition set_dialog_bundles (self : DigitizationDialog) (v : pyval) : DigitizationDialog :=
  match current_project (manager self) with
  | Some project =>
      set_manager self (set_current_project (manager self) (Some (set_bundles project v)))
  | None => self
  end.

(** [DigitizationDialog.add_bundle_from_images]. *)
Definition add_bundle_from_images (fuel : nat) (self : DigitizationDialog)
    (image_paths : list string) (st : filesystem)
  : option (DigitizationDialog * filesystem * bool) :=
  if Nat.eqb (length image_paths) 0 || Nat.ltb 3 (length image_paths) then
    Some (emit (ShowError "Error" "Debe proporcionar entre 1 y 3 rutas de imagen") self,
          st, false)
  else
    match copy_images fuel self image_paths [] st with
    | None => None
    | Some (self, st, Returned b) => Some (self, st, b)
    | Some (self, st, Raised e) => Some (unexpected self st e)
    | Some (self, st, Copied copied_filenames) =>
        let new_bundle :=
          PDict [("type", PStr "generic"); ("images", PList (map PStr copied_filenames))] in
        let insert_position := (current_bundle_index self + 1)%Z in
        match (do l <- dialog_bundles self; py_insert l insert_position new_bundle) with
        | Raise e => Some (unexpected self st e)
        | Ok inserted =>
            let self := set_dialog_bundles self inserted in
            match current_project (manager self) with
            | None => Some (unexpected self st (AttributeError "'NoneType' object has no attribute 'save_bundles'"))
            | Some project =>
                let '(st, (result, message)) := save_bundles project st in
                if result then
                  let self := set_current_bundle_index self insert_position in
                  let self := emit ShowCurrentBundle self in
                  Some (self, st, true)
                else
                  match (do l <- dialog_bundles self; py_pop l insert_position) with
                  | Raise e => Some (unexpected self st e)
                  | Ok popped =>
                      let self := set_dialog_bundles self popped in
                      let st := _cleanup_copied_files (manager self) copied_filenames st in
                      match message with
                      | Some (title, detail) => Some (emit (ShowError title detail) self, st, false)
                      | None =>
                          Some (unexpected self st
                                  (TypeError "showerror() argument after * must be an iterable, not NoneType"))
                      end
                  end
            end
        end
    end.

End DialogMethods.

(* ===================================================================== *)
(** * A reference implementation of the libraries, and a locale *)
(* ===================================================================== *)

(** An executable stand-in for [json] and [slugify] on the fragment the
    project files use: integers for numbers, the two-space layout of
    [indent=2], slugs of ASCII titles.  The locale is one whose encoding is
    ISO-8859-1, in which every byte is a character. *)
Module Reference.

Definition dquote : ascii := "034"%char.
Definition backslash : ascii := "092"%char.
Definition newline : ascii := "010"%char.

Definition hex_digit (n : nat) : ascii :=
  ascii_of_nat (if (n <? 10)%nat then 48 + n else 87 + n).

(** One character inside a JSON string, as [ensure_ascii=False] writes it. *)
Definition escape_char (c : ascii) : string :=
  let n := nat_of_ascii c in
  if Ascii.eqb c dquote then String backslash (String dquote "")
  else if Ascii.eqb c backslash then String backslash (String backslash "")
  else if Nat.eqb n 8 then String backslash "b"
  else if Nat.eqb n 9 then String backslash "t"
  else if Nat.eqb n 10 then String backslash "n"
  else if Nat.eqb n 12 then String backslash "f"
  else if Nat.eqb n 13 then String backslash "r"
  else if (n <? 32)%nat then
    String backslash ("u00" +:+ String (hex_digit (n / 16)) (String (hex_digit (n mod 16)) ""))
  else String c "".

Fixpoint escape (s : string) : string :=
  match s with
  | EmptyString => ""
  | String c s' => escape_char c +:+ escape s'
  end.

Definition quote (s : string) : string :=
  String dquote (escape s +:+ String dquote "").

Fixpoint spaces (n : nat) : string :=
  match n with
  | O => ""
  | S n' => String " "%char (spaces n')
  end.

(** A line break followed by the indentation of nesting depth [level]. *)
Definition break (level : nat) : string := String newline (spaces (2 * level)).

Fixpoint join_with (separator : string) (parts : list string) : string :=
  match parts with
  | [] => ""
  | [part] => part
  | part :: rest => part +:+ separator +:+ join_with separator rest
  end.

Fixpoint dumps_at (level : nat) (v : pyval) : string :=
  match v with
  | PNone => "null"
  | PBool true => "true"
  | PBool false => "false"
  | PInt z => PyStr.of_Z z
  | PStr s => quote s
  | PList [] => "[]"
  | PList items =>
      "[" +:+ break (S level)
          +:+ join_with ("," +:+ break (S level)) (map (dumps_at (S level)) items)
          +:+ break level +:+ "]"
  | PDict [] => "{}"
  | PDict items =>
      "{" +:+ break (S level)
          +:+ join_with ("," +:+ break (S level))
                (map (fun kv => quote (fst kv) +:+ ": " +:+ dumps_at (S level) (snd kv)) items)
          +:+ break level +:+ "}"
  end.

(** [json.dumps(v, indent=2, ensure_ascii=False)]. *)
Definition dumps (v : pyval) : string := dumps_at 0 v.

(** ** Reading *)

Definition is_space (c : ascii) : bool :=
  let n := nat_of_ascii c in
  Nat.eqb n 32 || Nat.eqb n 9 || Nat.eqb n 10 || Nat.eqb n 13.

Fixpoint skip_spaces (s : string) : string :=
  match s with
  | String c s' => if is_space c then skip_spaces s' else s
  | EmptyString => s
  end.

Definition digit_value (c : ascii) : option nat :=
  let n := nat_of_ascii c in
  if (48 <=? n)%nat && (n <=? 57)%nat then Some (n - 48) else None.

Definition hex_value (c : ascii) : option nat :=
  let n := nat_of_ascii c in
  if (48 <=? n)%nat && (n <=? 57)%nat then Some (n - 48)
  else if (97 <=? n)%nat && (n <=? 102)%nat then Some (n - 87)
  else if (65 <=? n)%nat && (n <=? 70)%nat then Some (n - 55)
  else None.

(** A code point below [0x10000] in UTF-8. *)
Definition utf8 (n : nat) : string :=
  if (n <? 128)%nat then String (ascii_of_nat n) ""
  else if (n <? 2048)%nat then
    String (ascii_of_nat (192 + n / 64)) (String (ascii_of_nat (128 + n mod 64)) "")
  else
    String (ascii_of_nat (224 + n / 4096))
      (String (ascii_of_nat (128 + (n / 64) mod 64))
         (String (ascii_of_nat (128 + n mod 64)) "")).

(** The characters of a string literal after its opening quote, up to the
    closing one; what follows is handed back. *)
Fixpoint read_string (s : string) : option (string * string) :=
  match s with
  | EmptyString => None
  | String c s' =>
      if Ascii.eqb c dquote then Some ("", s')
      else if Ascii.eqb c backslash then
        match s' with
        | String e s'' =>
            let plain (c : ascii) :=
              match read_string s'' with
              | Some (body, rest) => Some (String c body, rest)
              | None => None
              end in
            if Ascii.eqb e dquote then plain dquote
            else if Ascii.eqb e backslash then plain backslash
            else if Ascii.eqb e "/" then plain "/"%char
            else if Ascii.eqb e "b" then plain (ascii_of_nat 8)
            else if Ascii.eqb e "t" then plain (ascii_of_nat 9)
            else if Ascii.eqb e "n" then plain (ascii_of_nat 10)
            else if Ascii.eqb e "f" then plain (ascii_of_nat 12)
            else if Ascii.eqb e "r" then plain (ascii_of_nat 13)
            else if Ascii.eqb e "u" then
              match s'' with
              | String h1 (String h2 (String h3 (String h4 s3))) =>
                  match hex_value h1, hex_value h2, hex_value h3, hex_value h4 with
                  | Some a, Some b, Some c, Some d =>
                      let n := (((a * 16 + b) * 16 + c) * 16 + d)%nat in
                      if (216 * 256 <=? n)%nat && (n <? 224 * 256)%nat then None
                      else match read_string s3 with
                           | Some (body, rest) => Some (utf8 n +:+ body, rest)
                           | None => None
                           end
                  | _, _, _, _ => None
                  end
              | _ => None
              end
            else None
        | EmptyString => None
        end
      else if (nat_of_ascii c <? 32)%nat then None
      else match read_string s' with
           | Some (body, rest) => Some (String c body, rest)
           | None => None
           end
  end.

Fixpoint read_digits (s : string) (acc : N) : N * string :=
  match s with
  | String c s' =>
      match digit_value c with
      | Some d => read_digits s' (acc * 10 + N.of_nat d)%N
      | None => (acc, s)
      end
  | EmptyString => (acc, s)
  end.

Definition starts_fraction (s : string) : bool :=
  match s with
  | String c _ => Ascii.eqb c "." || Ascii.eqb c "e" || Ascii.eqb c "E"
  | EmptyString => false
  end.

(** An integer literal; a fraction or an exponent is outside the fragment. *)
Definition read_number (s : string) : option (pyval * string) :=
  let '(negative, s1) :=
    match s with
    | String c s' => if Ascii.eqb c "-" then (true, s') else (false, s)
    | EmptyString => (false, s)
    end in
  match s1 with
  | String c s2 =>
      match digit_value c with
      | Some d =>
          let '(n, rest) := if Nat.eqb d 0 then (0%N, s2) else read_digits s2 (N.of_nat d) in
          if starts_fraction rest then None
          else Some (PInt (if negative then Z.opp (Z.of_N n) else Z.of_N n), rest)
      | None => None
      end
  | EmptyString => None
  end.

Fixpoint strip_prefix (prefix s : string) : option string :=
  match prefix, s with
  | EmptyString, _ => Some s
  | String a prefix', String b s' => if Ascii.eqb a b then strip_prefix prefix' s' else None
  | String _ _, EmptyString => None
  end.

Definition read_literal (s : string) : option (pyval * string) :=
  match strip_prefix "null" s with
  | Some rest => Some (PNone, rest)
  | None =>
      match strip_prefix "true" s with
      | Some rest => Some (PBool true, rest)
      | None =>
          match strip_prefix "false" s with
          | Some rest => Some (PBool false, rest)
          | None => read_number s
          end
      end
  end.

(** A value, the elements of an array after its bracket, and the members of
    an object after its brace.  A key met twice keeps its first place and
    its last value, as in a Python dict. *)
Fixpoint read_value (fuel : nat) (s : string) : option (pyval * string) :=
  match fuel with
  | O => None
  | S fuel' =>
      match skip_spaces s with
      | String c s' =>
          if Ascii.eqb c dquote then
            match read_string s' with
            | Some (body, rest) => Some (PStr body, rest)
            | None => None
            end
          else if Ascii.eqb c "[" then
            match skip_spaces s' with
            | String c' rest =>
                if Ascii.eqb c' "]" then Some (PList [], rest)
                else read_elements fuel' s' []
            | EmptyString => None
            end
          else if Ascii.eqb c "{" then
            match skip_spaces s' with
            | String c' rest =>
                if Ascii.eqb c' "}" then Some (PDict [], rest)
                else read_members fuel' s' []
            | EmptyString => None
            end
          else read_literal (String c s')
      | EmptyString => None
      end
  end
with read_elements (fuel : nat) (s : string) (acc : list pyval) : option (pyval * string) :=
  match fuel with
  | O => None
  | S fuel' =>
      match read_value fuel' s with
      | Some (v, rest) =>
          match skip_spaces rest with
          | String c rest' =>
              if Ascii.eqb c "," then read_elements fuel' rest' (acc ++ [v])%list
              else if Ascii.eqb c "]" then Some (PList (acc ++ [v])%list, rest')
              else None
          | EmptyString => None
          end
      | None => None
      end
  end
with read_members (fuel : nat) (s : string) (acc : list (string * pyval))
  : option (pyval * string) :=
  match fuel with
  | O => None
  | S fuel' =>
      match skip_spaces s with
      | String q s' =>
          if Ascii.eqb q dquote then
            match read_string s' with
            | Some (key, rest) =>
                match skip_spaces rest with
                | String colon rest' =>
                    if Ascii.eqb colon ":" then
                      match read_value fuel' rest' with
                      | Some (v, rest'') =>
                          match skip_spaces rest'' with
                          | String c rest3 =>
                              if Ascii.eqb c "," then read_members fuel' rest3 (assoc_set key v acc)
                              else if Ascii.eqb c "}" then Some (PDict (assoc_set key v acc), rest3)
                              else None
                          | EmptyString => None
                          end
                      | None => None
                      end
                    else None
                | EmptyString => None
                end
            | None => None
            end
          else None
      | EmptyString => None
      end
  end.

(** [json.loads(text)]: one value, and nothing but white space after it. *)
Definition loads (text : string) : option pyval :=
  match read_value (2 * String.length text + 2) text with
  | Some (v, rest) =>
      match skip_spaces rest with
      | EmptyString => Some v
      | String _ _ => None
      end
  | None => None
  end.

(** ** Slugs *)

Definition lower (c : ascii) : ascii :=
  let n := nat_of_ascii c in
  if (65 <=? n)%nat && (n <=? 90)%nat then ascii_of_nat (n + 32) else c.

Definition is_slug_char (c : ascii) : bool :=
  let n := nat_of_ascii c in
  ((97 <=? n)%nat && (n <=? 122)%nat) || ((48 <=? n)%nat && (n <=? 57)%nat).

(** [started]: a slug character has been written; [pending]: a run of other
    characters has been met since. *)
Fixpoint slug_from (s : string) (started pending : bool) : string :=
  match s with
  | EmptyString => ""
  | String c s' =>
      let c := lower c in
      if is_slug_char c then
        if started && pending then String "-"%char (String c (slug_from s' true false))
        else String c (slug_from s' true false)
      else slug_from s' started true
  end.

(** [slugify(text)] for ASCII text: lower case, every run of characters
    other than letters and digits becomes one dash, none at either end. *)
Definition slugify_ascii (text : string) : string := slug_from text false false.

#[export] Instance libraries : Libraries :=
  {| slugify := slugify_ascii; json_dumps := dumps; json_loads := loads |}.

(** Decoding as ISO-8859-1: the byte [b] is the character of code point
    [b], for every byte; it never fails. *)
Fixpoint latin1 (bytes : string) : string :=
  match bytes with
  | EmptyString => ""
  | String b rest => utf8 (nat_of_ascii b) +:+ latin1 rest
  end.

#[export] Instance locale : Locale :=
  {| locale_decode := fun bytes => inl (latin1 bytes) |}.

End Reference.

(* ===================================================================== *)
(** * Vocabulary of the statements *)
(* ===================================================================== *)

(** [stat] finds no entry under the path: [ENOENT], which Python raises as
    [FileNotFoundError]. *)
Definition no_entry (p : string) (st : filesystem) : bool :=
  match Os.stat p st with
  | Raise (OSError ENOENT _) => true
  | _ => false
  end.

(** The paths [Project.__init__] derives from the directory; no method
    assigns [files] or [subfolders] again. *)
Definition project_layout (self : Project) : Prop :=
  files self = files (Project_init (directory self)) /\
  subfolders self = subfolders (Project_init (directory self)).

(** The record [add_bundle_from_images] builds for a bundle. *)
Definition bundle_record (type : string) (images : list string) : pyval :=
  PDict [("type", PStr type); ("images", PList (map PStr images))].

(** The documents the two save methods write. *)
Definition bundles_document (bundles : pyval) : pyval :=
  PDict [("bundles", bundles)].

Definition metadata_document (project_metadata : pyval) : pyval :=
  PDict [("project_metadata", project_metadata)].

(** The one way out of [create_project] that reports success. *)
Definition created : result returned := Ok (RetTuple true None).

(** [st'] has every node of [st], of the same kind and with the same
    permissions: what creating directories and writing files does to a file
    system. *)
Definition grows (st st' : filesystem) : Prop :=
  forall k,
    match nodes st !! k with
    | Some (Dir w) => nodes st' !! k = Some (Dir w)
    | Some (File r w _) => exists content, nodes st' !! k = Some (File r w content)
    | None => True
    end.

(** Every step of the walk from [done] through [todo] meets a directory. *)
Fixpoint dirs_along (done todo : list string) (st : filesystem) : Prop :=
  match todo with
  | [] => exists w, nodes st !! done = Some (Dir w)
  | c :: todo' =>
      (exists w, nodes st !! (done ++ [c])%list = Some (Dir w)) /\
      dirs_along (done ++ [c])%list todo' st
  end.

(** The names the probing loop of [create_project] tries, in order: the slug
    itself, then the slug with the suffixes [_001], [_002], ... *)
Definition candidate (parent slug : string) (n : nat) : string :=
  match n with
  | O => OsPath.join parent slug
  | S _ => OsPath.join parent (slug +:+ "_" +:+ PyStr.fmt_03d n)
  end.

(** The fuel that always suffices for that loop. *)
Definition probe_fuel (st : filesystem) : nat := S (S (size (nodes st))).

(** Reading a decimal numeral back, leading zeros included. *)
Definition read_nat (s : string) : option nat :=
  option_map Nat.of_uint (NilEmpty.uint_of_string s).

(** A file system is a tree: every node other than the root lies in a
    directory. *)
Definition node_is_dir (n : option node) : bool :=
  match n with
  | Some (Dir _) => true
  | _ => false
  end.

Definition well_formed (st : filesystem) : Prop :=
  map_Forall
    (fun k _ => k = [] \/ node_is_dir (nodes st !! Os.parent_key k) = true)
    (nodes st).

(** The values the reference [json] is proved to read back: no integers,
    and no key twice in a dict. *)
Fixpoint plain (v : pyval) : bool :=
  match v with
  | PInt _ => false
  | PList items => forallb plain items
  | PDict items =>
      forallb (fun kv => plain (snd kv)) items && bool_decide (NoDup (map fst items))
  | _ => true
  end.


(** What a written value starts with: not white space, not a closing
    bracket. *)
Definition opens (s : string) : Prop :=
  exists c tail, s = String c tail /\ Reference.is_space c = false /\
    Ascii.eqb c "]" = false /\ Ascii.eqb c "}" = false.


(** [v] is read back from what was written for it, whatever follows. *)
Definition reads_back (v : pyval) : Prop :=
  forall level fuel rest,
    (2 * String.length (Reference.dumps_at level v +:+ rest) + 1 <= fuel)%nat ->
    Reference.read_value fuel (Reference.dumps_at level v +:+ rest) = Some (v, rest).




(* ===================================================================== *)
(** * A session to run the statements on *)
(* ===================================================================== *)

(** The settings of [copista.py], a disk with the projects folder and a
    folder of scanned pages, and a project [libro] in several states. *)
Module Scenario.

#[local] Existing Instance Reference.libraries.
#[local] Existing Instance Reference.locale.

Definition settings : Settings :=
  {| base_projects_folder := "../example_projects/"; copista_folder := "../config/" |}.

Definition the_manager : ProjectManager := ProjectManager_init settings.

Definition disk : filesystem :=
  Filesystem {[ [] := Dir true;
                 [".."] := Dir true;
                 [".."; "example_projects"] := Dir true;
                 ["scans"] := Dir true;
                 ["scans"; "left.jpg"] := File true true "left page" ]} 1000.

(** The same disk with no space left. *)
Definition full_disk : filesystem := Filesystem (nodes disk) 0.

(** The project object of [libro], as opened, and with two pages in it. *)
Definition opened : Project := Project_init "../example_projects/libro".

Definition filled : Project :=
  set_bundles opened (PList [bundle_record "generic" ["left.jpg"; "right.jpg"]]).

Definition libro_key : list string := [".."; "example_projects"; "libro"].

(** The disk with the directory of [libro], empty. *)
Definition empty_project_disk : filesystem :=
  Filesystem (<[libro_key := Dir true]> (nodes disk)) 1000.

(** [libro] with a [bundles.json] that holds an empty object, one that is
    not JSON, and one that holds an empty list and may not be written. *)
Definition project_disk (readable writable : bool) (text : string) : filesystem :=
  Filesystem (<[(libro_key ++ ["bundles.json"])%list := File readable writable text]>
                (nodes empty_project_disk)) 1000.

Definition keyless_disk : filesystem := project_disk true true "{}".

Definition broken_disk : filesystem := project_disk true true "{".

Definition locked_disk : filesystem :=
  project_disk true false (json_dumps (bundles_document (PList []))).

(** The disk after [filled] was saved on [empty_project_disk]. *)
Definition saved_disk : filesystem := fst (save_bundles filled empty_project_disk).

(** The dialog after [libro] was opened with an empty bundle list:
    [load_project_and_update_dialog] has set the index to [0]. *)
Definition dialog : DigitizationDialog :=
  {| manager := set_current_project the_manager (Some opened);
     current_bundle_index := 0;
     gui := [] |}.

(** The disk once [scans/left.jpg] was copied into [libro]. *)
Definition copied_disk : filesystem :=
  match copy_images 5 dialog ["scans/left.jpg"] [] locked_disk with
  | Some (_, st, _) => st
  | None => locked_disk
  end.

End Scenario.

(* ===================================================================== *)
(** * gui/digitization_dialog.py: opening a project and moving through it *)
(* ===================================================================== *)

(** [len(v)]; a string counts its characters. *)
Definition py_len (v : pyval) : result Z :=
  match v with
  | PStr s => Ok (Z.of_nat (PyStr.len s))
  | PList items => Ok (Z.of_nat (length items))
  | PDict items => Ok (Z.of_nat (length items))
  | _ => Raise (TypeError ("object of type '" +:+ py_type_name v +:+ "' has no len()"))
  end.

(** [v[key]] for a key that is a string and needs no escaping when it is
    quoted. *)
Definition py_getitem (v : pyval) (key : string) : result pyval :=
  match v with
  | PDict items =>
      match assoc_get key items with
      | Some value => Ok value
      | None => Raise (KeyError ("'" +:+ key +:+ "'"))
      end
  | PList _ => Raise (TypeError "list indices must be integers or slices, not str")
  | PStr _ => Raise (TypeError "string indices must be integers, not 'str'")
  | _ => Raise (TypeError ("'" +:+ py_type_name v +:+ "' object is not subscriptable"))
  end.

Section NavigationMethods.

Context `{Libraries} `{Locale}.

(** [DigitizationDialog.previous_bundle]; the call of [show_current_bundle]
    is the redraw recorded in the trace. *)
Definition previous_bundle (self : DigitizationDialog) : result DigitizationDialog :=
  do bundles <- dialog_bundles self;
  if py_truthy bundles && (0 <? current_bundle_index self)%Z then
    let self := set_current_bundle_index self (current_bundle_index self - 1)%Z in
    Ok (emit ShowCurrentBundle self)
  else Ok self.

(** [DigitizationDialog.next_bundle]: [and] evaluates [len] only for a
    bundle list that is not empty. *)
Definition next_bundle (self : DigitizationDialog) : result DigitizationDialog :=
  do bundles <- dialog_bundles self;
  if py_truthy bundles then
    do count <- py_len bundles;
    if (current_bundle_index self <? count - 1)%Z then
      let self := set_current_bundle_index self (current_bundle_index self + 1)%Z in
      Ok (emit ShowCurrentBundle self)
    else Ok self
  else Ok self.

(** [DigitizationDialog.load_project_and_update_dialog].  [new_directory] is
    what [select_project] returned: the directory picked in the file
    selector, [None] standing for its [False].  The call of
    [show_current_bundle] is the redraw recorded in the trace.  The labels
    and buttons configured on the way and [last_parent_directory], which
    only seeds the next file selector, belong to the widget layer; with no
    bundle to show, [update_info_label] and [update_navigation_buttons] stop
    at their first test. *)
Definition load_project_and_update_dialog (self : DigitizationDialog)
    (new_directory : option string) (st : filesystem)
  : DigitizationDialog * filesystem * result bool :=
  if negb (str_truthy new_directory) then (self, st, Ok false)
  else
    let '(m, st, r) := load_project (manager self) (default "" new_directory) st in
    let self := set_manager self m in
    match r with
    | Raise e => (self, st, Raise e)
    | Ok (RetBool _) =>
        (self, st, Raise (TypeError "cannot unpack non-iterable bool object"))
    | Ok (RetTuple result message) =>
        if negb result then
          match message with
          | Some (title, detail) => (emit (ShowError title detail) self, st, Ok false)
          | None =>
              (self, st,
               Raise (TypeError "showerror() argument after * must be an iterable, not NoneType"))
          end
        else
          match current_project (manager self) with
          | None =>
              (self, st,
               Raise (AttributeError "'NoneType' object has no attribute 'project_metadata'"))
          | Some project =>
              match py_getitem (project_metadata project) "title" with
              | Raise e => (self, st, Raise e)
              | Ok _ =>
                  let self := set_current_bundle_index self 0 in
                  if py_truthy (bundles project)
                  then (emit ShowCurrentBundle self, st, Ok true)
                  else (self, st, Ok true)
              end
          end
    end.

End NavigationMethods.

(** [st'] has the nodes of [st] as they are and, where [st] has none,
    possibly a new directory: what [os.makedirs] does to a file system. *)
Definition adds_dirs (st st' : filesystem) : Prop :=
  forall k, nodes st' !! k = nodes st !! k \/
            (nodes st !! k = None /\ nodes st' !! k = Some (Dir true)).

(** The names the probing loop of [copy_image_to_directory] tries, in order:
    the name of the source, then that name with [_001], [_002], ... before
    its extension. *)
Definition image_candidate (base_name extension : string) (n : nat) : string :=
  match n with
  | O => base_name +:+ extension
  | S _ => base_name +:+ "_" +:+ PyStr.fmt_03d n +:+ extension
  end.

(* ===================================================================== *)
(** * More states of the session *)
(* ===================================================================== *)

(** The session of [Scenario] carried on: the project [Libro] created by the
    manager, copies of [libro] on media in several conditions, and dialogs
    standing on them. *)
Module Session.

#[local] Existing Instance Reference.libraries.
#[local] Existing Instance Reference.locale.

Import Scenario.

(** What [create_project] leaves for the title [Libro]. *)
Definition created_manager : ProjectManager :=
  match create_project 5 the_manager (Some "Libro") None disk with
  | Some (m, _, _) => m
  | None => the_manager
  end.

Definition created_disk : filesystem :=
  match create_project 5 the_manager (Some "Libro") None disk with
  | Some (_, st, _) => st
  | None => disk
  end.

Definition libro : Project :=
  set_project_metadata opened (PDict [("title", PStr "Libro"); ("description", PNone)]).

(** The dialog after [create_project_and_update_dialog] has made [Libro]:
    it has set the index to [-1]. *)
Definition created_dialog : DigitizationDialog :=
  {| manager := created_manager; current_bundle_index := (-1)%Z; gui := [] |}.

(** [created_disk] once [scans/left.jpg] was copied into the project. *)
Definition imported_disk : filesystem :=
  match copy_image_to_directory 5 "scans/left.jpg" "../example_projects/libro" created_disk with
  | Some (st, _, _) => st
  | None => created_disk
  end.

(** [imported_disk] once the bundle made of that image was saved. *)
Definition catalogued_disk : filesystem :=
  fst (save_bundles (set_bundles libro (PList [bundle_record "generic" ["left.jpg"]]))
         imported_disk).

(** [libro] on a medium that may not be written to, its [.cache] lost. *)
Definition archived_disk : filesystem :=
  Filesystem
    (<[(libro_key ++ ["bundles.json"])%list :=
         File true false (json_dumps (bundles_document (PList [])))]>
       (<[libro_key := Dir false]> (nodes disk)))
    1000.

(** [libro] with a [project_metadata.json] that holds an empty object. *)
Definition untitled_disk : filesystem :=
  Filesystem
    (<[(libro_key ++ ["project_metadata.json"])%list := File true true "{}"]>
       (nodes locked_disk))
    1000.

(** [untitled_disk] once [load_project] has made the subfolders. *)
Definition untitled_opened_disk : filesystem :=
  fst (ensure_subfolders opened untitled_disk).



(** A dialog on the second of three bundles. *)
Definition shelf : Project :=
  set_bundles opened
    (PList [bundle_record "generic" ["p1.jpg"];
            bundle_record "generic" ["p2.jpg"; "p3.jpg"];
            bundle_record "generic" ["p4.jpg"]]).

(** The dialog once it has opened [Libro] again. *)
Definition reopened_dialog : DigitizationDialog :=
  {| manager := created_manager; current_bundle_index := 0; gui := [] |}.

(** [empty_project_disk] once the metadata of [libro] were saved. *)
Definition titled_disk : filesystem := fst (save_project_metadata libro empty_project_disk).

(** [imported_disk] once [scans/left.jpg] was copied a second time. *)
Definition reimported_disk : filesystem :=
  match copy_image_to_directory (probe_fuel imported_disk) "scans/left.jpg"
          "../example_projects/libro" imported_disk with
  | Some (st, _, _) => st
  | None => imported_disk
  end.

Definition browsing : DigitizationDialog :=
  {| manager := set_current_project the_manager (Some shelf);
     current_bundle_index := 1;
     gui := [] |}.

(** The bundles of [shelf] once [scans/left.jpg] was added after the bundle
    on display, and [imported_disk] once they were saved. *)
Definition shelved : list pyval :=
  [bundle_record "generic" ["p1.jpg"];
   bundle_record "generic" ["p2.jpg"; "p3.jpg"];
   bundle_record "generic" ["left.jpg"];
   bundle_record "generic" ["p4.jpg"]].

Definition shelved_disk : filesystem :=
  fst (save_bundles (set_bundles shelf (PList shelved)) imported_disk).

(** [libro] with a page whose name is not ASCII, the disk once it was saved,
    and the name as an ISO-8859-1 locale reads it: the two bytes of the
    [a] with an acute accent, each taken for a character. *)
Definition accented : Project :=
  set_bundles opened (PList [bundle_record "generic" ["página.jpg"]]).

Definition accented_disk : filesystem := fst (save_bundles accented empty_project_disk).

Definition misread : pyval := PList [bundle_record "generic" ["pÃ¡gina.jpg"]].

End Session.

(* ===================================================================== *)
(** * Properties of strings and paths *)
(* ===================================================================== *)

Section PathFacts.

Import OsPath.

Lemma app_nil_str (s : string) : "" +:+ s = s.
Proof. reflexivity. Qed.

Lemma app_cons_str (a : ascii) (s t : string) : String a s +:+ t = String a (s +:+ t).
Proof. reflexivity. Qed.

Lemma app_empty_r (s : string) : s +:+ "" = s.
Proof.
  induction s as [|a s IH]; [reflexivity |].
  by rewrite app_cons_str, IH.
Qed.

Lemma app_assoc_str (a b c : string) : (a +:+ b) +:+ c = a +:+ (b +:+ c).
Proof.
  induction a as [|x a IH]; [reflexivity |].
  by rewrite !app_cons_str, IH.
Qed.

Lemma length_app_str (a b : string) :
  String.length (a +:+ b) = (String.length a + String.length b)%nat.
Proof.
  induction a as [|x a IH]; [reflexivity |].
  rewrite app_cons_str. simpl. by rewrite IH.
Qed.

Lemma split_nonempty (c : ascii) (s : string) : PyStr.split c s <> [].
Proof.
  induction s as [|a s IH]; simpl; [discriminate |].
  destruct (Ascii.eqb a c); [discriminate |].
  destruct (PyStr.split c s); [congruence | discriminate].
Qed.

(** Splitting distributes over a separator in the middle. *)
Lemma split_app_sep (c : ascii) (a b : string) :
  PyStr.split c (a +:+ String c b) = (PyStr.split c a ++ PyStr.split c b)%list.
Proof.
  induction a as [|x a IH].
  - rewrite app_nil_str. simpl. by rewrite Ascii.eqb_refl.
  - rewrite app_cons_str. simpl.
    destruct (Ascii.eqb x c); [by rewrite IH |].
    rewrite IH. pose proof (split_nonempty c a) as Hne.
    destruct (PyStr.split c a); [congruence | reflexivity].
Qed.

Lemma split_no_sep (c : ascii) (s : string) :
  PyStr.contains c s = false -> PyStr.split c s = [s].
Proof.
  induction s as [|a s IH]; simpl; [reflexivity |].
  intros Hc. apply orb_false_iff in Hc as [Ha Hs].
  rewrite Ha, (IH Hs). reflexivity.
Qed.

Lemma endswith_char_app (c : ascii) (s : string) :
  PyStr.endswith_char c s = true -> exists s', s = s' +:+ String c "".
Proof.
  induction s as [|a s IH]; simpl; [discriminate |].
  destruct s as [|b s].
  - intros Ha. apply Ascii.eqb_eq in Ha. subst. by exists "".
  - intros Hs. destruct (IH Hs) as [s' ->]. by exists (String a s').
Qed.

Lemma startswith_contains (c : ascii) (s : string) :
  PyStr.contains c s = false -> PyStr.startswith_char c s = false.
Proof.
  destruct s as [|a s]; simpl; [reflexivity |].
  intros Hc. by apply orb_false_iff in Hc as [Ha _].
Qed.

(** The components of a joined path, for a second part that holds no
    separator: those of the first part, then the second part. *)
Lemma split_join (a b : string) :
  PyStr.contains sep b = false ->
  exists front, PyStr.split sep (join a b) = (front ++ [b])%list /\
                List.filter component_ok front = resolve a.
Proof.
  intros Hb. unfold join. rewrite (startswith_contains _ _ Hb).
  destruct (String.eqb a "") eqn:Ha; simpl.
  - apply String.eqb_eq in Ha. subst a. exists []. simpl.
    by rewrite app_nil_str, (split_no_sep _ _ Hb).
  - destruct (PyStr.endswith_char sep a) eqn:He.
    + destruct (endswith_char_app _ _ He) as [a' ->].
      rewrite app_assoc_str, app_cons_str, app_nil_str.
      rewrite split_app_sep, (split_no_sep _ _ Hb).
      exists (PyStr.split sep a'). split; [reflexivity |].
      unfold resolve. rewrite split_app_sep. simpl.
      rewrite List.filter_app. simpl. by rewrite app_nil_r.
    + change (a +:+ "/" +:+ b) with (a +:+ String sep b).
      rewrite split_app_sep, (split_no_sep _ _ Hb).
      by exists (PyStr.split sep a).
Qed.

Lemma basename_join (a b : string) :
  PyStr.contains sep b = false -> basename (join a b) = b.
Proof.
  intros Hb. destruct (split_join a b Hb) as (front & Hs & _).
  unfold basename. by rewrite Hs, List.last_last.
Qed.

Lemma resolve_join (a b : string) :
  PyStr.contains sep b = false -> component_ok b = true ->
  resolve (join a b) = (resolve a ++ [b])%list.
Proof.
  intros Hb Hok. destruct (split_join a b Hb) as (front & Hs & Hf).
  unfold resolve at 1. rewrite Hs, List.filter_app, Hf. simpl. by rewrite Hok.
Qed.

Lemma app_not_empty_r (a b : string) : b <> "" -> a +:+ b <> "".
Proof. destruct a; [by rewrite app_nil_str | by rewrite app_cons_str]. Qed.

Lemma join_not_empty (a b : string) : b <> "" -> join a b <> "".
Proof.
  intros Hb. unfold join.
  destruct (PyStr.startswith_char sep b); [done |].
  destruct (String.eqb a "" || PyStr.endswith_char sep a).
  - by apply app_not_empty_r.
  - by apply app_not_empty_r.
Qed.

Lemma endswith_char_cons (c a : ascii) (s : string) :
  s <> "" -> PyStr.endswith_char c (String a s) = PyStr.endswith_char c s.
Proof. destruct s; [done | reflexivity]. Qed.

Lemma endswith_char_append (c : ascii) (a b : string) :
  b <> "" -> PyStr.endswith_char c (a +:+ b) = PyStr.endswith_char c b.
Proof.
  intros Hb. induction a as [|x a IH]; [reflexivity |].
  rewrite app_cons_str, endswith_char_cons; [exact IH |].
  by apply app_not_empty_r.
Qed.

(** A joined path ends with a separator only if its second part does. *)
Lemma endswith_join (a b : string) :
  b <> "" -> PyStr.contains sep b = false ->
  PyStr.endswith_char sep (join a b) = PyStr.endswith_char sep b.
Proof.
  intros Hne Hb. unfold join. rewrite (startswith_contains _ _ Hb).
  destruct (String.eqb a "" || PyStr.endswith_char sep a).
  - by apply endswith_char_append.
  - change (a +:+ "/" +:+ b) with (a +:+ (String sep b)).
    rewrite endswith_char_append; [| discriminate].
    by apply endswith_char_cons.
Qed.

End PathFacts.

(* ===================================================================== *)
(** * The reference [json] reads back what it writes *)
(* ===================================================================== *)

Section CodecFacts.

Import Reference.

(** One escaped character is read back as the character. *)
Lemma read_string_escape_char (c : ascii) (tail : string) :
  read_string (escape_char c +:+ tail) =
    match read_string tail with
    | Some (body, rest) => Some (String c body, rest)
    | None => None
    end.
Proof.
  destruct c as [[] [] [] [] [] [] [] []]; reflexivity.
Qed.

Lemma read_string_escape (s rest : string) :
  read_string (escape s +:+ String dquote rest) = Some (s, rest).
Proof.
  induction s as [|c s IH].
  - reflexivity.
  - simpl escape. rewrite app_assoc_str, read_string_escape_char, IH. reflexivity.
Qed.

Lemma read_string_quote (s rest : string) :
  exists tail, quote s +:+ rest = String dquote tail /\ read_string tail = Some (s, rest).
Proof.
  unfold quote. eexists. split; [reflexivity |].
  rewrite app_assoc_str. apply read_string_escape.
Qed.


Lemma pyval_nested_ind (P : pyval -> Prop) :
  P PNone -> (forall b, P (PBool b)) -> (forall z, P (PInt z)) -> (forall s, P (PStr s)) ->
  (forall items, Forall P items -> P (PList items)) ->
  (forall items, Forall (fun kv => P (snd kv)) items -> P (PDict items)) ->
  forall v, P v.
Proof.
  intros HNone HBool HInt HStr HList HDict.
  fix IH 1. intros [| b | z | s | items | items].
  - exact HNone.
  - apply HBool.
  - apply HInt.
  - apply HStr.
  - apply HList. induction items as [|x items IHitems]; constructor; [apply IH | exact IHitems].
  - apply HDict. induction items as [|[k x] items IHitems]; constructor;
      [apply IH | exact IHitems].
Qed.

Lemma is_space_spaces (n : nat) (s : string) : skip_spaces (spaces n +:+ s) = skip_spaces s.
Proof. induction n as [|n IH]; [reflexivity | exact IH]. Qed.

Lemma skip_spaces_break (level : nat) (s : string) :
  skip_spaces (break level +:+ s) = skip_spaces s.
Proof. unfold break. rewrite app_cons_str. simpl. apply is_space_spaces. Qed.

Lemma dumps_opens (level : nat) (v : pyval) : plain v = true -> opens (dumps_at level v).
Proof.
  unfold opens. destruct v as [| [] | z | s | [|x items] | [|kv items]]; simpl; try discriminate;
    intros _; eexists _, _; (split; [reflexivity |]); repeat split; reflexivity.
Qed.

Lemma opens_app (s rest : string) : opens s -> opens (s +:+ rest).
Proof.
  intros (c & tail & -> & Hc). exists c, (tail +:+ rest). by rewrite app_cons_str.
Qed.

Lemma opens_skip (s : string) : opens s -> skip_spaces s = s.
Proof. intros (c & tail & -> & Hs & _). simpl. by rewrite Hs. Qed.

Lemma read_value_skip (fuel : nat) (s t : string) :
  skip_spaces s = skip_spaces t -> read_value fuel s = read_value fuel t.
Proof. intros Heq. destruct fuel; [reflexivity |]. simpl. by rewrite Heq. Qed.


Ltac lengths :=
  repeat first [ rewrite length_app_str | rewrite app_cons_str | progress simpl String.length ].

Lemma length_app_le (a b : string) : (String.length b <= String.length (a +:+ b))%nat.
Proof. rewrite length_app_str. lia. Qed.

Lemma break_length (level : nat) : (1 <= String.length (break level))%nat.
Proof. unfold break. simpl. lia. Qed.

Lemma read_elements_items (items : list pyval) :
  Forall (fun v => plain v = true -> reads_back v) items ->
  forallb plain items = true -> items <> [] ->
  forall acc level fuel rest,
    let text :=
      break (S level)
        +:+ join_with ("," +:+ break (S level)) (map (dumps_at (S level)) items)
        +:+ break level +:+ "]" +:+ rest in
    (2 * String.length text + 2 <= fuel)%nat ->
    read_elements fuel text acc = Some (PList (acc ++ items), rest).
Proof.
  induction 1 as [|x items Hx Hitems IH]; [done |].
  intros Hplain _ acc level fuel rest text Hfuel.
  simpl in Hplain. apply andb_true_iff in Hplain as [Hpx Hpitems].
  destruct fuel as [|fuel]; [lia |].
  pose proof (break_length (S level)) as Hbreak.
  destruct items as [|y items].
  - (* the last element *)
    subst text. simpl map in *. simpl join_with in *.
    simpl read_elements.
    rewrite (read_value_skip _ _ (dumps_at (S level) x +:+ break level +:+ "]" +:+ rest)).
    2:{ rewrite skip_spaces_break. by rewrite ?app_assoc_str. }
    rewrite (Hx Hpx).
    2:{ revert Hfuel. rewrite ?app_assoc_str. lengths. lia. }
    rewrite skip_spaces_break. reflexivity.
  - (* an element followed by others *)
    subst text. simpl map in *.
    change (join_with ("," +:+ break (S level))
              (dumps_at (S level) x :: dumps_at (S level) y :: map (dumps_at (S level)) items))
      with (dumps_at (S level) x +:+ ("," +:+ break (S level))
              +:+ join_with ("," +:+ break (S level))
                    (map (dumps_at (S level)) (y :: items))) in *.
    set (others := join_with ("," +:+ break (S level)) (map (dumps_at (S level)) (y :: items))) in *.
    simpl read_elements.
    rewrite (read_value_skip _ _
               (dumps_at (S level) x
                  +:+ String "," (break (S level) +:+ others +:+ break level +:+ "]" +:+ rest))).
    2:{ rewrite skip_spaces_break. by rewrite ?app_assoc_str. }
    rewrite (Hx Hpx).
    2:{ revert Hfuel. rewrite ?app_assoc_str. lengths. lia. }
    simpl skip_spaces. simpl.
    etrans.
    { apply (IH Hpitems ltac:(done) (acc ++ [x])%list level fuel rest).
      revert Hfuel. unfold others. simpl map. rewrite ?app_assoc_str. lengths. lia. }
    by rewrite <- app_assoc.
Qed.


Lemma assoc_set_fresh (key : string) (v : pyval) (acc : list (string * pyval)) :
  key ∉ map fst acc -> assoc_set key v acc = (acc ++ [(key, v)])%list.
Proof.
  induction acc as [|[k x] acc IH]; [reflexivity |].
  simpl. intros Hfresh. apply not_elem_of_cons in Hfresh as [Hne Hfresh].
  destruct (String.eqb k key) eqn:Hk; [apply String.eqb_eq in Hk; congruence |].
  by rewrite IH.
Qed.

(** One member of an object, once its value is known to be read back. *)
Lemma read_members_step (fuel level : nat) (key : string) (v : pyval)
    (acc : list (string * pyval)) (tail : string) :
  read_value fuel (dumps_at (S level) v +:+ tail) = Some (v, tail) ->
  read_members (S fuel)
    (break (S level) +:+ (quote key +:+ ": " +:+ dumps_at (S level) v) +:+ tail) acc =
    match skip_spaces tail with
    | String c rest =>
        if Ascii.eqb c "," then read_members fuel rest (assoc_set key v acc)
        else if Ascii.eqb c "}" then Some (PDict (assoc_set key v acc), rest)
        else None
    | EmptyString => None
    end.
Proof.
  intros Hv.
  change (read_members (S fuel) ?s acc) with
    (match skip_spaces s with
     | String q s' =>
         if Ascii.eqb q dquote then
           match read_string s' with
           | Some (key, rest) =>
               match skip_spaces rest with
               | String colon rest' =>
                   if Ascii.eqb colon ":" then
                     match read_value fuel rest' with
                     | Some (v, rest'') =>
                         match skip_spaces rest'' with
                         | String c rest3 =>
                             if Ascii.eqb c "," then read_members fuel rest3 (assoc_set key v acc)
                             else if Ascii.eqb c "}" then Some (PDict (assoc_set key v acc), rest3)
                             else None
                         | EmptyString => None
                         end
                     | None => None
                     end
                   else None
               | EmptyString => None
               end
           | None => None
           end
         else None
     | EmptyString => None
     end).
  rewrite skip_spaces_break.
  unfold quote. rewrite ?app_assoc_str, ?app_cons_str, ?app_nil_str.
  change (skip_spaces (String dquote ?s)) with (String dquote s).
  cbv iota beta. rewrite Ascii.eqb_refl.
  repeat first [rewrite app_assoc_str | rewrite app_cons_str | rewrite app_nil_str].
  rewrite read_string_escape.
  change (skip_spaces (String ":" ?s)) with (String ":"%char s).
  cbv iota beta. rewrite Ascii.eqb_refl.
  rewrite (read_value_skip _ _ (dumps_at (S level) v +:+ tail)) by reflexivity.
  by rewrite Hv.
Qed.


Lemma read_members_items (items : list (string * pyval)) :
  Forall (fun kv => plain (snd kv) = true -> reads_back (snd kv)) items ->
  forallb (fun kv => plain (snd kv)) items = true -> items <> [] ->
  forall acc level fuel rest,
    NoDup (map fst (acc ++ items)) ->
    let text :=
      break (S level)
        +:+ join_with ("," +:+ break (S level))
              (map (fun kv => quote (fst kv) +:+ ": " +:+ dumps_at (S level) (snd kv)) items)
        +:+ break level +:+ "}" +:+ rest in
    (2 * String.length text + 2 <= fuel)%nat ->
    read_members fuel text acc = Some (PDict (acc ++ items), rest).
Proof.
  induction 1 as [|[key x] items Hx Hitems IH]; [done |].
  intros Hplain _ acc level fuel rest Hkeys text Hfuel.
  simpl in Hplain, Hx. apply andb_true_iff in Hplain as [Hpx Hpitems].
  destruct fuel as [|fuel]; [lia |].
  pose proof (break_length (S level)) as Hbreak.
  assert (Hfresh : assoc_set key x acc = (acc ++ [(key, x)])%list).
  { apply assoc_set_fresh. rewrite map_app in Hkeys. simpl in Hkeys.
    apply NoDup_app in Hkeys as (_ & Hdisjoint & _).
    intros Hin. apply (Hdisjoint key Hin). left. }
  destruct items as [|y items].
  - (* the last member *)
    subst text. simpl map in *. simpl join_with in *.
    rewrite read_members_step.
    + rewrite skip_spaces_break. simpl. by rewrite Hfresh.
    + apply (Hx Hpx). revert Hfuel. rewrite ?app_assoc_str. lengths. lia.
  - (* a member followed by others *)
    subst text. simpl map in *.
    change (join_with ?sep (?a :: ?b :: ?l)) with (a +:+ sep +:+ join_with sep (b :: l)) in *.
    set (others := join_with _ (_ :: map _ items)) in *.
    replace (break (S level)
               +:+ ((quote key +:+ ": " +:+ dumps_at (S level) x)
                      +:+ ("," +:+ break (S level)) +:+ others)
               +:+ break level +:+ "}" +:+ rest)
      with (break (S level)
              +:+ (quote key +:+ ": " +:+ dumps_at (S level) x)
              +:+ String "," (break (S level) +:+ others +:+ break level +:+ "}" +:+ rest))
      by (by rewrite ?app_assoc_str).
    rewrite read_members_step.
    + simpl skip_spaces. simpl. rewrite Hfresh.
      etrans.
      { apply (IH Hpitems ltac:(done) (acc ++ [(key, x)])%list level fuel rest).
        - by rewrite <- app_assoc.
        - simpl map. fold others. revert Hfuel. rewrite ?app_assoc_str. lengths. lia. }
      by rewrite <- app_assoc.
    + apply (Hx Hpx). revert Hfuel. rewrite ?app_assoc_str. lengths. lia.
Qed.

Lemma opens_bracket {A : Type} (s : string) (x : string -> A) (y z : A) :
  opens s ->
  match s with
  | String c rest => if Ascii.eqb c "]" then x rest else y
  | EmptyString => z
  end = y.
Proof. intros (c & tail & -> & _ & Hc & _). by rewrite Hc. Qed.

Lemma opens_brace {A : Type} (s : string) (x : string -> A) (y z : A) :
  opens s ->
  match s with
  | String c rest => if Ascii.eqb c "}" then x rest else y
  | EmptyString => z
  end = y.
Proof. intros (c & tail & -> & _ & _ & Hc). by rewrite Hc. Qed.

(** Every plain value is read back from what [dumps_at] writes, whatever
    follows it. *)
Lemma plain_reads_back (v : pyval) : plain v = true -> reads_back v.
Proof.
  induction v as [| b | z | s | items IH | items IH] using pyval_nested_ind;
    intros Hplain level fuel rest Hfuel.
  - destruct fuel; [lia | reflexivity].
  - destruct fuel; [lia |]. destruct b; reflexivity.
  - discriminate.
  - destruct fuel; [lia |].
    destruct (read_string_quote s rest) as (tail & Hq & Hread).
    simpl dumps_at. rewrite Hq. simpl. by rewrite Hread.
  - destruct fuel as [|fuel]; [lia |]. destruct items as [|x items]; [reflexivity |].
    simpl in Hplain.
    change (dumps_at level (PList (x :: items)))
      with ("[" +:+ break (S level)
              +:+ join_with ("," +:+ break (S level)) (map (dumps_at (S level)) (x :: items))
              +:+ break level +:+ "]") in *.
    set (body := join_with ("," +:+ break (S level)) (map (dumps_at (S level)) (x :: items))) in *.
    replace (("[" +:+ break (S level) +:+ body +:+ break level +:+ "]") +:+ rest)
      with (String "[" (break (S level) +:+ body +:+ break level +:+ "]" +:+ rest)) in *
      by (by rewrite ?app_assoc_str).
    assert (Hopens : opens (body +:+ break level +:+ "]" +:+ rest)).
    { apply opens_app. unfold body. simpl map.
      apply andb_true_iff in Hplain as [Hpx _].
      destruct items; simpl join_with; [| apply opens_app]; by apply dumps_opens. }
    change (read_value (S fuel) (String "[" ?s')) with
      (match skip_spaces s' with
       | String c' rest0 =>
           if Ascii.eqb c' "]" then Some (PList [], rest0) else read_elements fuel s' []
       | EmptyString => None
       end).
    rewrite skip_spaces_break, (opens_skip _ Hopens).
    etrans; [apply opens_bracket; exact Hopens |].
    apply (read_elements_items (x :: items) IH Hplain ltac:(done) [] level fuel rest).
    revert Hfuel. fold body. simpl String.length. lia.
  - destruct fuel as [|fuel]; [lia |]. destruct items as [|kv items]; [reflexivity |].
    simpl in Hplain. apply andb_true_iff in Hplain as [Hplain Hkeys].
    apply bool_decide_eq_true in Hkeys.
    set (member := fun kv : string * pyval =>
                     quote (fst kv) +:+ ": " +:+ dumps_at (S level) (snd kv)).
    change (dumps_at level (PDict (kv :: items)))
      with ("{" +:+ break (S level)
              +:+ join_with ("," +:+ break (S level)) (map member (kv :: items))
              +:+ break level +:+ "}") in *.
    set (body := join_with ("," +:+ break (S level)) (map member (kv :: items))) in *.
    replace (("{" +:+ break (S level) +:+ body +:+ break level +:+ "}") +:+ rest)
      with (String "{" (break (S level) +:+ body +:+ break level +:+ "}" +:+ rest)) in *
      by (by rewrite ?app_assoc_str).
    assert (Hopens : opens (body +:+ break level +:+ "}" +:+ rest)).
    { apply opens_app. unfold body. simpl map.
      assert (Hm : opens (member kv)).
      { unfold member, quote. rewrite app_cons_str. by eexists _, _. }
      destruct items; simpl join_with; [| apply opens_app]; exact Hm. }
    change (read_value (S fuel) (String "{" ?s')) with
      (match skip_spaces s' with
       | String c' rest0 =>
           if Ascii.eqb c' "}" then Some (PDict [], rest0) else read_members fuel s' []
       | EmptyString => None
       end).
    rewrite skip_spaces_break, (opens_skip _ Hopens).
    etrans; [apply opens_brace; exact Hopens |].
    apply (read_members_items (kv :: items) IH Hplain ltac:(done) [] level fuel rest Hkeys).
    revert Hfuel. fold member. fold body. simpl String.length. lia.
Qed.

(** The reference [loads] inverts the reference [dumps] on plain values. *)
Theorem loads_dumps (v : pyval) : plain v = true -> loads (dumps v) = Some v.
Proof.
  intros Hplain. unfold loads, dumps.
  pose proof (plain_reads_back v Hplain 0 (2 * String.length (dumps_at 0 v) + 2) "") as Hread.
  rewrite app_empty_r in Hread. by rewrite Hread by lia.
Qed.

End CodecFacts.

(* ===================================================================== *)
(** * Loading and saving a project *)
(* ===================================================================== *)

Section ProjectFacts.

Context `{Libraries} `{Locale}.

Lemma no_entry_read_text (p : string) (st : filesystem) :
  no_entry p st = true -> exists q, Os.read_text p st = Raise (OSError ENOENT q).
Proof.
  unfold no_entry, Os.read_text, Os.read_bytes. destruct (Os.stat p st) as [n|e]; [done |].
  destruct e as [[] q| | | | | | |]; try done. intros _. by exists q.
Qed.

Lemma load_from_json_not_found (file item_name q : string) (st : filesystem) :
  Os.read_text file st = Raise (OSError ENOENT q) ->
  load_from_json file item_name st =
    (false, Some ("Error", "No existe " +:+ OsPath.basename file +:+ " en el proyecto"), PNone).
Proof. intros Hr. unfold load_from_json. by rewrite Hr. Qed.

Lemma load_from_json_malformed (file item_name text : string) (st : filesystem) :
  Os.read_text file st = Ok text -> json_loads text = None ->
  load_from_json file item_name st =
    (false, Some ("Error", "Error al leer {filename}"), PNone).
Proof.
  intros Hr Hj. unfold load_from_json, json_load. rewrite Hr. simpl. by rewrite Hj.
Qed.

Lemma load_from_json_dict (file item_name text : string) (items : list (string * pyval))
    (st : filesystem) :
  Os.read_text file st = Ok text -> json_loads text = Some (PDict items) ->
  let item := from_option id (PList []) (assoc_get item_name items) in
  load_from_json file item_name st =
    (true,
     if negb (py_truthy item)
     then Some ("Advertencia", "No se encontro {item_name} en el archivo JSON")
     else None,
     item).
Proof.
  intros Hr Hj. unfold load_from_json, json_load. rewrite Hr. simpl. by rewrite Hj.
Qed.

(** A failed load hands back [None] in the place of the item. *)
Lemma load_from_json_failure (file item_name : string) (st : filesystem)
    (message : option message) (item : pyval) :
  load_from_json file item_name st = (false, message, item) -> item = PNone.
Proof.
  unfold load_from_json.
  destruct (do text <- Os.read_text file st; do data <- json_load text;
            py_get data item_name (PList [])) as [v|e].
  - discriminate.
  - destruct (is_FileNotFoundError e); [congruence |].
    destruct (is_JSONDecodeError e); congruence.
Qed.

Lemma load_bundles_failure_keeps (self self' : Project) (st : filesystem)
    (message : option message) :
  load_bundles self st = (self', (false, message)) -> self' = self.
Proof.
  unfold load_bundles.
  destruct (load_from_json (files_bundles (files self)) "bundles" st) as [[result m] item].
  destruct result; simpl; [discriminate | congruence].
Qed.

Lemma project_layout_bundles (self : Project) :
  project_layout self ->
  files_bundles (files self) = OsPath.join (directory self) "bundles.json".
Proof. intros [-> _]. reflexivity. Qed.

(** C4.  A missing [bundles.json] makes [load_bundles] fail with the message
    of the [FileNotFoundError] handler (the not-found condition), a
    [bundles.json] that [json] cannot decode makes it fail with the message
    of the [JSONDecodeError] handler (the parse-error condition), and
    whenever [load_bundles] fails the project object, its bundle list
    included, is the one it was before the call. *)
Theorem load_bundles_failures (self : Project) (st : filesystem) :
  project_layout self ->
  let file := OsPath.join (directory self) "bundles.json" in
  (no_entry file st = true ->
     load_bundles self st =
       (self, (false, Some ("Error", "No existe bundles.json en el proyecto")))) /\
  (forall text, Os.read_text file st = Ok text -> json_loads text = None ->
     load_bundles self st = (self, (false, Some ("Error", "Error al leer {filename}")))) /\
  (forall self' message,
     load_bundles self st = (self', (false, message)) ->
     self' = self /\ bundles self' = bundles self).
Proof.
  intros Hlayout file. pose proof (project_layout_bundles self Hlayout) as Hfile.
  fold file in Hfile. split; [| split].
  - intros Habs. destruct (no_entry_read_text _ _ Habs) as [q Hr].
    unfold load_bundles. rewrite Hfile, (load_from_json_not_found _ _ q _ Hr). simpl.
    unfold file. by rewrite basename_join.
  - intros text Hr Hj. unfold load_bundles.
    by rewrite Hfile, (load_from_json_malformed _ _ text _ Hr Hj).
  - intros self' message Hfail.
    by apply load_bundles_failure_keeps in Hfail as ->.
Qed.

(** C2.  When [bundles.json] holds an object whose [bundles] key is missing
    or empty, [load_from_json] builds the warning and [load_bundles] drops
    it: the call succeeds with [(True, None)], the bundle list being the
    empty value read (the empty list when the key is missing). *)
Theorem load_bundles_drops_warning (self : Project) (st : filesystem) (text : string)
    (items : list (string * pyval)) :
  Os.read_text (files_bundles (files self)) st = Ok text ->
  json_loads text = Some (PDict items) ->
  let item := from_option id (PList []) (assoc_get "bundles" items) in
  py_truthy item = false ->
  load_from_json (files_bundles (files self)) "bundles" st =
    (true, Some ("Advertencia", "No se encontro {item_name} en el archivo JSON"), item) /\
  load_bundles self st = (set_bundles self item, (true, None)) /\
  (assoc_get "bundles" items = None -> item = PList []).
Proof.
  intros Hr Hj item Hfalsy.
  pose proof (load_from_json_dict _ "bundles" _ _ _ Hr Hj) as Hload.
  simpl in Hload. fold item in Hload. rewrite Hfalsy in Hload. simpl in Hload.
  split; [exact Hload |]. split.
  - unfold load_bundles. by rewrite Hload.
  - intros Hnone. unfold item. by rewrite Hnone.
Qed.

(** What a write that went through leaves behind. *)
Lemma write_text_ok (p content : string) (st st' : filesystem) (u : unit) :
  Os.write_text p content st = (st', Ok u) ->
  p <> "" /\ PyStr.endswith_char OsPath.sep p = false /\
  exists r w, nodes st' !! OsPath.resolve p = Some (File r w content).
Proof.
  unfold Os.write_text, Os.store.
  destruct (String.eqb p "") eqn:Hp; [discriminate |].
  apply String.eqb_neq in Hp. intros Hw. split; [exact Hp |].
  destruct (nodes st !! OsPath.resolve p) as [[w|r w old]|] eqn:Hk.
  - discriminate.
  - destruct (PyStr.endswith_char OsPath.sep p); [discriminate |].
    split; [reflexivity |]. destruct w; [| discriminate].
    destruct (String.length content <=? free st + String.length old)%nat; [| discriminate].
    injection Hw as <- _. exists r, true. simpl. apply lookup_insert_eq.
  - destruct (nodes st !! Os.parent_key (OsPath.resolve p)) as [[[]|]|]; try discriminate.
    destruct (PyStr.endswith_char OsPath.sep p); [discriminate |].
    split; [reflexivity |]. destruct (free st) as [|avail]; [discriminate |].
    destruct (String.length content <=? avail)%nat; [| discriminate].
    injection Hw as <- _. exists true, true. simpl. apply lookup_insert_eq.
Qed.

Lemma read_bytes_file (p content : string) (r w : bool) (st : filesystem) :
  p <> "" -> PyStr.endswith_char OsPath.sep p = false ->
  nodes st !! OsPath.resolve p = Some (File r w content) ->
  Os.read_bytes p st = if r then Ok content else Raise (OSError EACCES p).
Proof.
  intros Hp He Hk. unfold Os.read_bytes, Os.stat.
  apply String.eqb_neq in Hp. rewrite Hp, Hk, He. reflexivity.
Qed.

(** Reading as text is reading the bytes and decoding them. *)
Lemma read_text_bytes (p bytes : string) (st : filesystem) :
  Os.read_bytes p st = Ok bytes -> Os.read_text p st = Os.decode bytes.
Proof. intros Hr. unfold Os.read_text. by rewrite Hr. Qed.

Lemma read_text_raises (p : string) (st : filesystem) (e : exn) :
  Os.read_bytes p st = Raise e -> Os.read_text p st = Raise e.
Proof. intros Hr. unfold Os.read_text. by rewrite Hr. Qed.

(** A read that ends in [OSError] has failed before any byte was decoded. *)
Lemma read_text_oserror (p q : string) (st : filesystem) (code : errno) :
  Os.read_text p st = Raise (OSError code q) -> Os.read_bytes p st = Raise (OSError code q).
Proof.
  unfold Os.read_text, Os.decode. destruct (Os.read_bytes p st) as [bytes|e]; [| done].
  simpl. by destruct (locale_decode bytes).
Qed.

Lemma save_to_json_ok (file : string) (data : pyval) (st st' : filesystem)
    (message : option message) :
  save_to_json file data st = (st', (true, message)) ->
  message = None /\
  (Os.read_bytes file st' = Ok (json_dumps data) \/
   Os.read_bytes file st' = Raise (OSError EACCES file)).
Proof.
  unfold save_to_json.
  destruct (Os.write_text file (json_dumps data) st) as [st1 [u|e]] eqn:Hw; [| discriminate].
  intros [= <- <-]. split; [reflexivity |].
  destruct (write_text_ok _ _ _ _ _ Hw) as (Hp & He & r & w & Hk).
  rewrite (read_bytes_file _ _ _ _ _ Hp He Hk). destruct r; auto.
Qed.

Lemma save_bundles_ok (self : Project) (st st' : filesystem) (message : option message) :
  save_bundles self st = (st', (true, message)) ->
  save_to_json (files_bundles (files self)) (bundles_document (bundles self)) st
    = (st', (true, message)).
Proof.
  unfold save_bundles, bundles_document.
  destruct (save_to_json _ _ st) as [st1 [[] m]]; simpl; congruence.
Qed.

(** Loading what was just saved, in terms of the document written, where
    the locale decodes that document to itself. *)
Lemma load_after_save (self self' : Project) (st st' : filesystem)
    (message : option message) :
  files_bundles (files self') = files_bundles (files self) ->
  json_loads (json_dumps (bundles_document (bundles self)))
    = Some (bundles_document (bundles self)) ->
  locale_decode (json_dumps (bundles_document (bundles self)))
    = inl (json_dumps (bundles_document (bundles self))) ->
  save_bundles self st = (st', (true, message)) ->
  Os.read_bytes (files_bundles (files self)) st'
    <> Raise (OSError EACCES (files_bundles (files self))) ->
  load_bundles self' st' = (set_bundles self' (bundles self), (true, None)).
Proof.
  intros Hsame Hcodec Hlocale Hsave Hread.
  apply save_bundles_ok, save_to_json_ok in Hsave as [_ [Hr | Hr]]; [| done].
  apply read_text_bytes in Hr. unfold Os.decode in Hr. rewrite Hlocale in Hr.
  pose proof (load_from_json_dict _ "bundles" _ _ _ Hr Hcodec) as Hload.
  simpl in Hload. unfold load_bundles. by rewrite Hsame, Hload.
Qed.

End ProjectFacts.

(** ** The round trip of the bundle list *)

Section RoundtripFacts.

Context `{Libraries} `{Locale}.

Lemma strings_plain (names : list string) : forallb plain (map PStr names) = true.
Proof. induction names as [|name names IH]; [reflexivity | exact IH]. Qed.

Lemma bundle_record_plain (type : string) (images : list string) :
  plain (bundle_record type images) = true.
Proof. unfold bundle_record. simpl. by rewrite strings_plain. Qed.

(** Every sequence of bundle records makes a plain document. *)
Lemma bundle_records_plain (records : list (string * list string)) :
  plain (bundles_document
           (PList (map (fun r => bundle_record (fst r) (snd r)) records))) = true.
Proof.
  unfold bundles_document.
  change (forallb plain (map (fun r => bundle_record (fst r) (snd r)) records)
            && true && bool_decide (NoDup ["bundles"]) = true).
  rewrite andb_true_r. apply andb_true_iff. split.
  - induction records as [|[type images] records IH]; [reflexivity |].
    change (plain (bundle_record type images)
              && forallb plain (map (fun r => bundle_record (fst r) (snd r)) records) = true).
    by rewrite bundle_record_plain.
  - reflexivity.
Qed.

(** Where the locale reads [bundles.json] as it was written (in a UTF-8
    locale, or for records whose names are ASCII) the round trip holds.
    For every sequence of zero or more bundle records [{type, images}]:
    after [save_bundles] has succeeded, [load_bundles] on a project object
    of the same [bundles.json] (the saving object itself, or one made anew
    for the directory) succeeds and sets the in-memory bundle sequence to
    the one that was saved.  This holds with any JSON library that reads
    back the integer-free values it writes, as the reference one is proved
    to do, and unless the file may not be read. *)
Lemma save_load_bundles_as_written (records : list (string * list string))
    (self self' : Project) (st st' : filesystem) (message : option message) :
  (forall v, plain v = true -> json_loads (json_dumps v) = Some v) ->
  bundles self = PList (map (fun r => bundle_record (fst r) (snd r)) records) ->
  locale_decode (json_dumps (bundles_document (bundles self)))
    = inl (json_dumps (bundles_document (bundles self))) ->
  files_bundles (files self') = files_bundles (files self) ->
  save_bundles self st = (st', (true, message)) ->
  Os.read_bytes (files_bundles (files self)) st'
    <> Raise (OSError EACCES (files_bundles (files self))) ->
  load_bundles self' st' = (set_bundles self' (bundles self), (true, None)) /\
  bundles (fst (load_bundles self st'))
    = PList (map (fun r => bundle_record (fst r) (snd r)) records).
Proof.
  intros Hcodec Hrecords Hlocale Hsame Hsave Hread.
  assert (Hdoc : json_loads (json_dumps (bundles_document (bundles self)))
                 = Some (bundles_document (bundles self))).
  { rewrite Hrecords. apply Hcodec, bundle_records_plain. }
  split.
  - by eapply load_after_save.
  - rewrite (load_after_save self self st st' message eq_refl Hdoc Hlocale Hsave Hread).
    exact Hrecords.
Qed.

End RoundtripFacts.

(* ===================================================================== *)
(** * The manager: failures of [load_project] and [create_project] *)
(* ===================================================================== *)

Section ManagerFacts.

Context `{Libraries} `{Locale}.

(** C1.  On a directory that does not exist, [load_project] does not reach
    its [return]: building the message reads the local [project] before any
    assignment, and the call ends in [UnboundLocalError], the manager and
    the file system being as they were. *)
Theorem load_project_missing_directory (self : ProjectManager) (directory : string)
    (st : filesystem) :
  Os.path_exists directory st = false ->
  load_project self directory st = (self, st, Raise (UnboundLocalError "project")).
Proof. intros Hmissing. unfold load_project. by rewrite Hmissing. Qed.

(** C3.  With no title, or an empty one, [create_project] returns the bare
    [False]: no [(category, detail)] pair comes with it.  The file system,
    and so the set of directories, is untouched, and so is the manager. *)
Theorem create_project_empty_title (fuel : nat) (self : ProjectManager)
    (title parent_directory : option string) (st : filesystem) :
  title = None \/ title = Some "" ->
  create_project fuel self title parent_directory st = Some (self, st, Ok (RetBool false)).
Proof. intros [-> | ->]; reflexivity. Qed.

(** C10.  Whenever [create_project] ends otherwise than by its final
    [return True, None], the manager is unchanged, [current_project]
    included; when it ends by it, [current_project] is the new project. *)
Theorem create_project_failure_keeps_current (fuel : nat) (self self' : ProjectManager)
    (title parent_directory : option string) (st st' : filesystem) (r : result returned) :
  create_project fuel self title parent_directory st = Some (self', st', r) ->
  (r <> created -> self' = self /\ current_project self' = current_project self) /\
  (r = created ->
   exists new_project, current_project self' = Some new_project /\
     title = Some (default "" title) /\
     project_metadata new_project
       = PDict [("title", PStr (default "" title)); ("description", PNone)]).
Proof.
  unfold create_project, created.
  destruct (str_truthy title) eqn:Htitle; simpl.
  2:{ intros [= <- <- <-]. split; [done | discriminate]. }
  destruct (probe_directory _ _ _ _ _ _) as [new_directory|]; [| discriminate].
  destruct (Os.makedirs _ st) as [st1 [u|e]].
  2:{ intros [= <- <- <-]. split; [done | discriminate]. }
  destruct (ensure_subfolders _ st1) as [st2 [[] m2]]; simpl.
  2:{ intros [= <- <- <-]. split; [done | discriminate]. }
  destruct (save_bundles _ st2) as [st3 [[] m3]]; simpl.
  2:{ intros [= <- <- <-]. split; [done | discriminate]. }
  destruct (save_project_metadata _ st3) as [st4 [[] m4]]; simpl.
  2:{ intros [= <- <- <-]. split; [done | discriminate]. }
  intros [= <- <- <-]. split; [done |]. intros _.
  eexists. split; [reflexivity |]. split; [| reflexivity].
  destruct title as [t|]; [reflexivity | discriminate].
Qed.

End ManagerFacts.

(* ===================================================================== *)
(** * The file system only grows *)
(* ===================================================================== *)

Section FilesystemFacts.

Lemma grows_refl (st : filesystem) : grows st st.
Proof. intros k. destruct (nodes st !! k) as [[w|r w c]|]; eauto. Qed.

Lemma grows_trans (st1 st2 st3 : filesystem) :
  grows st1 st2 -> grows st2 st3 -> grows st1 st3.
Proof.
  intros H12 H23 k. specialize (H12 k). specialize (H23 k).
  destruct (nodes st1 !! k) as [[w|r w c]|]; [| | done].
  - by rewrite H12 in H23.
  - destruct H12 as [c' Hc']. by rewrite Hc' in H23.
Qed.

(** Adding a node where there was none. *)
Lemma grows_insert_fresh (st : filesystem) (k : list string) (n : node) (f : nat) :
  nodes st !! k = None -> grows st (Filesystem (<[k := n]> (nodes st)) f).
Proof.
  intros Hk k'. destruct (decide (k = k')) as [<- | Hne].
  - by rewrite Hk.
  - simpl. rewrite lookup_insert_ne by done.
    destruct (nodes st !! k') as [[w|r w c]|]; eauto.
Qed.

(** Replacing the content of a file. *)
Lemma grows_insert_file (st : filesystem) (k : list string) (r w : bool)
    (old content : string) (f : nat) :
  nodes st !! k = Some (File r w old) ->
  grows st (Filesystem (<[k := File r w content]> (nodes st)) f).
Proof.
  intros Hk k'. destruct (decide (k = k')) as [<- | Hne].
  - rewrite Hk. simpl. rewrite lookup_insert_eq. eauto.
  - simpl. rewrite lookup_insert_ne by done.
    destruct (nodes st !! k') as [[w'|r' w' c]|]; eauto.
Qed.

Lemma mkdir_key_grows (k : list string) (p : string) (st st' : filesystem)
    (r : result unit) :
  Os.mkdir_key k p st = (st', r) -> grows st st'.
Proof.
  unfold Os.mkdir_key.
  destruct (nodes st !! k) eqn:Hk; [intros [= <- _]; apply grows_refl |].
  destruct (nodes st !! Os.parent_key k) as [[[]|]|];
    try (intros [= <- _]; apply grows_refl).
  destruct (free st); intros [= <- _]; [apply grows_refl |].
  by apply grows_insert_fresh.
Qed.

Lemma mkdir_key_ok (k : list string) (p : string) (st st' : filesystem) (u : unit) :
  Os.mkdir_key k p st = (st', Ok u) -> nodes st' !! k = Some (Dir true).
Proof.
  unfold Os.mkdir_key.
  destruct (nodes st !! k); [discriminate |].
  destruct (nodes st !! Os.parent_key k) as [[[]|]|]; try discriminate.
  destruct (free st); intros [= <- _]; simpl. apply lookup_insert_eq.
Qed.

(** A failed [mkdir] changes nothing. *)
Lemma mkdir_key_fail (k : list string) (p : string) (st st' : filesystem) (e : exn) :
  Os.mkdir_key k p st = (st', Raise e) -> st' = st.
Proof.
  unfold Os.mkdir_key.
  destruct (nodes st !! k); [congruence |].
  destruct (nodes st !! Os.parent_key k) as [[[]|]|]; try congruence.
  destruct (free st); congruence.
Qed.

Lemma makedirs_walk_grows (p : string) (todo done : list string) (st st' : filesystem)
    (r : result unit) :
  Os.makedirs_walk p done todo st = (st', r) -> grows st st'.
Proof.
  revert done st. induction todo as [|c todo IH]; intros done st; simpl.
  - destruct (nodes st !! done) as [[]|]; intros [= <- _]; apply grows_refl.
  - destruct (nodes st !! (done ++ [c])%list) as [[w|r' w' c']|] eqn:Hk.
    + apply IH.
    + intros [= <- _]. apply grows_refl.
    + destruct (Os.mkdir_key _ p st) as [st1 [u|e]] eqn:Hm.
      * intros Hw. eapply grows_trans; [by eapply mkdir_key_grows | by eapply IH].
      * intros [= <- _]. by eapply mkdir_key_grows.
Qed.

(** [os.makedirs] raises nothing but [OSError]: the handlers of
    [ensure_subfolders] and [create_project] catch all it raises. *)
Lemma makedirs_walk_raises (p : string) (todo done : list string) (st st' : filesystem)
    (e : exn) :
  Os.makedirs_walk p done todo st = (st', Raise e) -> is_OSError e = true.
Proof.
  revert done st. induction todo as [|c todo IH]; intros done st; simpl.
  - destruct (nodes st !! done) as [[]|]; by intros [= _ <-].
  - destruct (nodes st !! (done ++ [c])%list) as [[w|r' w' c']|].
    + apply IH.
    + by intros [= _ <-].
    + unfold Os.mkdir_key.
      destruct (nodes st !! (done ++ [c])%list); [by intros [= _ <-] |].
      destruct (nodes st !! Os.parent_key (done ++ [c])%list) as [[[]|]|];
        try by intros [= _ <-].
      destruct (free st); [by intros [= _ <-] | apply IH].
Qed.

Lemma makedirs_raises (p : string) (st st' : filesystem) (e : exn) :
  Os.makedirs p st = (st', Raise e) -> is_OSError e = true.
Proof.
  unfold Os.makedirs. destruct (String.eqb p ""); [by intros [= _ <-] |].
  apply makedirs_walk_raises.
Qed.

Lemma makedirs_grows (p : string) (st st' : filesystem) (r : result unit) :
  Os.makedirs p st = (st', r) -> grows st st'.
Proof.
  unfold Os.makedirs. destruct (String.eqb p "").
  - intros [= <- _]. apply grows_refl.
  - apply makedirs_walk_grows.
Qed.

Lemma write_text_grows (p content : string) (st st' : filesystem) (r : result unit) :
  Os.write_text p content st = (st', r) -> grows st st'.
Proof.
  unfold Os.write_text, Os.store.
  destruct (String.eqb p ""); [intros [= <- _]; apply grows_refl |].
  destruct (nodes st !! OsPath.resolve p) as [[w|r' w old]|] eqn:Hk.
  - intros [= <- _]; apply grows_refl.
  - destruct (PyStr.endswith_char OsPath.sep p); [intros [= <- _]; apply grows_refl |].
    destruct w; [| intros [= <- _]; apply grows_refl].
    destruct (String.length content <=? free st + String.length old)%nat;
      intros [= <- _]; by eapply grows_insert_file.
  - destruct (nodes st !! Os.parent_key (OsPath.resolve p)) as [[[]|]|];
      try (intros [= <- _]; apply grows_refl).
    destruct (PyStr.endswith_char OsPath.sep p); [intros [= <- _]; apply grows_refl |].
    destruct (free st) as [|avail]; [intros [= <- _]; apply grows_refl |].
    destruct (String.length content <=? avail)%nat;
      intros [= <- _]; by apply grows_insert_fresh.
Qed.

Lemma dirs_along_grows (todo done : list string) (st st' : filesystem) :
  grows st st' -> dirs_along done todo st -> dirs_along done todo st'.
Proof.
  intros Hg. revert done. induction todo as [|c todo IH]; intros done; simpl.
  - intros [w Hw]. specialize (Hg done). rewrite Hw in Hg. eauto.
  - intros [[w Hw] Hrest]. split; [| by apply IH].
    specialize (Hg (done ++ [c])%list). rewrite Hw in Hg. eauto.
Qed.

(** A walk that ends well has met or made a directory at every step. *)
Lemma makedirs_walk_ok (p : string) (todo done : list string) (st st' : filesystem)
    (u : unit) :
  Os.makedirs_walk p done todo st = (st', Ok u) -> dirs_along done todo st'.
Proof.
  revert done st. induction todo as [|c todo IH]; intros done st; simpl.
  - destruct (nodes st !! done) as [[w|]|] eqn:Hd; try discriminate.
    intros [= <-]. eauto.
  - destruct (nodes st !! (done ++ [c])%list) as [[w|r' w' c']|] eqn:Hk.
    + intros Hw. split; [| by eapply IH].
      pose proof (makedirs_walk_grows _ _ _ _ _ _ Hw (done ++ [c])%list) as Hg.
      rewrite Hk in Hg. eauto.
    + discriminate.
    + destruct (Os.mkdir_key _ p st) as [st1 [u1|e]] eqn:Hm; [| discriminate].
      intros Hw. split; [| by eapply IH].
      pose proof (makedirs_walk_grows _ _ _ _ _ _ Hw (done ++ [c])%list) as Hg.
      rewrite (mkdir_key_ok _ _ _ _ _ Hm) in Hg. eauto.
Qed.

(** Where every step is a directory, the walk changes nothing. *)
Lemma dirs_along_walk (p : string) (todo done : list string) (st : filesystem) :
  dirs_along done todo st -> Os.makedirs_walk p done todo st = (st, Ok ()).
Proof.
  revert done. induction todo as [|c todo IH]; intros done; simpl.
  - intros [w ->]. reflexivity.
  - intros [[w ->] Hrest]. by apply IH.
Qed.

(** Walking again, from the state the first walk left, gives the same
    answer and changes nothing, whether the first walk ended well or not. *)
Lemma makedirs_walk_again (p : string) (todo done : list string) (st st' : filesystem)
    (r : result unit) :
  Os.makedirs_walk p done todo st = (st', r) ->
  Os.makedirs_walk p done todo st' = (st', r).
Proof.
  revert done st. induction todo as [|c todo IH]; intros done st; simpl.
  - destruct (nodes st !! done) as [[w|]|] eqn:Hd; intros [= <- <-]; by rewrite Hd.
  - destruct (nodes st !! (done ++ [c])%list) as [[w|r' w' c']|] eqn:Hk.
    + intros Hw.
      pose proof (makedirs_walk_grows _ _ _ _ _ _ Hw (done ++ [c])%list) as Hg.
      rewrite Hk in Hg. rewrite Hg. by eapply IH.
    + intros [= <- <-]. by rewrite Hk.
    + destruct (Os.mkdir_key _ p st) as [st1 [u1|e]] eqn:Hm.
      * intros Hw.
        pose proof (makedirs_walk_grows _ _ _ _ _ _ Hw (done ++ [c])%list) as Hg.
        rewrite (mkdir_key_ok _ _ _ _ _ Hm) in Hg. rewrite Hg. by eapply IH.
      * intros [= <- <-]. pose proof (mkdir_key_fail _ _ _ _ _ Hm) as ->.
        by rewrite Hk, Hm.
Qed.

Lemma makedirs_again (p : string) (st st' : filesystem) (r : result unit) :
  Os.makedirs p st = (st', r) -> Os.makedirs p st' = (st', r).
Proof.
  unfold Os.makedirs. destruct (String.eqb p "").
  - by intros [= <- <-].
  - apply makedirs_walk_again.
Qed.

(** Once made, a directory tree is found again in every later state. *)
Lemma makedirs_stable (p : string) (st st1 st2 : filesystem) (u : unit) :
  Os.makedirs p st = (st1, Ok u) -> grows st1 st2 -> Os.makedirs p st2 = (st2, Ok ()).
Proof.
  unfold Os.makedirs. destruct (String.eqb p ""); [discriminate |].
  intros Hw Hg. apply dirs_along_walk.
  eapply dirs_along_grows; [exact Hg |]. by eapply makedirs_walk_ok.
Qed.

End FilesystemFacts.

(* ===================================================================== *)
(** * [ensure_subfolders] *)
(* ===================================================================== *)

Section SubfolderFacts.

Context `{Libraries} `{Locale}.

Lemma ensure_subfolders_from_grows (todo : list string) (st st' : filesystem)
    (r : bool * option message) :
  ensure_subfolders_from todo st = (st', r) -> grows st st'.
Proof.
  revert st. induction todo as [|subfolder rest IH]; intros st; simpl.
  - intros [= <- _]. apply grows_refl.
  - destruct (Os.makedirs subfolder st) as [st1 [u|e]] eqn:Hm.
    + intros Hrest. eapply grows_trans; [by eapply makedirs_grows | by eapply IH].
    + intros [= <- _]. by eapply makedirs_grows.
Qed.

Lemma ensure_subfolders_from_again (todo : list string) (st st' : filesystem)
    (r : bool * option message) :
  ensure_subfolders_from todo st = (st', r) ->
  ensure_subfolders_from todo st' = (st', r).
Proof.
  revert st. induction todo as [|subfolder rest IH]; intros st; simpl.
  - by intros [= <- <-].
  - destruct (Os.makedirs subfolder st) as [st1 [u|e]] eqn:Hm.
    + intros Hrest.
      rewrite (makedirs_stable _ _ _ st' _ Hm (ensure_subfolders_from_grows _ _ _ _ Hrest)).
      by eapply IH.
    + intros [= <- <-]. by rewrite (makedirs_again _ _ _ _ Hm).
Qed.

(** After a successful run every folder of the list is a directory. *)
Lemma ensure_subfolders_from_ok (todo : list string) (st st' : filesystem)
    (message : option message) :
  ensure_subfolders_from todo st = (st', (true, message)) ->
  message = None /\ Forall (fun subfolder => Os.makedirs subfolder st' = (st', Ok ())) todo.
Proof.
  revert st. induction todo as [|subfolder rest IH]; intros st; simpl.
  - intros [= <- <-]. by split.
  - destruct (Os.makedirs subfolder st) as [st1 [u|e]] eqn:Hm; [| discriminate].
    intros Hrest. destruct (IH _ Hrest) as [-> Hall]. split; [reflexivity |].
    constructor; [| exact Hall].
    eapply makedirs_stable; [exact Hm | by eapply ensure_subfolders_from_grows].
Qed.

Lemma makedirs_noop_isdir (p : string) (st : filesystem) :
  Os.makedirs p st = (st, Ok ()) -> Os.path_isdir p st = true.
Proof.
  unfold Os.makedirs, Os.path_isdir, Os.stat.
  destruct (String.eqb p ""); [discriminate |].
  intros Hw. apply makedirs_walk_ok in Hw.
  assert (Hlast : forall todo done, dirs_along done todo st ->
            exists w, nodes st !! (done ++ todo)%list = Some (Dir w)).
  { induction todo as [|c todo IH]; intros done; simpl.
    - rewrite app_nil_r. auto.
    - intros [_ Hrest]. destruct (IH _ Hrest) as [w Hw'].
      exists w. by rewrite <- app_assoc in Hw'. }
  destruct (Hlast _ _ Hw) as [w Hd]. simpl in Hd. by rewrite Hd.
Qed.

(** A second call of [ensure_subfolders], right after a first one, returns
    what the first returned and leaves the file system exactly as the first
    left it, whatever the first call met; when the first call succeeded,
    the second succeeds too, and the cache and capture folders are
    directories. *)
Lemma ensure_subfolders_again (self : Project) (st : filesystem) :
  let '(st1, r1) := ensure_subfolders self st in
  ensure_subfolders self st1 = (st1, r1) /\
  (fst r1 = true ->
   r1 = (true, None) /\
   Os.path_isdir (cache_subfolder (subfolders self)) st1 = true /\
   Os.path_isdir (capture_subfolder (subfolders self)) st1 = true).
Proof.
  unfold ensure_subfolders.
  destruct (ensure_subfolders_from _ st) as [st1 [result message]] eqn:Hrun.
  split; [exact (ensure_subfolders_from_again _ _ _ _ Hrun) |].
  simpl. intros ->. destruct (ensure_subfolders_from_ok _ _ _ _ Hrun) as [-> Hall].
  split; [reflexivity |].
  unfold subfolders_values in Hall.
  apply Forall_cons in Hall as [Hcache Hall].
  apply Forall_cons in Hall as [Hcapture _].
  split; by apply makedirs_noop_isdir.
Qed.

End SubfolderFacts.

(* ===================================================================== *)
(** * The probing loop of [create_project] *)
(* ===================================================================== *)

Section NumeralFacts.

Lemma contains_app (c : ascii) (a b : string) :
  PyStr.contains c (a +:+ b) = PyStr.contains c a || PyStr.contains c b.
Proof.
  induction a as [|x a IH]; [reflexivity |].
  rewrite app_cons_str. simpl. by rewrite IH, orb_assoc.
Qed.

Lemma numeral_no_sep (d : Decimal.uint) :
  PyStr.contains OsPath.sep (NilEmpty.string_of_uint d) = false.
Proof. induction d; simpl; auto. Qed.

Lemma zeros_no_sep (k : nat) : PyStr.contains OsPath.sep (PyStr.zeros k) = false.
Proof. induction k; simpl; auto. Qed.

Lemma fmt_03d_no_sep (n : nat) : PyStr.contains OsPath.sep (PyStr.fmt_03d n) = false.
Proof.
  unfold PyStr.fmt_03d, PyStr.zfill, PyStr.of_nat.
  by rewrite contains_app, zeros_no_sep, numeral_no_sep.
Qed.

Lemma uint_of_zeros (k : nat) (s : string) (d : Decimal.uint) :
  NilEmpty.uint_of_string s = Some d ->
  NilEmpty.uint_of_string (PyStr.zeros k +:+ s) = Some (Nat.iter k Decimal.D0 d).
Proof.
  intros Hs. induction k as [|k IH]; [exact Hs |].
  simpl PyStr.zeros. rewrite app_cons_str. simpl. by rewrite IH.
Qed.

Lemma of_uint_zeros (k : nat) (d : Decimal.uint) :
  Nat.of_uint (Nat.iter k Decimal.D0 d) = Nat.of_uint d.
Proof. induction k as [|k IH]; [reflexivity | exact IH]. Qed.

(** [{n:03d}] can be read back: no two counters share a suffix. *)
Lemma read_fmt_03d (n : nat) : read_nat (PyStr.fmt_03d n) = Some n.
Proof.
  unfold read_nat, PyStr.fmt_03d, PyStr.zfill, PyStr.of_nat.
  rewrite (uint_of_zeros _ _ _ (NilEmpty.usu _)). simpl.
  by rewrite of_uint_zeros, DecimalNat.Unsigned.of_to.
Qed.

Lemma fmt_03d_inj (n m : nat) : PyStr.fmt_03d n = PyStr.fmt_03d m -> n = m.
Proof.
  intros Heq. pose proof (read_fmt_03d n) as Hn. rewrite Heq, read_fmt_03d in Hn.
  congruence.
Qed.

End NumeralFacts.

Section ProbeFacts.

Import OsPath.

Lemma probe_directory_step (fuel : nat) (parent slug : string) (st : filesystem) (n : nat) :
  probe_directory (S fuel) parent slug st (candidate parent slug n) (S n) =
    if Os.path_exists (candidate parent slug n) st
    then probe_directory fuel parent slug st (candidate parent slug (S n)) (S (S n))
    else Some (candidate parent slug n).
Proof. reflexivity. Qed.

(** What the loop returns is the first name in the sequence that does not
    exist. *)
Lemma probe_directory_some (fuel : nat) (parent slug : string) (st : filesystem)
    (i : nat) (d : string) :
  probe_directory fuel parent slug st (candidate parent slug i) (S i) = Some d ->
  exists n, d = candidate parent slug n /\ (i <= n)%nat /\
    Os.path_exists (candidate parent slug n) st = false /\
    forall m, (i <= m < n)%nat -> Os.path_exists (candidate parent slug m) st = true.
Proof.
  revert i. induction fuel as [|fuel IH]; intros i; [discriminate |].
  rewrite probe_directory_step.
  destruct (Os.path_exists (candidate parent slug i) st) eqn:Hi.
  - intros Hrest. destruct (IH _ Hrest) as (n & -> & Hle & Hfree & Hbusy).
    exists n. split; [reflexivity |]. split; [lia |]. split; [exact Hfree |].
    intros m Hm. destruct (decide (m = i)) as [-> | Hne]; [exact Hi |].
    apply Hbusy. lia.
  - intros [= <-]. exists i. split; [reflexivity |]. split; [lia |].
    split; [exact Hi |]. intros m Hm. lia.
Qed.

(** The loop gives up only when every name it tried exists. *)
Lemma probe_directory_none (fuel : nat) (parent slug : string) (st : filesystem) (i : nat) :
  probe_directory fuel parent slug st (candidate parent slug i) (S i) = None ->
  forall m, (i <= m < i + fuel)%nat -> Os.path_exists (candidate parent slug m) st = true.
Proof.
  revert i. induction fuel as [|fuel IH]; intros i; [intros _ m Hm; lia |].
  rewrite probe_directory_step.
  destruct (Os.path_exists (candidate parent slug i) st) eqn:Hi; [| discriminate].
  intros Hrest m Hm. destruct (decide (m = i)) as [-> | Hne]; [exact Hi |].
  apply (IH _ Hrest). lia.
Qed.

Lemma component_ok_underscore (s : string) :
  PyStr.contains "_" s = true -> component_ok s = true.
Proof.
  destruct s as [|a [|b s]]; simpl; [discriminate | |].
  - rewrite orb_false_r. intros Ha. apply Ascii.eqb_eq in Ha. by subst a.
  - intros _. unfold component_ok. simpl. by destruct (Ascii.eqb a ".").
Qed.

(** Where a suffixed name resolves, for a slug that holds no separator. *)
Lemma suffixed_key (parent slug : string) (n : nat) :
  PyStr.contains sep slug = false ->
  resolve (candidate parent slug (S n)) =
    (resolve parent ++ [slug +:+ "_" +:+ PyStr.fmt_03d (S n)])%list.
Proof.
  intros Hslug. unfold candidate. apply resolve_join.
  - rewrite !contains_app, Hslug, fmt_03d_no_sep. reflexivity.
  - apply component_ok_underscore. rewrite !contains_app. simpl.
    by rewrite orb_true_r.
Qed.

Lemma path_exists_node (p : string) (st : filesystem) :
  Os.path_exists p st = true -> is_Some (nodes st !! resolve p).
Proof.
  unfold Os.path_exists, Os.stat. destruct (String.eqb p ""); [discriminate |].
  destruct (nodes st !! resolve p); [eauto | discriminate].
Qed.

(** The loop ends: a file system of [N] nodes cannot hold [N + 1] suffixed
    names, which are pairwise distinct. *)
Lemma probe_directory_terminates (parent slug : string) (st : filesystem) :
  PyStr.contains sep slug = false ->
  is_Some (probe_directory (probe_fuel st) parent slug st (candidate parent slug 0) 1).
Proof.
  intros Hslug.
  destruct (probe_directory _ _ _ _ _ _) as [d|] eqn:Hprobe; [eauto |].
  exfalso. pose proof (probe_directory_none _ _ _ _ _ Hprobe) as Hbusy.
  set (key := fun n => (resolve parent ++ [slug +:+ "_" +:+ PyStr.fmt_03d (S n)])%list).
  assert (Hinj : Inj (=) (=) key).
  { intros n m Heq. unfold key in Heq.
    apply app_inv_head in Heq. injection Heq as Heq.
    apply String.app_inj in Heq. apply (String.app_inj "_") in Heq.
    apply fmt_03d_inj in Heq. lia. }
  set (keys := key <$> seq 0 (S (size (nodes st)))).
  assert (Hnodup : NoDup keys) by (apply NoDup_fmap_2; [exact Hinj | apply NoDup_seq]).
  assert (Hsub : (list_to_set keys : gset (list string)) ⊆ dom (nodes st)).
  { intros k Hk. apply elem_of_list_to_set, list_elem_of_fmap in Hk as (n & -> & Hn).
    apply elem_of_seq in Hn. apply elem_of_dom. unfold key.
    rewrite <- (suffixed_key _ _ _ Hslug). apply path_exists_node, Hbusy.
    unfold probe_fuel. lia. }
  apply subseteq_size in Hsub.
  rewrite size_list_to_set, size_dom in Hsub by exact Hnodup.
  unfold keys in Hsub. rewrite length_fmap, length_seq in Hsub. lia.
Qed.

End ProbeFacts.

(* ===================================================================== *)
(** * Creating projects *)
(* ===================================================================== *)

Section CreateFacts.

Context `{Libraries} `{Locale}.

Import OsPath.

Lemma path_exists_grows (p : string) (st st' : filesystem) :
  grows st st' -> Os.path_exists p st = true -> Os.path_exists p st' = true.
Proof.
  intros Hg. unfold Os.path_exists, Os.stat.
  destruct (String.eqb p ""); [done |]. specialize (Hg (resolve p)).
  destruct (nodes st !! resolve p) as [[w|r w c]|]; [| | discriminate].
  - by rewrite Hg.
  - destruct Hg as [c' ->]. by destruct (PyStr.endswith_char sep p).
Qed.

Lemma path_isdir_grows (p : string) (st st' : filesystem) :
  grows st st' -> Os.path_isdir p st = true -> Os.path_isdir p st' = true.
Proof.
  intros Hg. unfold Os.path_isdir, Os.stat.
  destruct (String.eqb p ""); [done |]. specialize (Hg (resolve p)).
  destruct (nodes st !! resolve p) as [[w|r w c]|]; [| | discriminate].
  - by rewrite Hg.
  - by destruct (PyStr.endswith_char sep p).
Qed.

Lemma path_isdir_exists (p : string) (st : filesystem) :
  Os.path_isdir p st = true -> Os.path_exists p st = true.
Proof.
  unfold Os.path_isdir, Os.path_exists. by destruct (Os.stat p st) as [[]|].
Qed.

Lemma save_to_json_grows (file : string) (data : pyval) (st st' : filesystem)
    (r : bool * option message) :
  save_to_json file data st = (st', r) -> grows st st'.
Proof.
  unfold save_to_json.
  destruct (Os.write_text file (json_dumps data) st) as [st1 [u|e]] eqn:Hw;
    intros [= <- _]; by eapply write_text_grows.
Qed.

Lemma save_bundles_grows (self : Project) (st st' : filesystem) (r : bool * option message) :
  save_bundles self st = (st', r) -> grows st st'.
Proof.
  unfold save_bundles.
  destruct (save_to_json _ _ st) as [st1 [[] m]] eqn:Hs; simpl;
    intros [= <- _]; by eapply save_to_json_grows.
Qed.

Lemma save_project_metadata_grows (self : Project) (st st' : filesystem)
    (r : bool * option message) :
  save_project_metadata self st = (st', r) -> grows st st'.
Proof.
  unfold save_project_metadata.
  destruct (save_to_json _ _ st) as [st1 [[] m]] eqn:Hs; simpl;
    intros [= <- _]; by eapply save_to_json_grows.
Qed.

(** One run of [create_project] with a title: the directory is the one the
    probing loop chose, nothing is removed from the file system, and on
    success the directory exists and belongs to the current project. *)
Lemma create_project_run (fuel : nat) (self self1 : ProjectManager) (title : string)
    (parent_directory : option string) (st st1 : filesystem) (r1 : result returned) :
  title <> "" ->
  create_project fuel self (Some title) parent_directory st = Some (self1, st1, r1) ->
  let parent := project_parent self parent_directory in
  exists d,
    probe_directory fuel parent (slugify title) st (candidate parent (slugify title) 0) 1
      = Some d /\
    grows st st1 /\ config self1 = config self /\
    (r1 = created ->
     Os.path_isdir d st1 = true /\
     exists p, current_project self1 = Some p /\ directory p = d).
Proof.
  intros Htitle. unfold create_project, created. simpl.
  apply String.eqb_neq in Htitle. rewrite Htitle. simpl.
  change (join (project_parent self parent_directory) (slugify title))
    with (candidate (project_parent self parent_directory) (slugify title) 0).
  destruct (probe_directory _ _ _ _ _ _) as [d|]; [| discriminate].
  intros Hrun. exists d. split; [reflexivity |]. revert Hrun.
  destruct (Os.makedirs _ st) as [st' [u|e]] eqn:Hmk.
  2:{ intros [= <- <- <-]. split; [by eapply makedirs_grows |]. done. }
  destruct (ensure_subfolders _ st') as [st2 [[] m2]] eqn:Hsub; simpl.
  2:{ intros [= <- <- <-]. split; [| done].
      eapply grows_trans; [by eapply makedirs_grows |].
      by eapply ensure_subfolders_from_grows. }
  destruct (save_bundles _ st2) as [st3 [[] m3]] eqn:Hsb; simpl.
  2:{ intros [= <- <- <-]. split; [| done].
      eapply grows_trans; [by eapply makedirs_grows |].
      eapply grows_trans; [by eapply ensure_subfolders_from_grows |].
      by eapply save_bundles_grows. }
  destruct (save_project_metadata _ st3) as [st4 [[] m4]] eqn:Hsm; simpl.
  2:{ intros [= <- <- <-]. split; [| done].
      eapply grows_trans; [by eapply makedirs_grows |].
      eapply grows_trans; [by eapply ensure_subfolders_from_grows |].
      eapply grows_trans; [by eapply save_bundles_grows |].
      by eapply save_project_metadata_grows. }
  intros [= <- <- <-].
  assert (Hlater : grows st' st4).
  { eapply grows_trans; [by eapply ensure_subfolders_from_grows |].
    eapply grows_trans; [by eapply save_bundles_grows |].
    by eapply save_project_metadata_grows. }
  split; [eapply grows_trans; [by eapply makedirs_grows | exact Hlater] |].
  split; [reflexivity |]. intros _. split.
  - apply makedirs_noop_isdir. by eapply makedirs_stable.
  - eexists. split; reflexivity.
Qed.

(** [create_project] returns as soon as the probing loop does. *)
Lemma create_project_returns (fuel : nat) (self : ProjectManager) (title : string)
    (parent_directory : option string) (st : filesystem) :
  is_Some (probe_directory fuel (project_parent self parent_directory) (slugify title) st
             (candidate (project_parent self parent_directory) (slugify title) 0) 1) ->
  is_Some (create_project fuel self (Some title) parent_directory st).
Proof.
  intros [d Hd]. unfold create_project.
  destruct (negb (str_truthy (Some title))); [eauto |]. simpl.
  change (join (project_parent self parent_directory) (slugify title))
    with (candidate (project_parent self parent_directory) (slugify title) 0).
  rewrite Hd.
  destruct (Os.makedirs _ st) as [st' [u|e]]; [| eauto].
  destruct (ensure_subfolders _ st') as [st2 [[] m2]]; simpl; [| eauto].
  destruct (save_bundles _ st2) as [st3 [[] m3]]; simpl; [| eauto].
  destruct (save_project_metadata _ st3) as [st4 [[] m4]]; simpl; eauto.
Qed.

End CreateFacts.

Section CollisionFacts.

Context `{Libraries} `{Locale}.

Import OsPath.

(** Whatever the file system, for a non-empty title whose slug holds no
    path separator [create_project] returns (the probing loop ends within
    [probe_fuel] iterations), and the directory it works on is the first
    name that does not exist in the sequence [parent/slug],
    [parent/slug_001], [parent/slug_002], ...  When the call succeeds that
    directory exists afterwards, and a second call with the same title and
    parent works on a different name, one that carries a numeric suffix;
    when the second call succeeds too, both directories exist. *)
Lemma create_project_probes (self : ProjectManager) (title : string)
    (parent_directory : option string) (st : filesystem) :
  title <> "" ->
  PyStr.contains sep (slugify title) = false ->
  let parent := project_parent self parent_directory in
  let slug := slugify title in
  exists n self1 st1 r1,
    create_project (probe_fuel st) self (Some title) parent_directory st
      = Some (self1, st1, r1) /\
    Os.path_exists (candidate parent slug n) st = false /\
    (forall m, (m < n)%nat -> Os.path_exists (candidate parent slug m) st = true) /\
    (r1 = created ->
     (exists p1, current_project self1 = Some p1 /\
                 directory p1 = candidate parent slug n) /\
     Os.path_isdir (candidate parent slug n) st1 = true /\
     exists k self2 st2 r2,
       create_project (probe_fuel st1) self1 (Some title) parent_directory st1
         = Some (self2, st2, r2) /\
       candidate parent slug (S k) <> candidate parent slug n /\
       Os.path_exists (candidate parent slug (S k)) st1 = false /\
       (forall m, (m <= k)%nat -> Os.path_exists (candidate parent slug m) st1 = true) /\
       (r2 = created ->
        (exists p2, current_project self2 = Some p2 /\
                    directory p2 = candidate parent slug (S k)) /\
        Os.path_isdir (candidate parent slug n) st2 = true /\
        Os.path_isdir (candidate parent slug (S k)) st2 = true)).
Proof.
  intros Htitle Hslug parent slug. subst parent slug.
  set (parent := project_parent self parent_directory).
  pose proof (probe_directory_terminates parent _ st Hslug) as Hends.
  unfold parent in *. clear parent.
  destruct (create_project_returns _ self title parent_directory st Hends)
    as [[[self1 st1] r1] Hrun1].
  destruct (create_project_run _ _ _ _ _ _ _ _ Htitle Hrun1)
    as (d1 & Hprobe1 & Hgrow1 & Hconfig1 & Hok1).
  destruct (probe_directory_some _ _ _ _ _ _ Hprobe1) as (n & -> & _ & Hfree1 & Hbusy1).
  exists n, self1, st1, r1. split; [exact Hrun1 |]. split; [exact Hfree1 |].
  split; [intros m Hm; apply Hbusy1; lia |].
  intros Hcreated. destruct (Hok1 Hcreated) as (Hdir1 & p1 & Hcur1 & Hp1).
  split; [by exists p1 |]. split; [exact Hdir1 |].
  assert (Hparent : project_parent self1 parent_directory
                    = project_parent self parent_directory).
  { unfold project_parent. by rewrite Hconfig1. }
  pose proof (probe_directory_terminates
                (project_parent self parent_directory) _ st1 Hslug) as Hends2.
  rewrite <- Hparent in Hends2.
  destruct (create_project_returns _ self1 title parent_directory st1 Hends2)
    as [[[self2 st2] r2] Hrun2].
  destruct (create_project_run _ _ _ _ _ _ _ _ Htitle Hrun2)
    as (d2 & Hprobe2 & Hgrow2 & Hconfig2 & Hok2).
  rewrite Hparent in Hprobe2.
  destruct (probe_directory_some _ _ _ _ _ _ Hprobe2) as (n2 & -> & _ & Hfree2 & Hbusy2).
  assert (Hfirst : Os.path_exists
                     (candidate (project_parent self parent_directory) (slugify title) 0) st1
                   = true).
  { destruct n as [|n'].
    - by apply path_isdir_exists.
    - apply (path_exists_grows _ st); [exact Hgrow1 |]. apply Hbusy1. lia. }
  destruct n2 as [|k]; [congruence |].
  exists k, self2, st2, r2. split; [exact Hrun2 |]. split.
  { intros Heq. rewrite Heq in Hfree2.
    apply path_isdir_exists in Hdir1. congruence. }
  split; [exact Hfree2 |]. split; [intros m Hm; apply Hbusy2; lia |].
  intros Hcreated2. destruct (Hok2 Hcreated2) as (Hdir2 & p2 & Hcur2 & Hp2).
  split; [by exists p2 |]. split; [| exact Hdir2].
  by apply (path_isdir_grows _ st1).
Qed.

End CollisionFacts.

(* ===================================================================== *)
(** * A project created where nothing stands *)
(* ===================================================================== *)

Section FreshFacts.

Import OsPath.

Lemma parent_key_child (k : list string) (c : string) :
  Os.parent_key (k ++ [c]) = k.
Proof. unfold Os.parent_key. apply removelast_last. Qed.

Lemma key_not_child (k : list string) (c : string) : k <> (k ++ [c])%list.
Proof.
  intros Heq. apply (f_equal length) in Heq. rewrite length_app in Heq. simpl in Heq. lia.
Qed.

(** In a tree, whatever lies on the way to a node is a directory. *)
Lemma well_formed_prefix (st : filesystem) (a b : list string) (n : node) :
  well_formed st -> nodes st !! (a ++ b)%list = Some n -> b <> [] ->
  node_is_dir (nodes st !! a) = true.
Proof.
  intros Hwf. revert n. induction b as [|x b IH] using rev_ind; [done |].
  intros n Hn _. rewrite app_assoc in Hn.
  destruct (Hwf _ _ Hn) as [Hnil | Hdir].
  { by destruct (a ++ b)%list. }
  rewrite parent_key_child in Hdir.
  destruct b as [|y b] using rev_ind; [by rewrite app_nil_r in Hdir |].
  clear IHb. destruct (nodes st !! (a ++ b ++ [y])%list) as [n'|] eqn:Hn'; [| done].
  apply (IH n'); [reflexivity |]. by destruct b.
Qed.

Lemma well_formed_absent_child (st : filesystem) (k : list string) (c : string) :
  well_formed st -> nodes st !! k = None -> nodes st !! (k ++ [c])%list = None.
Proof.
  intros Hwf Hk. destruct (nodes st !! (k ++ [c])%list) as [n|] eqn:Hn; [| done].
  pose proof (well_formed_prefix st k [c] n Hwf Hn) as Hdir.
  rewrite Hk in Hdir. by discriminate Hdir.
Qed.

Lemma well_formed_dirs_along (st : filesystem) (todo done : list string) (w : bool) :
  well_formed st -> nodes st !! (done ++ todo)%list = Some (Dir w) ->
  dirs_along done todo st.
Proof.
  intros Hwf. revert done. induction todo as [|c todo IH]; intros done Hn; simpl.
  - rewrite app_nil_r in Hn. eauto.
  - assert (Heq : (done ++ c :: todo = (done ++ [c]) ++ todo)%list)
      by (by rewrite <- app_assoc).
    rewrite Heq in Hn.
    assert (Hstep : node_is_dir (nodes st !! (done ++ [c])%list) = true).
    { destruct todo as [|c' todo'].
      - rewrite app_nil_r in Hn. by rewrite Hn.
      - by apply (well_formed_prefix st _ (c' :: todo') (Dir w) Hwf). }
    split.
    + destruct (nodes st !! (done ++ [c])%list) as [[w'|]|]; try done. eauto.
    + by apply IH.
Qed.

(** The walk passes over a stretch of directories without a change. *)
Lemma makedirs_walk_through (p : string) (a b done : list string) (st : filesystem) :
  dirs_along done a st ->
  Os.makedirs_walk p done (a ++ b) st = Os.makedirs_walk p (done ++ a) b st.
Proof.
  revert done. induction a as [|c a IH]; intros done; simpl.
  - intros _. by rewrite app_nil_r.
  - intros [[w ->] Hrest]. rewrite (IH _ Hrest). by rewrite <- app_assoc.
Qed.

(** [os.makedirs] of a new entry of an existing, writable directory. *)
Lemma makedirs_child (p : string) (kd : list string) (name : string) (st : filesystem)
    (f : nat) :
  p <> "" -> resolve p = (kd ++ [name])%list ->
  dirs_along [] kd st -> nodes st !! kd = Some (Dir true) ->
  nodes st !! (kd ++ [name])%list = None -> free st = S f ->
  Os.makedirs p st = (Filesystem (<[(kd ++ [name])%list := Dir true]> (nodes st)) f, Ok ()).
Proof.
  intros Hp Hkey Hway Hdir Hnew Hfree. unfold Os.makedirs.
  apply String.eqb_neq in Hp. rewrite Hp, Hkey, (makedirs_walk_through _ _ _ _ _ Hway).
  simpl. rewrite Hnew. unfold Os.mkdir_key.
  rewrite Hnew, parent_key_child, Hdir, Hfree. simpl.
  by rewrite lookup_insert_eq.
Qed.

(** Writing a new file of an existing, writable directory. *)
Lemma write_text_child (p content : string) (kd : list string) (name : string)
    (st : filesystem) (f : nat) :
  p <> "" -> PyStr.endswith_char sep p = false -> resolve p = (kd ++ [name])%list ->
  nodes st !! kd = Some (Dir true) ->
  nodes st !! (kd ++ [name])%list = None -> free st = S f ->
  (String.length content <= f)%nat ->
  Os.write_text p content st =
    (Filesystem (<[(kd ++ [name])%list := File true true content]> (nodes st))
                (f - String.length content), Ok ()).
Proof.
  intros Hp Hend Hkey Hdir Hnew Hfree Hfit. unfold Os.write_text, Os.store.
  apply String.eqb_neq in Hp. rewrite Hp, Hkey, Hnew, parent_key_child, Hdir, Hend, Hfree.
  apply Nat.leb_le in Hfit. by rewrite Hfit.
Qed.

End FreshFacts.

Section FreshProject.

Context `{Libraries} `{Locale}.

Import OsPath.

Lemma contains_endswith (c : ascii) (s : string) :
  PyStr.contains c s = false -> PyStr.endswith_char c s = false.
Proof.
  induction s as [|a s IH]; simpl; [done |].
  intros Hc. apply orb_false_iff in Hc as [Ha Hs].
  destruct s; [exact Ha | by apply IH].
Qed.

Lemma stat_dir (p : string) (st : filesystem) (w : bool) :
  Os.stat p st = Ok (Dir w) -> p <> "" /\ nodes st !! resolve p = Some (Dir w).
Proof.
  unfold Os.stat. destruct (String.eqb p "") eqn:Hp; [discriminate |].
  apply String.eqb_neq in Hp. split; [exact Hp |].
  destruct (nodes st !! resolve p) as [[w'|r w' c]|]; try discriminate.
  - congruence.
  - by destruct (PyStr.endswith_char sep p).
Qed.

Lemma component_ok_not_empty (s : string) : component_ok s = true -> s <> "".
Proof. by destruct s. Qed.

Lemma path_exists_false_node (p : string) (st : filesystem) :
  p <> "" -> PyStr.endswith_char sep p = false ->
  Os.path_exists p st = false -> nodes st !! resolve p = None.
Proof.
  intros Hp Hend. unfold Os.path_exists, Os.stat.
  apply String.eqb_neq in Hp. rewrite Hp, Hend.
  by destruct (nodes st !! resolve p) as [[w|r w c]|].
Qed.

Lemma makedirs_ok_dirs (p : string) (st st' : filesystem) (u : unit) :
  Os.makedirs p st = (st', Ok u) -> dirs_along [] (resolve p) st'.
Proof.
  unfold Os.makedirs. destruct (String.eqb p ""); [discriminate |].
  apply makedirs_walk_ok.
Qed.

Ltac key_ne :=
  first [ apply key_not_child
        | let Hk := fresh in intros Hk; symmetry in Hk; by apply key_not_child in Hk
        | let Hk := fresh in intros Hk; apply app_inv_head in Hk; discriminate ].

(** [create_project] where the first name is free, in a writable parent
    directory, with room for three directories and two files: every step
    goes through, and the two files hold the initial documents. *)
Lemma create_project_fresh (self : ProjectManager) (title : string)
    (parent_directory : option string) (st : filesystem) :
  let parent := project_parent self parent_directory in
  let metadata := PDict [("title", PStr title); ("description", PNone)] in
  let d := join parent (slugify title) in
  title <> "" ->
  PyStr.contains sep (slugify title) = false -> component_ok (slugify title) = true ->
  well_formed st ->
  Os.stat parent st = Ok (Dir true) ->
  Os.path_exists d st = false ->
  (5 + String.length (json_dumps (bundles_document (PList [])))
     + String.length (json_dumps (metadata_document metadata)) <= free st)%nat ->
  exists self' st',
    create_project (probe_fuel st) self (Some title) parent_directory st
      = Some (self', st', created) /\
    current_project self' = Some (set_project_metadata (Project_init d) metadata) /\
    Os.path_isdir d st' = true /\
    Os.read_bytes (join d "bundles.json") st'
      = Ok (json_dumps (bundles_document (PList []))) /\
    Os.read_bytes (join d "project_metadata.json") st'
      = Ok (json_dumps (metadata_document metadata)).
Proof.
  intros parent metadata d Htitle Hsep Hok Hwf Hparent Hfree_name Hspace.
  destruct (stat_dir _ _ _ Hparent) as [Hpne Hpdir].
  assert (Hd : d <> "") by (apply join_not_empty; by apply component_ok_not_empty).
  assert (Hkey : resolve d = (resolve parent ++ [slugify title])%list)
    by (by apply resolve_join).
  set (k := (resolve parent ++ [slugify title])%list) in *.
  assert (Hnone : nodes st !! k = None).
  { rewrite <- Hkey. apply path_exists_false_node; [exact Hd | | exact Hfree_name].
    unfold d. rewrite endswith_join; [by apply contains_endswith | | exact Hsep].
    by apply component_ok_not_empty. }
  set (docB := json_dumps (bundles_document (PList []))) in *.
  set (docM := json_dumps (metadata_document metadata)) in *.
  destruct (free st) as [|f] eqn:Hfree; [lia |].
  (* the project directory *)
  pose proof (makedirs_child d (resolve parent) (slugify title) st f Hd Hkey
                (well_formed_dirs_along st (resolve parent) [] true Hwf Hpdir)
                Hpdir Hnone Hfree) as Hstep1.
  fold k in Hstep1.
  set (st1 := Filesystem (<[k := Dir true]> (nodes st)) f) in *.
  pose proof (makedirs_ok_dirs _ _ _ _ Hstep1) as Hway1. rewrite Hkey in Hway1.
  assert (Hsub : forall name, PyStr.contains sep name = false -> component_ok name = true ->
            join d name <> "" /\ resolve (join d name) = (k ++ [name])%list /\
            PyStr.endswith_char sep (join d name) = false /\
            nodes st !! (k ++ [name])%list = None).
  { intros name Hn1 Hn2. split; [apply join_not_empty; by apply component_ok_not_empty |].
    split; [by rewrite resolve_join, Hkey |]. split.
    - rewrite endswith_join; [by apply contains_endswith | | exact Hn1].
      by apply component_ok_not_empty.
    - by apply well_formed_absent_child. }
  destruct (Hsub ".cache" eq_refl eq_refl) as (Hc1 & Hc2 & _ & Hc4).
  destruct (Hsub ".capture" eq_refl eq_refl) as (Hp1 & Hp2 & _ & Hp4).
  destruct (Hsub "bundles.json" eq_refl eq_refl) as (Hb1 & Hb2 & Hb3 & Hb4).
  destruct (Hsub "project_metadata.json" eq_refl eq_refl) as (Hm1 & Hm2 & Hm3 & Hm4).
  destruct f as [|[|[|[|f]]]]; try lia.
  (* the cache folder *)
  assert (Hstep2 : Os.makedirs (join d ".cache") st1 =
            (Filesystem (<[(k ++ [".cache"])%list := Dir true]> (nodes st1)) (S (S (S f))), Ok ())).
  { apply makedirs_child; try done.
    - unfold st1. simpl. apply lookup_insert_eq.
    - unfold st1. simpl. by rewrite lookup_insert_ne by key_ne. }
  set (st2 := Filesystem (<[(k ++ [".cache"])%list := Dir true]> (nodes st1)) (S (S (S f)))) in *.
  assert (Hway2 : dirs_along [] k st2)
    by (eapply dirs_along_grows; [by eapply makedirs_grows | exact Hway1]).
  (* the capture folder *)
  assert (Hstep3 : Os.makedirs (join d ".capture") st2 =
            (Filesystem (<[(k ++ [".capture"])%list := Dir true]> (nodes st2)) (S (S f)), Ok ())).
  { apply makedirs_child; try done.
    - unfold st2, st1. simpl. rewrite lookup_insert_ne by key_ne. apply lookup_insert_eq.
    - unfold st2, st1. simpl. by rewrite !lookup_insert_ne by key_ne. }
  set (st3 := Filesystem (<[(k ++ [".capture"])%list := Dir true]> (nodes st2)) (S (S f))) in *.
  (* bundles.json *)
  assert (Hstep4 : Os.write_text (join d "bundles.json") docB st3 =
            (Filesystem (<[(k ++ ["bundles.json"])%list := File true true docB]> (nodes st3))
                        (S f - String.length docB), Ok ())).
  { apply (write_text_child _ _ k); try done.
    - unfold st3, st2, st1. simpl. rewrite !lookup_insert_ne by key_ne. apply lookup_insert_eq.
    - unfold st3, st2, st1. simpl. by rewrite !lookup_insert_ne by key_ne.
    - lia. }
  set (st4 := Filesystem (<[(k ++ ["bundles.json"])%list := File true true docB]> (nodes st3))
                         (S f - String.length docB)) in *.
  (* project_metadata.json *)
  assert (Hstep5 : Os.write_text (join d "project_metadata.json") docM st4 =
            (Filesystem (<[(k ++ ["project_metadata.json"])%list := File true true docM]> (nodes st4))
                        (f - String.length docB - String.length docM), Ok ())).
  { apply (write_text_child _ _ k); try done.
    - unfold st4, st3, st2, st1. simpl. rewrite !lookup_insert_ne by key_ne. apply lookup_insert_eq.
    - unfold st4, st3, st2, st1. simpl. by rewrite !lookup_insert_ne by key_ne.
    - unfold st4. simpl. lia.
    - lia. }
  set (st5 := Filesystem (<[(k ++ ["project_metadata.json"])%list := File true true docM]> (nodes st4))
                         (f - String.length docB - String.length docM)) in *.
  set (project := set_project_metadata (Project_init d) metadata).
  assert (Hens : ensure_subfolders project st1 = (st3, (true, None))).
  { unfold ensure_subfolders, subfolders_values. simpl.
    by rewrite Hstep2, Hstep3. }
  assert (Hsb : save_bundles project st3 = (st4, (true, None))).
  { unfold save_bundles, save_to_json. simpl.
    change (json_dumps (PDict [("bundles", PList [])])) with docB.
    by rewrite Hstep4. }
  assert (Hsm : save_project_metadata project st4 = (st5, (true, None))).
  { unfold save_project_metadata, save_to_json. simpl.
    change (json_dumps (PDict [("project_metadata", metadata)])) with docM.
    by rewrite Hstep5. }
  exists (set_current_project self (Some project)), st5.
  split.
  { unfold create_project. simpl.
    apply String.eqb_neq in Htitle. rewrite Htitle. simpl.
    fold parent. fold d. rewrite Hfree_name.
    fold metadata. fold project.
    by rewrite Hstep1, Hens, Hsb, Hsm. }
  split; [reflexivity |]. split; [| split].
  - unfold Os.path_isdir, Os.stat. apply String.eqb_neq in Hd. rewrite Hd, Hkey.
    unfold st5, st4, st3, st2, st1. simpl.
    rewrite !lookup_insert_ne by key_ne. by rewrite lookup_insert_eq.
  - rewrite (read_bytes_file _ docB true true); [done | done | done |].
    rewrite Hb2. unfold st5, st4. simpl.
    rewrite lookup_insert_ne by key_ne. apply lookup_insert_eq.
  - rewrite (read_bytes_file _ docM true true); [done | done | done |].
    rewrite Hm2. unfold st5. simpl. apply lookup_insert_eq.
Qed.
(** C8.  With the title [My Test Project], whose slug is [my-test-project],
    in a parent directory that exists, is writable and holds no entry of
    that name, [create_project] succeeds: the project directory is the
    parent joined with [my-test-project], it exists afterwards, its
    [project_metadata.json] holds the document
    [{project_metadata: {title: My Test Project, description: null}}] and
    its [bundles.json] the document [{bundles: []}], both as [json] writes
    them. *)
Theorem create_my_test_project (self : ProjectManager) (parent_directory : option string)
    (st : filesystem) :
  let parent := project_parent self parent_directory in
  let metadata_json :=
    json_dumps (PDict [("project_metadata",
                        PDict [("title", PStr "My Test Project"); ("description", PNone)])]) in
  let bundles_json := json_dumps (PDict [("bundles", PList [])]) in
  slugify "My Test Project" = "my-test-project" ->
  well_formed st ->
  Os.stat parent st = Ok (Dir true) ->
  Os.path_exists (join parent "my-test-project") st = false ->
  (5 + String.length bundles_json + String.length metadata_json <= free st)%nat ->
  exists self' st' project,
    create_project (probe_fuel st) self (Some "My Test Project") parent_directory st
      = Some (self', st', created) /\
    current_project self' = Some project /\
    directory project = join parent "my-test-project" /\
    basename (directory project) = "my-test-project" /\
    Os.path_isdir (directory project) st' = true /\
    Os.read_bytes (join (directory project) "project_metadata.json") st' = Ok metadata_json /\
    Os.read_bytes (join (directory project) "bundles.json") st' = Ok bundles_json.
Proof.
  intros parent metadata_json bundles_json Hslug Hwf Hparent Hfree_name Hspace.
  destruct (create_project_fresh self "My Test Project" parent_directory st)
    as (self' & st' & Hrun & Hcur & Hdir & Hbundles & Hmetadata);
    try rewrite Hslug; try done.
  exists self', st', (set_project_metadata (Project_init (join parent "my-test-project"))
                        (PDict [("title", PStr "My Test Project"); ("description", PNone)])).
  rewrite Hslug in Hcur.
  split; [exact Hrun |]. split; [exact Hcur |]. split; [reflexivity |].
  split; [by apply basename_join |]. simpl. by rewrite Hslug in *.
Qed.

End FreshProject.

(* ===================================================================== *)
(** * Inserting a bundle and taking it back *)
(* ===================================================================== *)

Section RollbackFacts.

(** An insertion at an index within the list is undone by [pop] at the same
    index. *)
Lemma list_pop_insert (i : Z) (x : pyval) (l : list pyval) :
  (0 <= i <= Z.of_nat (length l))%Z ->
  list_pop_at i (list_insert_at i x l) = Ok l.
Proof.
  intros Hi. unfold list_pop_at, list_insert_at.
  assert (Hneg : (i <? 0)%Z = false) by (apply Z.ltb_ge; lia).
  rewrite !Hneg, Z.min_l by lia.
  assert (Hn : exists n, Z.to_nat i = n /\ (n <= length l)%nat /\ i = Z.of_nat n)
    by (exists (Z.to_nat i); lia).
  destruct Hn as (n & -> & Hle & ->).
  assert (Hlen : length (take n l) = n) by (rewrite length_take; lia).
  rewrite length_app. simpl. rewrite Hlen, length_drop.
  assert (Hge : (Z.of_nat (n + S (length l - n)) <=? Z.of_nat n)%Z = false)
    by (apply Z.leb_gt; lia).
  rewrite Hge. simpl.
  rewrite take_app_length' by done.
  rewrite (cons_middle x), app_assoc, drop_app_length' by (rewrite length_app; simpl; lia).
  by rewrite take_drop.
Qed.

(** An insertion past the end appends, and [pop] at the index asked for
    finds nothing there. *)
Lemma list_pop_insert_beyond (i : Z) (x : pyval) (l : list pyval) :
  (Z.of_nat (length l) < i)%Z ->
  list_insert_at i x l = (l ++ [x])%list /\
  list_pop_at i (l ++ [x])%list = Raise (IndexError "pop index out of range").
Proof.
  intros Hi.
  assert (Hneg : (i <? 0)%Z = false) by (apply Z.ltb_ge; lia).
  split.
  - unfold list_insert_at. rewrite Hneg, Z.min_r by lia. rewrite Nat2Z.id.
    by rewrite firstn_all, drop_all.
  - unfold list_pop_at. rewrite !Hneg, length_app. simpl.
    assert (Hge : (Z.of_nat (length l + 1) <=? i)%Z = true) by (apply Z.leb_le; lia).
    rewrite Hge. simpl. by destruct l.
Qed.

Context `{Libraries} `{Locale}.

(** The test on the number of paths that opens [add_bundle_from_images]. *)
Lemma length_check (image_paths : list string) :
  (1 <= length image_paths <= 3)%nat ->
  Nat.eqb (length image_paths) 0 || Nat.ltb 3 (length image_paths) = false.
Proof.
  intros Hlen. apply orb_false_iff. split.
  - apply Nat.eqb_neq. lia.
  - apply Nat.ltb_ge. lia.
Qed.

Lemma dialog_bundles_set (self : DigitizationDialog) (project : Project) (v : pyval) :
  current_project (manager self) = Some project ->
  dialog_bundles (set_dialog_bundles self v) = Ok v /\
  gui (set_dialog_bundles self v) = gui self.
Proof.
  intros Hcur. unfold dialog_bundles, set_dialog_bundles. rewrite Hcur. by simpl.
Qed.

(** C5.  Once the images are copied, the dialog inserts the new bundle at
    index [current_bundle_index + 1].  When that index lies past the end of
    the list (a project opened with an empty bundle list has index [0]),
    [insert] appends; if [save_bundles] then fails, [pop] at the same index
    raises [IndexError], the outer handler reports it, and the bundle stays
    in the in-memory list: the insertion is not rolled back. *)
Theorem add_bundle_rollback_misses (fuel : nat) (self self1 : DigitizationDialog)
    (image_paths copied_filenames : list string) (st st1 st2 : filesystem)
    (project : Project) (l : list pyval) (message : option message) :
  (1 <= length image_paths <= 3)%nat ->
  copy_images fuel self image_paths [] st = Some (self1, st1, Copied copied_filenames) ->
  current_project (manager self1) = Some project ->
  bundles project = PList l ->
  let new_bundle := bundle_record "generic" copied_filenames in
  (Z.of_nat (length l) < current_bundle_index self1 + 1)%Z ->
  save_bundles (set_bundles project (PList (l ++ [new_bundle]))) st1 = (st2, (false, message)) ->
  exists self',
    add_bundle_from_images fuel self image_paths st = Some (self', st2, false) /\
    dialog_bundles self1 = Ok (PList l) /\
    dialog_bundles self' = Ok (PList (l ++ [new_bundle])) /\
    gui self' = (gui self1 ++
      [ShowError "Error" "Error inesperado al agregar bundle: pop index out of range"])%list.
Proof.
  intros Hlen Hcopy Hcur Hbundles new_bundle Hbeyond Hsave.
  destruct (list_pop_insert_beyond _ new_bundle l Hbeyond) as [Hinsert Hpop].
  unfold add_bundle_from_images. rewrite (length_check _ Hlen), Hcopy.
  unfold dialog_bundles at 1. rewrite Hcur, Hbundles. simpl bind.
  fold (bundle_record "generic" copied_filenames). fold new_bundle.
  rewrite Hinsert.
  set (inserted := PList (l ++ [new_bundle])) in *.
  destruct (dialog_bundles_set self1 project inserted Hcur) as [Hinserted Hgui].
  assert (Hcur' : current_project (manager (set_dialog_bundles self1 inserted))
                  = Some (set_bundles project inserted)).
  { unfold set_dialog_bundles. by rewrite Hcur. }
  rewrite Hcur', Hsave, Hinserted. unfold inserted. simpl bind. rewrite Hpop.
  eexists. split; [reflexivity |].
  split; [unfold dialog_bundles; by rewrite Hcur, Hbundles |].
  split; [exact Hinserted |]. unfold unexpected, emit. simpl gui. fold inserted.
  by rewrite Hgui.
Qed.

(** When the index lies within the list, the insertion is rolled back after
    a failed save. *)
Lemma add_bundle_rollback_restores (fuel : nat) (self self1 : DigitizationDialog)
    (image_paths copied_filenames : list string) (st st1 st2 : filesystem)
    (project : Project) (l : list pyval) (title detail : string) :
  (1 <= length image_paths <= 3)%nat ->
  copy_images fuel self image_paths [] st = Some (self1, st1, Copied copied_filenames) ->
  current_project (manager self1) = Some project ->
  bundles project = PList l ->
  let new_bundle := bundle_record "generic" copied_filenames in
  let insert_position := (current_bundle_index self1 + 1)%Z in
  (0 <= insert_position <= Z.of_nat (length l))%Z ->
  save_bundles (set_bundles project (PList (list_insert_at insert_position new_bundle l))) st1
    = (st2, (false, Some (title, detail))) ->
  exists self' st',
    add_bundle_from_images fuel self image_paths st = Some (self', st', false) /\
    dialog_bundles self' = Ok (PList l).
Proof.
  intros Hlen Hcopy Hcur Hbundles new_bundle insert_position Hwithin Hsave.
  pose proof (list_pop_insert _ new_bundle l Hwithin) as Hpop.
  unfold add_bundle_from_images. rewrite (length_check _ Hlen), Hcopy.
  unfold dialog_bundles at 1. rewrite Hcur, Hbundles. simpl bind.
  fold (bundle_record "generic" copied_filenames). fold new_bundle. fold insert_position.
  set (inserted := PList (list_insert_at insert_position new_bundle l)) in *.
  destruct (dialog_bundles_set self1 project inserted Hcur) as [Hinserted _].
  assert (Hcur' : current_project (manager (set_dialog_bundles self1 inserted))
                  = Some (set_bundles project inserted)).
  { unfold set_dialog_bundles. by rewrite Hcur. }
  rewrite Hcur', Hsave, Hinserted. unfold inserted. simpl bind. rewrite Hpop. simpl bind.
  eexists _, _. split; [reflexivity |].
  unfold emit. simpl.
  by destruct (dialog_bundles_set (set_dialog_bundles self1 inserted) _ (PList l) Hcur').
Qed.

End RollbackFacts.

(* ===================================================================== *)
(** * The statements on the session of [Scenario] *)
(* ===================================================================== *)

Section Witnesses.

#[local] Existing Instance Reference.libraries.
#[local] Existing Instance Reference.locale.

Import Scenario.

Lemma disk_well_formed : well_formed disk.
Proof.
  unfold well_formed, disk. simpl.
  repeat (apply map_Forall_insert_2; [by (left + right) |]).
  apply map_Forall_empty.
Qed.

Lemma load_project_missing_directory_witness :
  Os.path_exists "../example_projects/nowhere" disk = false /\
  load_project the_manager "../example_projects/nowhere" disk
    = (the_manager, disk, Raise (UnboundLocalError "project")).
Proof.
  split; [vm_compute; reflexivity |].
  apply load_project_missing_directory. vm_compute. reflexivity.
Defined.

Lemma load_bundles_drops_warning_witness :
  Os.read_text (files_bundles (files opened)) keyless_disk = Ok "{}" /\
  json_loads "{}" = Some (PDict []) /\
  load_from_json (files_bundles (files opened)) "bundles" keyless_disk
    = (true, Some ("Advertencia", "No se encontro {item_name} en el archivo JSON"), PList []) /\
  load_bundles opened keyless_disk = (opened, (true, None)).
Proof.
  assert (Hread : Os.read_text (files_bundles (files opened)) keyless_disk = Ok "{}")
    by (vm_compute; reflexivity).
  assert (Hjson : json_loads "{}" = Some (PDict [])) by (vm_compute; reflexivity).
  split; [exact Hread |]. split; [exact Hjson |].
  destruct (load_bundles_drops_warning opened keyless_disk "{}" [] Hread Hjson eq_refl)
    as (Hwarning & Hload & _).
  split; [exact Hwarning | exact Hload].
Defined.

Lemma create_project_empty_title_witness :
  create_project 1 the_manager (Some "") None disk = Some (the_manager, disk, Ok (RetBool false)) /\
  create_project 1 the_manager None None disk = Some (the_manager, disk, Ok (RetBool false)).
Proof.
  split; apply create_project_empty_title; [by right | by left].
Defined.

Lemma load_bundles_failures_witness :
  project_layout filled /\
  no_entry "../example_projects/libro/bundles.json" empty_project_disk = true /\
  load_bundles filled empty_project_disk
    = (filled, (false, Some ("Error", "No existe bundles.json en el proyecto"))) /\
  Os.read_text "../example_projects/libro/bundles.json" broken_disk = Ok "{" /\
  json_loads "{" = None /\
  load_bundles filled broken_disk
    = (filled, (false, Some ("Error", "Error al leer {filename}"))).
Proof.
  assert (Hlayout : project_layout filled) by (split; reflexivity).
  assert (Habsent : no_entry "../example_projects/libro/bundles.json" empty_project_disk = true)
    by (vm_compute; reflexivity).
  assert (Hread : Os.read_text "../example_projects/libro/bundles.json" broken_disk = Ok "{")
    by (vm_compute; reflexivity).
  assert (Hjson : json_loads "{" = None) by (vm_compute; reflexivity).
  split; [exact Hlayout |]. split; [exact Habsent |]. split.
  - destruct (load_bundles_failures filled empty_project_disk Hlayout) as (Hnotfound & _ & _).
    exact (Hnotfound Habsent).
  - split; [exact Hread |]. split; [exact Hjson |].
    destruct (load_bundles_failures filled broken_disk Hlayout) as (_ & Hparse & _).
    exact (Hparse "{" Hread Hjson).
Defined.

Lemma create_project_failure_keeps_current_witness :
  create_project 5 the_manager (Some "Libro") None full_disk
    = Some (the_manager, full_disk,
            Ok (RetTuple false
                  (Some ("Error",
                         "Error al crear ../example_projects/libro: [Errno 28] No space left on device: '../example_projects/libro'")))) /\
  current_project the_manager = None.
Proof.
  assert (Hrun : create_project 5 the_manager (Some "Libro") None full_disk
            = Some (the_manager, full_disk,
                    Ok (RetTuple false
                          (Some ("Error",
                                 "Error al crear ../example_projects/libro: [Errno 28] No space left on device: '../example_projects/libro'")))))
    by (vm_compute; reflexivity).
  split; [exact Hrun |].
  destruct (create_project_failure_keeps_current _ _ _ _ _ _ _ _ Hrun) as [Hkeep _].
  destruct Hkeep as [_ Hcurrent]; [discriminate |].
  exact Hcurrent.
Defined.

Lemma create_my_test_project_witness :
  slugify "My Test Project" = "my-test-project" /\
  exists self' st' project,
    create_project (probe_fuel disk) the_manager (Some "My Test Project") None disk
      = Some (self', st', created) /\
    current_project self' = Some project /\
    directory project = "../example_projects/my-test-project" /\
    Os.read_bytes "../example_projects/my-test-project/project_metadata.json" st'
      = Ok (json_dumps (PDict [("project_metadata",
                                PDict [("title", PStr "My Test Project");
                                       ("description", PNone)])])) /\
    Os.read_bytes "../example_projects/my-test-project/bundles.json" st'
      = Ok (json_dumps (PDict [("bundles", PList [])])).
Proof.
  split; [vm_compute; reflexivity |].
  destruct (create_my_test_project the_manager None disk)
    as (self' & st' & project & Hrun & Hcur & Hdir & _ & _ & Hmeta & Hbundles).
  - vm_compute. reflexivity.
  - exact disk_well_formed.
  - vm_compute. reflexivity.
  - vm_compute. reflexivity.
  - vm_compute. lia.
  - exists self', st', project. rewrite Hdir in Hmeta, Hbundles.
    split; [exact Hrun |]. split; [exact Hcur |]. split; [exact Hdir |].
    split; [exact Hmeta | exact Hbundles].
Defined.

Lemma add_bundle_rollback_misses_witness :
  dialog_bundles dialog = Ok (PList []) /\
  (Z.of_nat (length ([] : list pyval)) < current_bundle_index dialog + 1)%Z /\
  exists dialog',
    add_bundle_from_images 5 dialog ["scans/left.jpg"] locked_disk
      = Some (dialog', copied_disk, false) /\
    dialog_bundles dialog' = Ok (PList [bundle_record "generic" ["left.jpg"]]) /\
    Os.path_exists "../example_projects/libro/left.jpg" copied_disk = true.
Proof.
  split; [reflexivity |]. split; [reflexivity |].
  destruct (add_bundle_rollback_misses 5 dialog dialog ["scans/left.jpg"] ["left.jpg"]
              locked_disk copied_disk copied_disk opened []
              (Some ("Error",
                     "Error actualizando ../example_projects/libro/bundles.json: [Errno 13] Permission denied: '../example_projects/libro/bundles.json'")))
    as (dialog' & Hrun & _ & Hkept & _).
  - simpl. lia.
  - vm_compute. reflexivity.
  - reflexivity.
  - reflexivity.
  - reflexivity.
  - vm_compute. reflexivity.
  - exists dialog'. split; [exact Hrun |]. split; [exact Hkept |].
    vm_compute. reflexivity.
Defined.

End Witnesses.

Section PreservationFacts.

Import OsPath.

Lemma adds_dirs_refl (st : filesystem) : adds_dirs st st.
Proof. intros k. by left. Qed.

Lemma adds_dirs_trans (st1 st2 st3 : filesystem) :
  adds_dirs st1 st2 -> adds_dirs st2 st3 -> adds_dirs st1 st3.
Proof.
  intros H12 H23 k. destruct (H12 k) as [E12 | [N1 D2]], (H23 k) as [E23 | [N2 D3]].
  - left. congruence.
  - right. split; congruence.
  - right. split; congruence.
  - congruence.
Qed.

Lemma adds_dirs_keeps (st st' : filesystem) : adds_dirs st st' -> nodes st ⊆ nodes st'.
Proof.
  intros Hadds. apply map_subseteq_spec. intros k n Hk.
  destruct (Hadds k) as [E | [N _]]; congruence.
Qed.

Lemma adds_dirs_file (st st' : filesystem) (k : list string) (r w : bool) (content : string) :
  adds_dirs st st' -> nodes st' !! k = Some (File r w content) ->
  nodes st !! k = Some (File r w content).
Proof. intros Hadds Hk. destruct (Hadds k) as [E | [_ D]]; congruence. Qed.

Lemma mkdir_key_adds (k : list string) (p : string) (st st' : filesystem) (r : result unit) :
  Os.mkdir_key k p st = (st', r) -> adds_dirs st st'.
Proof.
  unfold Os.mkdir_key. destruct (nodes st !! k) eqn:Hk.
  { intros [= <- _]. apply adds_dirs_refl. }
  destruct (nodes st !! Os.parent_key k) as [[[]|]|]; try (intros [= <- _]; apply adds_dirs_refl).
  destruct (free st); [intros [= <- _]; apply adds_dirs_refl |].
  intros [= <- _] k'. simpl. destruct (decide (k' = k)) as [-> | Hne].
  - right. by rewrite lookup_insert_eq.
  - left. by rewrite lookup_insert_ne.
Qed.

Lemma makedirs_walk_adds (p : string) (todo done : list string) (st st' : filesystem)
    (r : result unit) :
  Os.makedirs_walk p done todo st = (st', r) -> adds_dirs st st'.
Proof.
  revert done st. induction todo as [|c todo IH]; intros done st; simpl.
  - destruct (nodes st !! done) as [[]|]; intros [= <- _]; apply adds_dirs_refl.
  - destruct (nodes st !! (done ++ [c])%list) as [[]|] eqn:Hk.
    + apply IH.
    + intros [= <- _]. apply adds_dirs_refl.
    + destruct (Os.mkdir_key _ p st) as [st1 [u|e]] eqn:Hm.
      * intros Hw. eapply adds_dirs_trans; [by eapply mkdir_key_adds | by eapply IH].
      * intros [= <- _]. by eapply mkdir_key_adds.
Qed.

Lemma makedirs_adds (p : string) (st st' : filesystem) (r : result unit) :
  Os.makedirs p st = (st', r) -> adds_dirs st st'.
Proof.
  unfold Os.makedirs. destruct (String.eqb p "").
  - intros [= <- _]. apply adds_dirs_refl.
  - apply makedirs_walk_adds.
Qed.

(** A write changes no node but the one it is aimed at. *)
Lemma write_text_other (p content : string) (st st' : filesystem) (r : result unit)
    (k : list string) :
  Os.write_text p content st = (st', r) -> k <> resolve p ->
  nodes st' !! k = nodes st !! k.
Proof.
  unfold Os.write_text, Os.store. intros Hw Hk.
  destruct (String.eqb p ""); [by injection Hw as <- _ |].
  destruct (nodes st !! resolve p) as [[w|r0 w old]|].
  - by injection Hw as <- _.
  - destruct (PyStr.endswith_char sep p); [by injection Hw as <- _ |].
    destruct w; [| by injection Hw as <- _].
    destruct (String.length content <=? free st + String.length old)%nat;
      injection Hw as <- _; simpl; by rewrite lookup_insert_ne.
  - destruct (nodes st !! Os.parent_key (resolve p)) as [[[]|]|]; try by injection Hw as <- _.
    destruct (PyStr.endswith_char sep p); [by injection Hw as <- _ |].
    destruct (free st) as [|avail]; [by injection Hw as <- _ |].
    destruct (String.length content <=? avail)%nat;
      injection Hw as <- _; simpl; by rewrite lookup_insert_ne.
Qed.

(** A write towards a path that names no node keeps every node there is,
    whether it goes through or not. *)
Lemma write_text_fresh_keeps (p content : string) (st st' : filesystem) (r : result unit) :
  nodes st !! resolve p = None ->
  Os.write_text p content st = (st', r) -> nodes st ⊆ nodes st'.
Proof.
  intros Hnone Hw. apply map_subseteq_spec. intros k n Hk.
  rewrite (write_text_other _ _ _ _ _ k Hw); [exact Hk | congruence].
Qed.

(** What a write towards a path that names no node leaves when it goes
    through: a readable file in a writable directory, paid from the free
    space. *)
Lemma write_text_fresh_ok (p content : string) (st st' : filesystem) (u : unit) :
  nodes st !! resolve p = None ->
  Os.write_text p content st = (st', Ok u) ->
  p <> "" /\ PyStr.endswith_char sep p = false /\
  nodes st !! Os.parent_key (resolve p) = Some (Dir true) /\
  st' = Filesystem (<[resolve p := File true true content]> (nodes st))
                   (free st - 1 - String.length content) /\
  (S (String.length content) <= free st)%nat.
Proof.
  unfold Os.write_text, Os.store. intros Hnone.
  destruct (String.eqb p "") eqn:Hp; [discriminate |].
  apply String.eqb_neq in Hp. rewrite Hnone.
  destruct (nodes st !! Os.parent_key (resolve p)) as [[[]|]|]; try discriminate.
  destruct (PyStr.endswith_char sep p); [discriminate |].
  destruct (free st) as [|avail]; [discriminate |].
  destruct (String.length content <=? avail)%nat eqn:Hfit; [| discriminate].
  apply Nat.leb_le in Hfit. intros [= <-].
  repeat split; try done; [| lia].
  f_equal. lia.
Qed.

(** The walk of [os.makedirs] ends on the last component. *)
Lemma dirs_along_last (todo done : list string) (st : filesystem) :
  dirs_along done todo st -> exists w, nodes st !! (done ++ todo)%list = Some (Dir w).
Proof.
  revert done. induction todo as [|c todo IH]; intros done; simpl.
  - by rewrite app_nil_r.
  - intros [_ Hrest]. destruct (IH _ Hrest) as [w Hw]. exists w.
    by rewrite <- app_assoc in Hw.
Qed.

(** [os.makedirs] went through on a path that did not exist: no node stood
    under that path. *)
Lemma makedirs_fresh (p : string) (st st' : filesystem) (u : unit) :
  Os.path_exists p st = false -> Os.makedirs p st = (st', Ok u) ->
  nodes st !! resolve p = None.
Proof.
  intros Hex Hmk.
  pose proof (makedirs_ok_dirs _ _ _ _ Hmk) as Hdirs.
  apply dirs_along_last in Hdirs as [w Hw]. simpl in Hw.
  pose proof (makedirs_adds _ _ _ _ Hmk) as Hadds.
  unfold Os.path_exists, Os.stat in Hex.
  destruct (String.eqb p "") eqn:Hp.
  { unfold Os.makedirs in Hmk. by rewrite Hp in Hmk. }
  destruct (nodes st !! resolve p) as [[w0|r0 w0 c0]|] eqn:Hk; [done | | done].
  destruct (Hadds (resolve p)) as [E | [N _]]; congruence.
Qed.

End PreservationFacts.

Section CreatedFacts.

Context `{Libraries} `{Locale}.

Import OsPath.

Lemma ensure_subfolders_from_adds (todo : list string) (st st' : filesystem)
    (r : bool * option message) :
  ensure_subfolders_from todo st = (st', r) -> adds_dirs st st'.
Proof.
  revert st. induction todo as [|subfolder todo IH]; intros st; simpl.
  - intros [= <- _]. apply adds_dirs_refl.
  - destruct (Os.makedirs subfolder st) as [st1 [u|e]] eqn:Hm.
    + intros Hrest. eapply adds_dirs_trans; [by eapply makedirs_adds | by eapply IH].
    + intros [= <- _]. by eapply makedirs_adds.
Qed.

(** Where every folder is there already, [ensure_subfolders] changes
    nothing. *)
Lemma ensure_subfolders_from_noop (todo : list string) (st : filesystem) :
  Forall (fun subfolder => Os.makedirs subfolder st = (st, Ok ())) todo ->
  ensure_subfolders_from todo st = (st, (true, None)).
Proof.
  induction 1 as [|subfolder todo Hm _ IH]; simpl; [reflexivity |].
  by rewrite Hm.
Qed.

Lemma ensure_subfolders_from_stable (todo : list string) (st st1 st2 : filesystem)
    (message : option message) :
  ensure_subfolders_from todo st = (st1, (true, message)) -> grows st1 st2 ->
  ensure_subfolders_from todo st2 = (st2, (true, None)).
Proof.
  intros Hensure Hgrows. apply ensure_subfolders_from_noop.
  apply ensure_subfolders_from_ok in Hensure as [_ Hall].
  eapply Forall_impl; [exact Hall |]. intros subfolder Hm. simpl in Hm.
  exact (makedirs_stable _ _ _ _ _ Hm Hgrows).
Qed.

Lemma save_to_json_other (file : string) (data : pyval) (st st' : filesystem)
    (r : bool * option message) (k : list string) :
  save_to_json file data st = (st', r) -> k <> resolve file ->
  nodes st' !! k = nodes st !! k.
Proof.
  unfold save_to_json.
  destruct (Os.write_text file (json_dumps data) st) as [st1 [u|e]] eqn:Hw;
    intros [= <- _] Hk; exact (write_text_other _ _ _ _ _ _ Hw Hk).
Qed.

(** What a save towards a path that names no node leaves when it goes
    through. *)
Lemma save_to_json_fresh (file : string) (data : pyval) (st st' : filesystem)
    (message : option message) :
  nodes st !! resolve file = None ->
  save_to_json file data st = (st', (true, message)) ->
  file <> "" /\ PyStr.endswith_char sep file = false /\
  nodes st' !! resolve file = Some (File true true (json_dumps data)).
Proof.
  unfold save_to_json. intros Hnone.
  destruct (Os.write_text file (json_dumps data) st) as [st1 [u|e]] eqn:Hw; [| discriminate].
  intros [= <- _].
  destruct (write_text_fresh_ok _ _ _ _ _ Hnone Hw) as (Hp & He & _ & -> & _).
  repeat split; try done. simpl. apply lookup_insert_eq.
Qed.

Lemma save_to_json_keeps (file : string) (data : pyval) (st st' : filesystem)
    (r : bool * option message) :
  (forall r w content, nodes st !! resolve file <> Some (File r w content)) ->
  save_to_json file data st = (st', r) -> nodes st ⊆ nodes st'.
Proof.
  unfold save_to_json. intros Hnofile.
  destruct (Os.write_text file (json_dumps data) st) as [st1 e] eqn:Hw.
  assert (Hkeeps : nodes st ⊆ nodes st1).
  { destruct (nodes st !! resolve file) as [[w|r0 w old]|] eqn:Hk.
    - unfold Os.write_text in Hw. rewrite Hk in Hw.
      destruct (String.eqb file ""); by injection Hw as <- _.
    - by destruct (Hnofile r0 w old).
    - exact (write_text_fresh_keeps _ _ _ _ _ Hk Hw). }
  destruct e; by intros [= <- _].
Qed.

Lemma save_bundles_unfold (self : Project) (st : filesystem) :
  save_bundles self st
    = save_to_json (files_bundles (files self)) (bundles_document (bundles self)) st.
Proof.
  unfold save_bundles, bundles_document.
  by destruct (save_to_json _ _ st) as [st1 [[] m]].
Qed.

Lemma save_project_metadata_unfold (self : Project) (st : filesystem) :
  save_project_metadata self st
    = save_to_json (files_project_metadata (files self))
        (metadata_document (project_metadata self)) st.
Proof.
  unfold save_project_metadata, metadata_document.
  by destruct (save_to_json _ _ st) as [st1 [[] m]].
Qed.

Lemma bundles_key (d : string) :
  resolve (join d "bundles.json") = (resolve d ++ ["bundles.json"])%list.
Proof. by apply resolve_join. Qed.

Lemma metadata_key (d : string) :
  resolve (join d "project_metadata.json") = (resolve d ++ ["project_metadata.json"])%list.
Proof. by apply resolve_join. Qed.

Lemma stat_node_dir (p : string) (st : filesystem) (w : bool) :
  p <> "" -> nodes st !! resolve p = Some (Dir w) -> Os.stat p st = Ok (Dir w).
Proof.
  intros Hp Hk. unfold Os.stat. apply String.eqb_neq in Hp. by rewrite Hp, Hk.
Qed.

Lemma stat_node_file (p content : string) (r w : bool) (st : filesystem) :
  p <> "" -> PyStr.endswith_char sep p = false ->
  nodes st !! resolve p = Some (File r w content) -> Os.stat p st = Ok (File r w content).
Proof.
  intros Hp He Hk. unfold Os.stat. apply String.eqb_neq in Hp. by rewrite Hp, Hk, He.
Qed.

Lemma makedirs_not_empty (p : string) (st st' : filesystem) (u : unit) :
  Os.makedirs p st = (st', Ok u) -> p <> "".
Proof. unfold Os.makedirs. by intros Hm ->. Qed.

(** The steps of a [create_project] that reported success. *)
Lemma create_project_steps (fuel : nat) (self self1 : ProjectManager)
    (title parent_directory : option string) (st st4 : filesystem) :
  create_project fuel self title parent_directory st = Some (self1, st4, created) ->
  exists t d st1 st2 st3 m2 m3 m4,
    let parent := project_parent self parent_directory in
    let p := set_project_metadata (Project_init d)
               (PDict [("title", PStr t); ("description", PNone)]) in
    title = Some t /\
    probe_directory fuel parent (slugify t) st (candidate parent (slugify t) 0) 1 = Some d /\
    Os.makedirs d st = (st1, Ok ()) /\
    ensure_subfolders p st1 = (st2, (true, m2)) /\
    save_bundles p st2 = (st3, (true, m3)) /\
    save_project_metadata p st3 = (st4, (true, m4)) /\
    self1 = set_current_project self (Some p).
Proof.
  unfold create_project, created.
  destruct title as [t|]; [| discriminate]. simpl str_truthy.
  destruct (negb (negb (String.eqb t ""))); [discriminate |].
  change (default "" (Some t)) with t.
  change (join (project_parent self parent_directory) (slugify t))
    with (candidate (project_parent self parent_directory) (slugify t) 0).
  destruct (probe_directory _ _ _ _ _ _) as [d|] eqn:Hprobe; [| discriminate].
  simpl py_setitem. cbv iota beta.
  change (directory (set_project_metadata (Project_init d) ?md)) with d.
  destruct (Os.makedirs d st) as [st1 [[]|e]] eqn:Hmk; [| discriminate].
  destruct (ensure_subfolders _ st1) as [st2 [[] m2]] eqn:He; simpl; [| discriminate].
  destruct (save_bundles _ st2) as [st3 [[] m3]] eqn:Hb; simpl; [| discriminate].
  destruct (save_project_metadata _ st3) as [st4' [[] m4]] eqn:Hm; simpl; [| discriminate].
  intros [= <- <-]. exists t, d, st1, st2, st3, m2, m3, m4. simpl.
  repeat split; done.
Qed.

(** What a [create_project] that reported success on a well-formed file
    system has made: a directory that was not there, the two files with the
    documents written, readable, and the subfolders. *)
Lemma created_project_disk (fuel : nat) (self self1 : ProjectManager)
    (title parent_directory : option string) (st st4 : filesystem) :
  well_formed st ->
  create_project fuel self title parent_directory st = Some (self1, st4, created) ->
  exists t d w,
    let metadata := PDict [("title", PStr t); ("description", PNone)] in
    let p := set_project_metadata (Project_init d) metadata in
    title = Some t /\
    self1 = set_current_project self (Some p) /\
    d <> "" /\
    Os.path_exists d st = false /\
    nodes st !! resolve d = None /\
    nodes st4 !! resolve d = Some (Dir w) /\
    nodes st4 !! (resolve d ++ ["bundles.json"])%list
      = Some (File true true (json_dumps (bundles_document (PList [])))) /\
    nodes st4 !! (resolve d ++ ["project_metadata.json"])%list
      = Some (File true true (json_dumps (metadata_document metadata))) /\
    ensure_subfolders p st4 = (st4, (true, None)).
Proof.
  intros Hwf Hrun.
  destruct (create_project_steps _ _ _ _ _ _ _ Hrun)
    as (t & d & st1 & st2 & st3 & m2 & m3 & m4 & Ht & Hprobe & Hmk & Hens & Hsb & Hsm & Hself).
  cbv zeta in Hprobe, Hens, Hsb, Hsm, Hself.
  apply probe_directory_some in Hprobe as (n & -> & _ & Hfree & _).
  set (d := candidate _ _ n) in *.
  pose proof (makedirs_not_empty _ _ _ _ Hmk) as Hd.
  pose proof (makedirs_fresh _ _ _ _ Hfree Hmk) as Hnone.
  pose proof (dirs_along_last _ _ _ (makedirs_ok_dirs _ _ _ _ Hmk)) as [w1 Hdir1].
  simpl in Hdir1.
  pose proof (makedirs_adds _ _ _ _ Hmk) as Hadds1.
  pose proof (ensure_subfolders_from_adds _ _ _ _ Hens) as Hadds2.
  pose proof (adds_dirs_trans _ _ _ Hadds1 Hadds2) as Hadds.
  rewrite save_bundles_unfold in Hsb. rewrite save_project_metadata_unfold in Hsm.
  simpl in Hsb, Hsm.
  assert (HnoB : nodes st2 !! resolve (join d "bundles.json") = None).
  { rewrite bundles_key.
    pose proof (well_formed_absent_child _ _ "bundles.json" Hwf Hnone) as Habs.
    destruct (nodes st2 !! (resolve d ++ ["bundles.json"])%list) as [[wb|rb wb cb]|] eqn:Hk;
      [| | done].
    - unfold save_to_json, Os.write_text in Hsb. rewrite bundles_key, Hk in Hsb.
      by destruct (String.eqb (join d "bundles.json") "").
    - apply (adds_dirs_file _ _ _ _ _ _ Hadds) in Hk. congruence. }
  destruct (save_to_json_fresh _ _ _ _ _ HnoB Hsb) as (_ & _ & HfileB).
  assert (HnoM : nodes st3 !! resolve (join d "project_metadata.json") = None).
  { rewrite (save_to_json_other _ _ _ _ _ _ Hsb);
      [| rewrite metadata_key, bundles_key; intros Hk; apply app_inv_head in Hk; discriminate].
    rewrite metadata_key.
    pose proof (well_formed_absent_child _ _ "project_metadata.json" Hwf Hnone) as Habs.
    destruct (nodes st2 !! (resolve d ++ ["project_metadata.json"])%list)
      as [[wb|rb wb cb]|] eqn:Hk; [| | done].
    - unfold save_to_json, Os.write_text in Hsm.
      rewrite metadata_key in Hsm.
      rewrite (save_to_json_other _ _ _ _ _ _ Hsb) in Hsm;
        [| rewrite bundles_key; intros Hk'; apply app_inv_head in Hk'; discriminate].
      rewrite Hk in Hsm.
      by destruct (String.eqb (join d "project_metadata.json") "").
    - apply (adds_dirs_file _ _ _ _ _ _ Hadds) in Hk. congruence. }
  destruct (save_to_json_fresh _ _ _ _ _ HnoM Hsm) as (_ & _ & HfileM).
  rewrite bundles_key in HfileB. rewrite metadata_key in HfileM.
  exists t, d, w1. simpl. split; [exact Ht |]. split; [exact Hself |].
  split; [exact Hd |]. split; [exact Hfree |]. split; [exact Hnone |].
  pose proof (save_to_json_grows _ _ _ _ _ Hsb) as Hg3.
  pose proof (save_to_json_grows _ _ _ _ _ Hsm) as Hg4.
  split; [| split; [| split]].
  - pose proof (Hadds2 (resolve d)) as Hk2. rewrite Hdir1 in Hk2.
    destruct Hk2 as [Hk2 | [? _]]; [| done].
    pose proof (Hg3 (resolve d)) as Hk3. rewrite Hk2 in Hk3.
    pose proof (Hg4 (resolve d)) as Hk4. by rewrite Hk3 in Hk4.
  - rewrite (save_to_json_other _ _ _ _ _ _ Hsm); [exact HfileB |].
    rewrite metadata_key. intros Hk. apply app_inv_head in Hk. discriminate.
  - exact HfileM.
  - exact (ensure_subfolders_from_stable _ _ _ _ _ Hens (grows_trans _ _ _ Hg3 Hg4)).
Qed.

End CreatedFacts.

(* ===================================================================== *)
(** * Opening a project *)
(* ===================================================================== *)

Section OpeningFacts.

Context `{Libraries} `{Locale}.

Import OsPath.

(** A load that succeeded has read the file. *)
Lemma load_from_json_ok (file item_name : string) (st : filesystem)
    (message : option message) (item : pyval) :
  load_from_json file item_name st = (true, message, item) ->
  exists text, Os.read_text file st = Ok text.
Proof.
  unfold load_from_json. destruct (Os.read_text file st) as [text|e]; [by exists text |].
  simpl. destruct (is_FileNotFoundError e); [discriminate |].
  by destruct (is_JSONDecodeError e).
Qed.

Lemma load_bundles_inv (self self' : Project) (st : filesystem) (result : bool)
    (message : option message) :
  load_bundles self st = (self', (result, message)) ->
  (result = false /\ self' = self) \/
  (result = true /\ message = None /\
   exists warning item,
     load_from_json (files_bundles (files self)) "bundles" st = (true, warning, item) /\
     self' = set_bundles self item).
Proof.
  unfold load_bundles.
  destruct (load_from_json (files_bundles (files self)) "bundles" st) as [[[] m] item]; simpl.
  - intros [= <- <- <-]. right. repeat split. by exists m, item.
  - intros [= <- <- <-]. by left.
Qed.

Lemma load_project_metadata_inv (self self' : Project) (st : filesystem) (result : bool)
    (message : option message) :
  load_project_metadata self st = (self', (result, message)) ->
  (result = false /\ self' = self) \/
  (result = true /\ message = None /\
   exists warning item,
     load_from_json (files_project_metadata (files self)) "project_metadata" st
       = (true, warning, item) /\
     self' = set_project_metadata self item).
Proof.
  unfold load_project_metadata.
  destruct (load_from_json (files_project_metadata (files self)) "project_metadata" st)
    as [[[] m] item]; simpl.
  - intros [= <- <- <-]. right. repeat split. by exists m, item.
  - intros [= <- <- <-]. by left.
Qed.

(** A path that can be read names a regular file. *)
Lemma read_text_isfile (p text : string) (st : filesystem) :
  Os.read_text p st = Ok text -> Os.path_isfile p st = true.
Proof.
  unfold Os.read_text, Os.read_bytes, Os.path_isfile.
  destruct (Os.stat p st) as [[w|r w content]|e]; simpl; done.
Qed.

Lemma path_isfile_grows (p : string) (st st' : filesystem) :
  grows st st' -> Os.path_isfile p st = true -> Os.path_isfile p st' = true.
Proof.
  intros Hgrows. unfold Os.path_isfile, Os.stat.
  destruct (String.eqb p ""); [done |].
  pose proof (Hgrows (resolve p)) as Hk.
  destruct (nodes st !! resolve p) as [[w|r w content]|]; [done | | ].
  - destruct Hk as [content' ->]. by destruct (PyStr.endswith_char sep p).
  - by destruct (Os.missing _ _ _) as [[]| | | | | | |].
Qed.

(** The ways out of [load_project]. *)
Lemma load_project_inv (self self' : ProjectManager) (directory : string)
    (st st' : filesystem) (r : result returned) :
  load_project self directory st = (self', st', r) ->
  adds_dirs st st' /\
  ((self' = self /\ forall message, r <> Ok (RetTuple true message)) \/
   (r = Ok (RetTuple true None) /\
    exists project,
      self' = set_current_project self (Some project) /\
      Project_directory project = directory /\
      project_layout project)).
Proof.
  unfold load_project.
  destruct (Os.path_exists directory st); simpl.
  2:{ intros [= <- <- <-]. split; [apply adds_dirs_refl |]. by left. }
  destruct (load_bundles (Project_init directory) st) as [p1 [r1 m1]] eqn:Hlb.
  destruct r1; simpl.
  2:{ intros [= <- <- <-]. split; [apply adds_dirs_refl |]. by left. }
  destruct (ensure_subfolders p1 st) as [st2 [r2 m2]] eqn:Hens.
  pose proof (ensure_subfolders_from_adds _ _ _ _ Hens) as Hadds.
  destruct r2; simpl.
  2:{ intros [= <- <- <-]. split; [exact Hadds |]. by left. }
  destruct (load_project_metadata p1 st2) as [p3 [r3 m3]] eqn:Hlm.
  destruct r3; simpl.
  2:{ intros [= <- <- <-]. split; [exact Hadds |]. by left. }
  intros [= <- <- <-]. split; [exact Hadds |]. right.
  apply load_bundles_inv in Hlb as [[? _] | (_ & _ & w1 & i1 & _ & ->)]; [done |].
  apply load_project_metadata_inv in Hlm as [[? _] | (_ & -> & w3 & i3 & _ & ->)]; [done |].
  split; [reflexivity |]. eexists. split; [reflexivity |]. by repeat split.
Qed.

(** X1.  What [load_project] can do: it only ever adds directories to the
    file system; when it reports success the manager has a new current
    project, made for the directory asked for, and no message comes with the
    result; in every other case, an exception included, the manager is the
    one it was, current project included. *)
Theorem load_project_outcomes (self self' : ProjectManager) (directory : string)
    (st st' : filesystem) (r : result returned) :
  load_project self directory st = (self', st', r) ->
  adds_dirs st st' /\
  (forall message, r = Ok (RetTuple true message) ->
     message = None /\
     exists project,
       self' = set_current_project self (Some project) /\
       Project_directory project = directory /\
       project_layout project) /\
  ((forall message, r <> Ok (RetTuple true message)) ->
     self' = self /\ current_project self' = current_project self).
Proof.
  intros Hrun. destruct (load_project_inv _ _ _ _ _ _ Hrun) as [Hadds Hcases].
  split; [exact Hadds |]. split.
  - intros message ->. destruct Hcases as [[_ Hfail] | [[= <-] Hproject]].
    + by destruct (Hfail message).
    + by split.
  - intros Hfail. destruct Hcases as [[-> _] | [-> _]]; [done |].
    by destruct (Hfail None).
Qed.

(** X2.  [load_project] goes through only on a directory that
    [is_copista_project] accepts, before the call and after it: the mark the
    file selector puts on a folder is a necessary condition for opening
    it. *)
Theorem load_project_needs_bundles_file (self self' : ProjectManager) (directory : string)
    (st st' : filesystem) (message : option message) :
  load_project self directory st = (self', st', Ok (RetTuple true message)) ->
  is_copista_project directory st = true /\ is_copista_project directory st' = true.
Proof.
  unfold load_project.
  destruct (Os.path_exists directory st); simpl; [| discriminate].
  destruct (load_bundles (Project_init directory) st) as [p1 [r1 m1]] eqn:Hlb.
  destruct r1; simpl; [| discriminate].
  destruct (ensure_subfolders p1 st) as [st2 [r2 m2]] eqn:Hens.
  destruct r2; simpl; [| discriminate].
  destruct (load_project_metadata p1 st2) as [p3 [[] m3]]; simpl; [| discriminate].
  intros [= _ <- _].
  apply load_bundles_inv in Hlb as [[? _] | (_ & _ & w1 & i1 & Hload & _)]; [done |].
  apply load_from_json_ok in Hload as [text Hread].
  apply read_text_isfile in Hread. simpl in Hread.
  assert (Hfile : is_copista_project directory st = true).
  { unfold is_copista_project. by rewrite Hread. }
  split; [exact Hfile |].
  unfold is_copista_project.
  by rewrite (path_isfile_grows _ _ _ (ensure_subfolders_from_grows _ _ _ _ Hens) Hread).
Qed.

(** A project directory that may not be written to and has lost its
    [.cache] folder: [ensure_subfolders] fails with its message, and
    [load_project] returns the one [load_bundles] gave, which is [None]. *)
Lemma load_project_read_only (self : ProjectManager) (directory text : string)
    (items : list (string * pyval)) (st : filesystem) :
  well_formed st ->
  Os.stat directory st = Ok (Dir false) ->
  nodes st !! (resolve directory ++ [".cache"])%list = None ->
  Os.read_text (join directory "bundles.json") st = Ok text ->
  json_loads text = Some (PDict items) ->
  fst (ensure_subfolders (Project_init directory) st) = st /\
  (exists detail,
     snd (ensure_subfolders (Project_init directory) st) = (false, Some ("Error", detail))) /\
  load_project self directory st = (self, st, Ok (RetTuple false None)).
Proof.
  intros Hwf Hstat Hcache Hread Hjson.
  destruct (stat_dir _ _ _ Hstat) as [Hd Hnode].
  assert (Hmk : Os.makedirs (join directory ".cache") st
                = (st, Raise (OSError EACCES (join directory ".cache")))).
  { unfold Os.makedirs.
    assert (Hne : join directory ".cache" <> "") by by apply join_not_empty.
    apply String.eqb_neq in Hne. rewrite Hne.
    rewrite (resolve_join directory ".cache" eq_refl eq_refl).
    rewrite makedirs_walk_through, app_nil_l.
    2:{ eapply well_formed_dirs_along; [exact Hwf | exact Hnode]. }
    simpl. rewrite Hcache. unfold Os.mkdir_key.
    by rewrite Hcache, parent_key_child, Hnode. }
  assert (Hens : forall p, subfolders p = subfolders (Project_init directory) ->
            ensure_subfolders p st
            = (st, (false, Some ("Error", "Error al crear " +:+ join directory ".cache" +:+ ": "
                                   +:+ str_exn (OSError EACCES (join directory ".cache")))))).
  { intros p Hp. unfold ensure_subfolders. rewrite Hp. simpl. by rewrite Hmk. }
  rewrite (Hens _ eq_refl). simpl. split; [reflexivity |]. split; [by eexists |].
  assert (Hex : Os.path_exists directory st = true) by (unfold Os.path_exists; by rewrite Hstat).
  pose proof (load_from_json_dict _ "bundles" _ _ _ Hread Hjson) as Hload. simpl in Hload.
  assert (Hlb : exists item, load_bundles (Project_init directory) st
                  = (set_bundles (Project_init directory) item, (true, None))).
  { eexists. unfold load_bundles. simpl files_bundles. by rewrite Hload. }
  destruct Hlb as [item Hlb].
  unfold load_project. rewrite Hex, Hlb. cbv beta iota zeta. simpl negb. cbv iota.
  by rewrite (Hens (set_bundles (Project_init directory) item) eq_refl).
Qed.

End OpeningFacts.

(* ===================================================================== *)
(** * A project that was created *)
(* ===================================================================== *)

Section CreatedTheorems.

Context `{Libraries} `{Locale}.

Import OsPath.

(** X3.  A project [create_project] has made can be opened where the locale
    reads the two files as they were written (a UTF-8 locale, or a title in
    ASCII): by any manager, [load_project] on its directory succeeds,
    changes nothing on the disk and has for current project the very object
    [create_project] left, with the title given and no bundles.  [json] is
    asked to read back the integer-free values it writes. *)
Theorem load_created_project (fuel : nat) (self self1 other : ProjectManager)
    (title parent_directory : option string) (st st1 : filesystem) :
  let metadata := PDict [("title", PStr (default "" title)); ("description", PNone)] in
  (forall v, plain v = true -> json_loads (json_dumps v) = Some v) ->
  locale_decode (json_dumps (bundles_document (PList [])))
    = inl (json_dumps (bundles_document (PList []))) ->
  locale_decode (json_dumps (metadata_document metadata))
    = inl (json_dumps (metadata_document metadata)) ->
  well_formed st ->
  create_project fuel self title parent_directory st = Some (self1, st1, created) ->
  exists project,
    current_project self1 = Some project /\
    bundles project = PList [] /\
    py_get (project_metadata project) "title" PNone = Ok (PStr (default "" title)) /\
    load_project other (directory project) st1
      = (set_current_project other (Some project), st1, Ok (RetTuple true None)).
Proof.
  intros metadata Hcodec HlocaleB HlocaleM Hwf Hrun. subst metadata.
  destruct (created_project_disk _ _ _ _ _ _ _ Hwf Hrun)
    as (t & d & w & -> & -> & Hd & _ & _ & Hdir & HfileB & HfileM & Hens).
  cbv zeta in *. change (default "" (Some t)) with t in HlocaleM.
  eexists. split; [reflexivity |]. split; [reflexivity |].
  split; [reflexivity |]. simpl directory.
  unfold load_project, Os.path_exists. rewrite (stat_node_dir _ _ _ Hd Hdir). simpl negb.
  cbv iota.
  assert (HreadB : Os.read_text (join d "bundles.json") st1
                   = Ok (json_dumps (bundles_document (PList [])))).
  { rewrite (read_text_bytes _ (json_dumps (bundles_document (PList [])))).
    - unfold Os.decode. by rewrite HlocaleB.
    - apply (read_bytes_file _ _ true true); [by apply join_not_empty | |].
      + by rewrite endswith_join.
      + by rewrite bundles_key. }
  assert (HreadM : Os.read_text (join d "project_metadata.json") st1
                   = Ok (json_dumps (metadata_document
                           (PDict [("title", PStr t); ("description", PNone)])))).
  { rewrite (read_text_bytes _ (json_dumps (metadata_document
                                   (PDict [("title", PStr t); ("description", PNone)])))).
    - unfold Os.decode. by rewrite HlocaleM.
    - apply (read_bytes_file _ _ true true); [by apply join_not_empty | |].
      + by rewrite endswith_join.
      + by rewrite metadata_key. }
  pose proof (load_from_json_dict _ "bundles" _ [("bundles", PList [])] _ HreadB
                (Hcodec (bundles_document (PList [])) eq_refl)) as HloadB.
  pose proof (load_from_json_dict _ "project_metadata" _
                [("project_metadata", PDict [("title", PStr t); ("description", PNone)])] _
                HreadM
                (Hcodec (metadata_document (PDict [("title", PStr t); ("description", PNone)]))
                        eq_refl)) as HloadM.
  simpl in HloadB, HloadM.
  unfold load_bundles. simpl files_bundles. rewrite HloadB. simpl.
  unfold ensure_subfolders in *. simpl in Hens. simpl. rewrite Hens. simpl.
  unfold load_project_metadata. simpl. rewrite HloadM. reflexivity.
Qed.

(** X4.  [create_project] makes a directory that [is_copista_project] did
    not accept before the call into one that it accepts. *)
Theorem created_project_is_recognised (fuel : nat) (self self1 : ProjectManager)
    (title parent_directory : option string) (st st1 : filesystem) :
  well_formed st ->
  create_project fuel self title parent_directory st = Some (self1, st1, created) ->
  exists project,
    current_project self1 = Some project /\
    is_copista_project (directory project) st = false /\
    is_copista_project (directory project) st1 = true.
Proof.
  intros Hwf Hrun.
  destruct (created_project_disk _ _ _ _ _ _ _ Hwf Hrun)
    as (t & d & w & -> & -> & Hd & _ & Hnone & Hdir & HfileB & _ & _).
  cbv zeta in *. eexists. split; [reflexivity |]. simpl directory.
  unfold is_copista_project, Os.path_isfile. split.
  - unfold Os.stat. rewrite bundles_key.
    rewrite (well_formed_absent_child st (resolve d) "bundles.json" Hwf Hnone).
    by destruct (String.eqb _ "").
  - erewrite (stat_node_file _ _ true true); [reflexivity | by apply join_not_empty | |].
    + by rewrite endswith_join.
    + rewrite bundles_key. exact HfileB.
Qed.

(** X5.  Whatever its outcome, [create_project] changes nothing that was on
    the disk before the call: every node that was there is there unchanged
    afterwards.  What a failed call has made before it failed stays as
    well: nothing is removed. *)
Theorem create_project_keeps_existing (fuel : nat) (self self1 : ProjectManager)
    (title parent_directory : option string) (st st1 : filesystem) (r : result returned) :
  well_formed st ->
  create_project fuel self title parent_directory st = Some (self1, st1, r) ->
  nodes st ⊆ nodes st1.
Proof.
  intros Hwf. unfold create_project.
  destruct (negb (str_truthy title)); [by intros [= _ <- _] |].
  set (parent := project_parent self parent_directory).
  set (slug := slugify (default "" title)).
  change (join parent slug) with (candidate parent slug 0).
  destruct (probe_directory _ _ _ _ _ _) as [d|] eqn:Hprobe; [| discriminate].
  apply probe_directory_some in Hprobe as (n & -> & _ & Hfree & _).
  set (d := candidate parent slug n) in *.
  destruct (py_setitem _ _ _) as [metadata|e]; [| by intros [= _ <- _]].
  change (directory (set_project_metadata (Project_init d) metadata)) with d.
  destruct (Os.makedirs d st) as [st2 [u|e]] eqn:Hmk.
  2:{ intros [= _ <- _]. exact (adds_dirs_keeps _ _ (makedirs_adds _ _ _ _ Hmk)). }
  pose proof (makedirs_fresh _ _ _ _ Hfree Hmk) as Hnone.
  pose proof (makedirs_adds _ _ _ _ Hmk) as Hadds1.
  destruct (ensure_subfolders _ st2) as [st3 [r3 m3]] eqn:Hens.
  pose proof (ensure_subfolders_from_adds _ _ _ _ Hens) as Hadds2.
  pose proof (adds_dirs_trans _ _ _ Hadds1 Hadds2) as Hadds.
  pose proof (adds_dirs_keeps _ _ Hadds) as Hkeeps3.
  destruct r3; cbv beta iota zeta; simpl negb; cbv iota; [| by intros [= _ <- _]].
  rewrite save_bundles_unfold. simpl files_bundles.
  destruct (save_to_json (join d "bundles.json") _ st3) as [st4 [r4 m4]] eqn:Hsb.
  assert (Hkeeps4 : nodes st3 ⊆ nodes st4).
  { apply (save_to_json_keeps _ _ _ _ _ ) in Hsb; [exact Hsb |].
    intros r0 w content Hk. rewrite bundles_key in Hk.
    apply (adds_dirs_file _ _ _ _ _ _ Hadds) in Hk.
    by rewrite (well_formed_absent_child st (resolve d) "bundles.json" Hwf Hnone) in Hk. }
  destruct r4; cbv beta iota zeta; simpl negb; cbv iota;
    [| intros [= _ <- _]; by transitivity (nodes st3)].
  rewrite save_project_metadata_unfold. simpl files_project_metadata.
  destruct (save_to_json (join d "project_metadata.json") _ st4) as [st5 [r5 m5]] eqn:Hsm.
  assert (Hkeeps5 : nodes st4 ⊆ nodes st5).
  { apply (save_to_json_keeps _ _ _ _ _ ) in Hsm; [exact Hsm |].
    intros r0 w content Hk.
    rewrite (save_to_json_other _ _ _ _ _ _ Hsb) in Hk by
      (rewrite metadata_key, bundles_key; intros Hk'; apply app_inv_head in Hk'; discriminate).
    rewrite metadata_key in Hk.
    apply (adds_dirs_file _ _ _ _ _ _ Hadds) in Hk.
    by rewrite (well_formed_absent_child st (resolve d) "project_metadata.json" Hwf Hnone)
      in Hk. }
  assert (Hall : nodes st ⊆ nodes st5)
    by (transitivity (nodes st3); [done |]; by transitivity (nodes st4)).
  destruct r5; cbv beta iota zeta; simpl negb; cbv iota; by intros [= _ <- _].
Qed.

End CreatedTheorems.

(* ===================================================================== *)
(** * The two files of a project *)
(* ===================================================================== *)

Section FileTheorems.

Context `{Libraries} `{Locale}.

Import OsPath.

(** X6.  The round trip of the metadata, where the locale reads the file as
    it was written (a UTF-8 locale, or metadata in ASCII): after
    [save_project_metadata] has succeeded, [load_project_metadata] on a
    project object of the same file succeeds and sets the in-memory metadata
    to the value that was saved, for every integer-free value, unless the
    file may not be read.  Where the locale reads the file otherwise, what
    is loaded is what [json] makes of the text the locale hands over. *)
Theorem save_load_project_metadata_roundtrip (self self' : Project) (st st' : filesystem)
    (message : option message) :
  let document := metadata_document (project_metadata self) in
  (forall v, plain v = true -> json_loads (json_dumps v) = Some v) ->
  plain (project_metadata self) = true ->
  files_project_metadata (files self') = files_project_metadata (files self) ->
  save_project_metadata self st = (st', (true, message)) ->
  Os.read_bytes (files_project_metadata (files self)) st'
    <> Raise (OSError EACCES (files_project_metadata (files self))) ->
  message = None /\
  Os.read_bytes (files_project_metadata (files self)) st' = Ok (json_dumps document) /\
  (locale_decode (json_dumps document) = inl (json_dumps document) ->
   load_project_metadata self' st'
     = (set_project_metadata self' (project_metadata self), (true, None))) /\
  (forall text items,
     locale_decode (json_dumps document) = inl text ->
     json_loads text = Some (PDict items) ->
     load_project_metadata self' st'
       = (set_project_metadata self'
            (from_option id (PList []) (assoc_get "project_metadata" items)),
          (true, None))) /\
  (forall detail,
     locale_decode (json_dumps document) = inr detail ->
     load_project_metadata self' st'
       = (self', (false, Some ("Error", "Error inesperado: " +:+ detail)))).
Proof.
  intros document Hcodec Hplain Hsame Hsave Hread.
  rewrite save_project_metadata_unfold in Hsave.
  apply save_to_json_ok in Hsave as [-> [Hr | Hr]]; [| done].
  split; [reflexivity |]. split; [exact Hr |].
  assert (Hdoc : plain document = true).
  { unfold document, metadata_document. simpl. by rewrite Hplain. }
  apply read_text_bytes in Hr. unfold Os.decode in Hr. fold document in Hr.
  split; [| split].
  - intros Hlocale. rewrite Hlocale in Hr.
    pose proof (load_from_json_dict _ "project_metadata" _ _ _ Hr (Hcodec _ Hdoc)) as Hload.
    simpl in Hload. unfold load_project_metadata. by rewrite Hsame, Hload.
  - intros text items Hlocale Hjson. rewrite Hlocale in Hr.
    pose proof (load_from_json_dict _ "project_metadata" _ _ _ Hr Hjson) as Hload.
    simpl in Hload. unfold load_project_metadata. by rewrite Hsame, Hload.
  - intros detail Hlocale. rewrite Hlocale in Hr.
    unfold load_project_metadata, load_from_json. by rewrite Hsame, Hr.
Qed.


(** X8.  [save_bundles] touches one node of the file system, that of
    [bundles.json]; when it succeeds no message comes with the result and
    the file holds the document written for the in-memory list, and when it
    fails the message names the file. *)
Theorem save_bundles_touches_one_file (self : Project) (st st' : filesystem)
    (result : bool) (message : option message) :
  save_bundles self st = (st', (result, message)) ->
  let file := files_bundles (files self) in
  (forall k, k <> resolve file -> nodes st' !! k = nodes st !! k) /\
  (result = true ->
     message = None /\
     exists r w, nodes st' !! resolve file
                 = Some (File r w (json_dumps (PDict [("bundles", bundles self)])))) /\
  (result = false ->
     exists detail,
       message = Some ("Error", "Error actualizando " +:+ file +:+ ": " +:+ detail)).
Proof.
  rewrite save_bundles_unfold. intros Hsave file. split; [| split].
  - intros k Hk. exact (save_to_json_other _ _ _ _ _ _ Hsave Hk).
  - intros ->. unfold save_to_json in Hsave. fold file in Hsave.
    destruct (Os.write_text file _ st) as [st1 [u|e]] eqn:Hw; [| discriminate].
    injection Hsave as <- <-. split; [reflexivity |].
    by destruct (write_text_ok _ _ _ _ _ Hw) as (_ & _ & Hnode).
  - intros ->. unfold save_to_json in Hsave. fold file in Hsave.
    destruct (Os.write_text file _ st) as [st1 [u|e]]; [discriminate |].
    injection Hsave as _ <-. by eexists.
Qed.

End FileTheorems.

(* ===================================================================== *)
(** * Copying an image into a project *)
(* ===================================================================== *)

Section CopyFacts.

Import OsPath.

Lemma app_inj_r (a b e : string) : a +:+ e = b +:+ e -> a = b.
Proof.
  revert b. induction a as [|x a IH]; intros b Heq.
  - destruct b as [|y b]; [reflexivity |]. exfalso.
    apply (f_equal String.length) in Heq.
    rewrite app_nil_str, app_cons_str in Heq. simpl in Heq.
    rewrite length_app_str in Heq. lia.
  - destruct b as [|y b].
    + exfalso. apply (f_equal String.length) in Heq.
      rewrite app_nil_str, app_cons_str in Heq. simpl in Heq.
      rewrite length_app_str in Heq. lia.
    + rewrite !app_cons_str in Heq. injection Heq as -> Heq. f_equal. by apply IH.
Qed.

Lemma split_parts_no_sep (c : ascii) (s : string) :
  Forall (fun part => PyStr.contains c part = false) (PyStr.split c s).
Proof.
  induction s as [|a s IH]; simpl; [by repeat constructor |].
  destruct (Ascii.eqb a c) eqn:Ha; [by constructor |].
  destruct (PyStr.split c s) as [|h t]; [by repeat constructor; simpl; rewrite Ha |].
  inversion IH as [|? ? Hh Ht]; subst. constructor; [| exact Ht].
  simpl. by rewrite Ha, Hh.
Qed.

Lemma last_Forall {A : Type} (P : A -> Prop) (l : list A) (d : A) :
  P d -> Forall P l -> P (List.last l d).
Proof.
  intros Hd. induction 1 as [|x l Hx Hl IH]; [exact Hd |].
  destruct l; [exact Hx | exact IH].
Qed.

Lemma name_no_sep (p : string) : PyStr.contains sep (PathLib.name p) = false.
Proof.
  unfold PathLib.name, resolve.
  apply (last_Forall (fun part => PyStr.contains sep part = false)); [reflexivity |].
  apply List.Forall_forall. intros part Hin. apply List.filter_In in Hin as [Hin _].
  pose proof (split_parts_no_sep sep p) as Hall.
  rewrite List.Forall_forall in Hall. by apply Hall.
Qed.

Lemma take_no_sep (c : ascii) (n : nat) (s : string) :
  PyStr.contains c s = false -> PyStr.contains c (PyStr.take n s) = false.
Proof.
  revert n. induction s as [|a s IH]; intros [|n]; simpl; try done.
  intros Hc. apply orb_false_iff in Hc as [-> Hs]. by apply IH.
Qed.

Lemma drop_no_sep (c : ascii) (n : nat) (s : string) :
  PyStr.contains c s = false -> PyStr.contains c (PyStr.drop n s) = false.
Proof.
  revert n. induction s as [|a s IH]; intros [|n]; simpl; try done.
  intros Hc. apply orb_false_iff in Hc as [_ Hs]. by apply IH.
Qed.

Lemma stem_no_sep (p : string) : PyStr.contains sep (PathLib.stem p) = false.
Proof. unfold PathLib.stem. apply take_no_sep, name_no_sep. Qed.

Lemma suffix_no_sep (p : string) : PyStr.contains sep (PathLib.suffix p) = false.
Proof.
  unfold PathLib.suffix. destruct (PyStr.rfind "." (PathLib.name p)) as [i|]; [| reflexivity].
  destruct (_ && _); [| reflexivity]. apply drop_no_sep, name_no_sep.
Qed.

Lemma probe_filename_step (fuel : nat) (dest base ext : string) (st : filesystem) (n : nat) :
  probe_filename (S fuel) dest base ext st
      (image_candidate base ext n) (join dest (image_candidate base ext n)) (S n) =
    if Os.path_exists (join dest (image_candidate base ext n)) st
    then probe_filename fuel dest base ext st
           (image_candidate base ext (S n)) (join dest (image_candidate base ext (S n)))
           (S (S n))
    else Some (image_candidate base ext n, join dest (image_candidate base ext n)).
Proof. reflexivity. Qed.

(** What the loop returns is the first name in the sequence that does not
    exist in the destination. *)
Lemma probe_filename_some (fuel : nat) (dest base ext : string) (st : filesystem)
    (i : nat) (name path : string) :
  probe_filename fuel dest base ext st
    (image_candidate base ext i) (join dest (image_candidate base ext i)) (S i)
    = Some (name, path) ->
  exists n, name = image_candidate base ext n /\ path = join dest name /\ (i <= n)%nat /\
    Os.path_exists (join dest (image_candidate base ext n)) st = false /\
    forall m, (i <= m < n)%nat ->
      Os.path_exists (join dest (image_candidate base ext m)) st = true.
Proof.
  revert i. induction fuel as [|fuel IH]; intros i; [discriminate |].
  rewrite probe_filename_step.
  destruct (Os.path_exists (join dest (image_candidate base ext i)) st) eqn:Hi.
  - intros Hrest. destruct (IH _ Hrest) as (n & -> & -> & Hle & Hfree & Hbusy).
    exists n. repeat split; [lia | exact Hfree |].
    intros m Hm. destruct (decide (m = i)) as [-> | Hne]; [exact Hi |].
    apply Hbusy. lia.
  - intros [= <- <-]. exists i. repeat split; [lia | exact Hi |]. intros m Hm. lia.
Qed.

Lemma probe_filename_none (fuel : nat) (dest base ext : string) (st : filesystem) (i : nat) :
  probe_filename fuel dest base ext st
    (image_candidate base ext i) (join dest (image_candidate base ext i)) (S i) = None ->
  forall m, (i <= m < i + fuel)%nat ->
    Os.path_exists (join dest (image_candidate base ext m)) st = true.
Proof.
  revert i. induction fuel as [|fuel IH]; intros i; [intros _ m Hm; lia |].
  rewrite probe_filename_step.
  destruct (Os.path_exists (join dest (image_candidate base ext i)) st) eqn:Hi;
    [| discriminate].
  intros Hrest m Hm. destruct (decide (m = i)) as [-> | Hne]; [exact Hi |].
  apply (IH _ Hrest). lia.
Qed.

Lemma image_key (dest base ext : string) (n : nat) :
  PyStr.contains sep base = false -> PyStr.contains sep ext = false ->
  resolve (join dest (image_candidate base ext (S n))) =
    (resolve dest ++ [base +:+ "_" +:+ PyStr.fmt_03d (S n) +:+ ext])%list.
Proof.
  intros Hbase Hext. unfold image_candidate. apply resolve_join.
  - rewrite !contains_app, Hbase, Hext, fmt_03d_no_sep. reflexivity.
  - apply component_ok_underscore. rewrite !contains_app. simpl.
    by rewrite orb_true_r.
Qed.

(** The loop ends, as that of [create_project] does. *)
Lemma probe_filename_terminates (dest base ext : string) (st : filesystem) :
  PyStr.contains sep base = false -> PyStr.contains sep ext = false ->
  is_Some (probe_filename (probe_fuel st) dest base ext st
             (image_candidate base ext 0) (join dest (image_candidate base ext 0)) 1).
Proof.
  intros Hbase Hext.
  destruct (probe_filename _ _ _ _ _ _ _ _) as [d|] eqn:Hprobe; [eauto |].
  exfalso. pose proof (probe_filename_none _ _ _ _ _ _ Hprobe) as Hbusy.
  set (key := fun n =>
         (resolve dest ++ [base +:+ "_" +:+ PyStr.fmt_03d (S n) +:+ ext])%list).
  assert (Hinj : Inj (=) (=) key).
  { intros n m Heq. unfold key in Heq.
    apply app_inv_head in Heq. injection Heq as Heq.
    apply String.app_inj in Heq. apply (String.app_inj "_") in Heq.
    apply app_inj_r in Heq. apply fmt_03d_inj in Heq. lia. }
  set (keys := key <$> seq 0 (S (size (nodes st)))).
  assert (Hnodup : NoDup keys) by (apply NoDup_fmap_2; [exact Hinj | apply NoDup_seq]).
  assert (Hsub : (list_to_set keys : gset (list string)) ⊆ dom (nodes st)).
  { intros k Hk. apply elem_of_list_to_set, list_elem_of_fmap in Hk as (n & -> & Hn).
    apply elem_of_seq in Hn. apply elem_of_dom. unfold key.
    rewrite <- (image_key _ _ _ _ Hbase Hext). apply path_exists_node, Hbusy.
    unfold probe_fuel. lia. }
  apply subseteq_size in Hsub.
  rewrite size_list_to_set, size_dom in Hsub by exact Hnodup.
  unfold keys in Hsub. rewrite length_fmap, length_seq in Hsub. lia.
Qed.

(** A write towards a path that does not exist keeps every node; when it
    goes through, no node stood under the path. *)
Lemma write_text_missing (p content : string) (st st' : filesystem) (r : result unit) :
  Os.path_exists p st = false -> Os.write_text p content st = (st', r) ->
  nodes st ⊆ nodes st' /\ (forall u, r = Ok u -> nodes st !! resolve p = None).
Proof.
  intros Hex Hw.
  destruct (nodes st !! resolve p) as [[w|r0 w old]|] eqn:Hk.
  - unfold Os.write_text in Hw. rewrite Hk in Hw.
    destruct (String.eqb p ""); injection Hw as <- <-; by split.
  - unfold Os.path_exists, Os.stat in Hex. unfold Os.write_text in Hw.
    rewrite Hk in Hw, Hex.
    destruct (String.eqb p ""); [injection Hw as <- <-; by split |].
    destruct (PyStr.endswith_char sep p); [| done].
    injection Hw as <- <-. by split.
  - split; [exact (write_text_fresh_keeps _ _ _ _ _ Hk Hw) | done].
Qed.

(** The steps of a copy that handed back a name. *)
Lemma copy_image_steps (fuel : nat) (source dest : string) (st st' : filesystem)
    (events : list gui_event) (name : string) :
  copy_image_to_directory fuel source dest st = Some (st', events, Some name) ->
  exists n content,
    name = image_candidate (PathLib.stem source) (PathLib.suffix source) n /\
    events = [] /\
    Os.path_exists (join dest name) st = false /\
    (forall m, (m < n)%nat ->
       Os.path_exists
         (join dest (image_candidate (PathLib.stem source) (PathLib.suffix source) m)) st
       = true) /\
    Os.read_bytes source st = Ok content /\
    Os.write_text (join dest name) content st = (st', Ok ()).
Proof.
  unfold copy_image_to_directory.
  destruct (PathLib.path_exists source st); simpl; [| discriminate].
  set (base := PathLib.stem source). set (ext := PathLib.suffix source).
  change (base +:+ ext) with (image_candidate base ext 0).
  destruct (probe_filename _ _ _ _ _ _ _ _) as [[name' path]|] eqn:Hprobe; [| discriminate].
  apply probe_filename_some in Hprobe as (n & -> & -> & _ & Hfree & Hbusy).
  unfold Os.copy2.
  destruct (Os.read_bytes source st) as [content|e]; [| discriminate].
  destruct (Os.write_text _ content st) as [st1 [[]|e]] eqn:Hw; [| discriminate].
  intros [= <- <- <-]. exists n, content. repeat split; try done.
  intros m Hm. apply Hbusy. lia.
Qed.

(** Whatever its outcome, a copy keeps every node there is. *)
Lemma copy_image_keeps (fuel : nat) (source dest : string) (st st' : filesystem)
    (events : list gui_event) (filename : option string) :
  copy_image_to_directory fuel source dest st = Some (st', events, filename) ->
  nodes st ⊆ nodes st'.
Proof.
  unfold copy_image_to_directory.
  destruct (PathLib.path_exists source st); simpl; [| by intros [= <- _ _]].
  set (base := PathLib.stem source). set (ext := PathLib.suffix source).
  change (base +:+ ext) with (image_candidate base ext 0).
  destruct (probe_filename _ _ _ _ _ _ _ _) as [[name' path]|] eqn:Hprobe; [| discriminate].
  apply probe_filename_some in Hprobe as (n & -> & -> & _ & Hfree & _).
  unfold Os.copy2.
  destruct (Os.read_bytes source st) as [content|e]; [| by intros [= <- _ _]].
  destruct (Os.write_text _ content st) as [st1 r] eqn:Hw.
  destruct (write_text_missing _ _ _ _ _ Hfree Hw) as [Hkeeps _].
  destruct r; by intros [= <- _ _].
Qed.

End CopyFacts.

Section CopyTheorems.

Context `{Libraries} `{Locale}.

Import OsPath.

(** X9.  [copy_image_to_directory] never overwrites: whatever its outcome,
    every node that was on the disk is there unchanged afterwards.  A
    source that does not exist makes it return [None] with no dialog and no
    change; a name handed back is one under which nothing existed in the
    destination, and the file under it now reads as the source does. *)
Theorem copy_image_never_overwrites (fuel : nat) (source dest : string)
    (st st' : filesystem) (events : list gui_event) (filename : option string) :
  copy_image_to_directory fuel source dest st = Some (st', events, filename) ->
  nodes st ⊆ nodes st' /\
  (PathLib.path_exists source st = false -> st' = st /\ events = [] /\ filename = None) /\
  (forall name, filename = Some name ->
     events = [] /\
     Os.path_exists (join dest name) st = false /\
     nodes st !! resolve (join dest name) = None /\
     exists content,
       Os.read_bytes source st = Ok content /\
       Os.read_bytes (join dest name) st' = Ok content).
Proof.
  intros Hcopy. split; [exact (copy_image_keeps _ _ _ _ _ _ _ Hcopy) | split].
  - intros Hmissing. revert Hcopy. unfold copy_image_to_directory.
    rewrite Hmissing. simpl. by intros [= <- <- <-].
  - intros name ->.
    destruct (copy_image_steps _ _ _ _ _ _ _ Hcopy)
      as (n & content & _ & -> & Hfree & _ & Hread & Hw).
    destruct (write_text_missing _ _ _ _ _ Hfree Hw) as [_ Hnone].
    specialize (Hnone () eq_refl).
    destruct (write_text_fresh_ok _ _ _ _ _ Hnone Hw) as (Hp & He & _ & -> & _).
    repeat split; try done. exists content. split; [exact Hread |].
    apply (read_bytes_file _ _ true true); [exact Hp | exact He |].
    simpl. apply lookup_insert_eq.
Qed.

(** X10.  The loop of [copy_image_to_directory] that looks for a free name
    ends, whatever the source and the destination, and the name handed back
    is the first of [name], [stem_001.ext], [stem_002.ext], ... under which
    nothing exists in the destination. *)
Theorem copy_image_picks_first_free_name (source dest : string) (st : filesystem) :
  exists st' events filename,
    copy_image_to_directory (probe_fuel st) source dest st = Some (st', events, filename) /\
    forall name, filename = Some name ->
      exists n,
        name = image_candidate (PathLib.stem source) (PathLib.suffix source) n /\
        Os.path_exists (join dest name) st = false /\
        forall m, (m < n)%nat ->
          Os.path_exists
            (join dest (image_candidate (PathLib.stem source) (PathLib.suffix source) m)) st
          = true.
Proof.
  destruct (copy_image_to_directory (probe_fuel st) source dest st)
    as [[[st' events] filename]|] eqn:Hcopy.
  - exists st', events, filename. split; [reflexivity |]. intros name ->.
    destruct (copy_image_steps _ _ _ _ _ _ _ Hcopy) as (n & content & -> & _ & Hfree & Hbusy & _).
    by exists n.
  - exfalso. revert Hcopy. unfold copy_image_to_directory.
    destruct (PathLib.path_exists source st); simpl negb; cbv iota zeta; [| discriminate].
    destruct (probe_filename_terminates dest (PathLib.stem source) (PathLib.suffix source) st
                (stem_no_sep source) (suffix_no_sep source)) as [[name path] Hprobe].
    change (image_candidate (PathLib.stem source) (PathLib.suffix source) 0)
      with (PathLib.stem source +:+ PathLib.suffix source) in Hprobe.
    rewrite Hprobe. by destruct (Os.copy2 _ _ _) as [st1 [u|e]].
Qed.

Lemma remove_inv (p : string) (st st' : filesystem) (r : result unit) :
  Os.remove p st = (st', r) ->
  st' = st \/
  exists r0 w content,
    nodes st !! resolve p = Some (File r0 w content) /\
    nodes st' = delete (resolve p) (nodes st).
Proof.
  unfold Os.remove, Os.stat.
  destruct (String.eqb p ""); [intros [= <- _]; by left |].
  destruct (nodes st !! resolve p) as [[w|r0 w content]|] eqn:Hk.
  - intros [= <- _]. by left.
  - destruct (PyStr.endswith_char sep p); [intros [= <- _]; by left |].
    destruct (nodes st !! Os.parent_key (resolve p)) as [[[]|]|];
      try (intros [= <- _]; by left).
    intros [= <- _]. right. by exists r0, w, content.
  - intros [= <- _]. by left.
Qed.

(** X11.  [_cleanup_copied_files] takes nothing away but regular files that
    the list names, looked up in the directory of the current project: it
    creates and alters nothing, removes no directory, and with no project
    open it does nothing at all. *)
Theorem cleanup_removes_only_listed_files (self : ProjectManager) (filenames : list string)
    (st : filesystem) :
  let st' := _cleanup_copied_files self filenames st in
  nodes st' ⊆ nodes st /\
  (forall k n, nodes st !! k = Some n -> nodes st' !! k = None ->
     (exists r w content, n = File r w content) /\
     exists project filename,
       current_project self = Some project /\ filename ∈ filenames /\
       k = resolve (join (directory project) filename)) /\
  (current_project self = None -> st' = st).
Proof.
  destruct (current_project self) as [project|] eqn:Hcur.
  2:{ assert (Hid : forall st0, _cleanup_copied_files self filenames st0 = st0).
      { induction filenames as [|filename rest IH]; intros st0; simpl; [done |].
        by rewrite Hcur. }
      rewrite Hid. split; [done |]. split; [| done]. intros k n Hk Hk'. congruence. }
  revert st. induction filenames as [|filename rest IH]; intros st; simpl.
  { split; [done |]. split; [| done]. intros k n Hk Hk'. congruence. }
  rewrite Hcur. set (file_path := join (directory project) filename).
  assert (Hstep : forall st1,
            (st1 = st \/ exists r0 w content,
                nodes st !! resolve file_path = Some (File r0 w content) /\
                nodes st1 = delete (resolve file_path) (nodes st)) ->
            let st' := _cleanup_copied_files self rest st1 in
            nodes st' ⊆ nodes st /\
            (forall k n, nodes st !! k = Some n -> nodes st' !! k = None ->
               (exists r w content, n = File r w content) /\
               exists project0 filename0,
                 Some project = Some project0 /\ filename0 ∈ filename :: rest /\
                 k = resolve (join (directory project0) filename0)) /\
            (Some project = None -> st' = st)).
  { intros st1 Hst1. destruct (IH st1) as (Hsub & Hgone & _).
    assert (Hsub1 : nodes st1 ⊆ nodes st).
    { destruct Hst1 as [-> | (r0 & w & content & _ & ->)]; [done |]. apply delete_subseteq. }
    split; [by transitivity (nodes st1) |]. split; [| discriminate].
    intros k n Hk Hk'.
    destruct (nodes st1 !! k) as [n1|] eqn:Hk1.
    - assert (n1 = n) as ->.
      { pose proof (lookup_weaken _ _ _ _ Hk1 Hsub1) as Hk2. congruence. }
      destruct (Hgone k n Hk1 Hk') as (Hfile & p & f & Hp & Hf & ->).
      split; [exact Hfile |]. exists p, f. split; [congruence |].
      split; [by apply list_elem_of_further | reflexivity].
    - destruct Hst1 as [-> | (r0 & w & content & Hnode & Hdel)]; [congruence |].
      rewrite Hdel in Hk1. apply lookup_delete_None in Hk1 as [<- | Hk1]; [| congruence].
      rewrite Hnode in Hk. injection Hk as <-.
      split; [by exists r0, w, content |]. exists project, filename.
      split; [reflexivity |]. split; [apply list_elem_of_here | reflexivity]. }
  destruct (Os.path_exists file_path st).
  - apply Hstep. destruct (Os.remove file_path st) as [st1 r] eqn:Hrm.
    exact (remove_inv _ _ _ _ Hrm).
  - apply Hstep. by left.
Qed.

(** X12.  Copying an image into the project and cleaning it up again leaves
    the file system exactly as it was, free space included: the clean-up
    that [add_bundle_from_images] runs after a failure undoes a copy that
    went through. *)
Theorem copy_then_cleanup_restores (fuel : nat) (self : ProjectManager) (project : Project)
    (source : string) (st st' : filesystem) (events : list gui_event) (name : string) :
  current_project self = Some project ->
  copy_image_to_directory fuel source (directory project) st = Some (st', events, Some name) ->
  Os.path_exists (join (directory project) name) st' = true /\
  _cleanup_copied_files self [name] st' = st.
Proof.
  intros Hcur Hcopy.
  destruct (copy_image_steps _ _ _ _ _ _ _ Hcopy)
    as (n & content & _ & _ & Hfree & _ & _ & Hw).
  destruct (write_text_missing _ _ _ _ _ Hfree Hw) as [_ Hnone].
  specialize (Hnone () eq_refl).
  destruct (write_text_fresh_ok _ _ _ _ _ Hnone Hw) as (Hp & He & Hparent & -> & Hroom).
  set (path := join (directory project) name) in *.
  set (st1 := Filesystem _ _).
  assert (Hnode : nodes st1 !! resolve path = Some (File true true content))
    by (simpl; apply lookup_insert_eq).
  assert (Hstat : Os.stat path st1 = Ok (File true true content))
    by exact (stat_node_file _ _ _ _ _ Hp He Hnode).
  assert (Hex : Os.path_exists path st1 = true) by (unfold Os.path_exists; by rewrite Hstat).
  split; [exact Hex |].
  simpl. rewrite Hcur. fold path. rewrite Hex.
  unfold Os.remove. rewrite Hstat.
  assert (Hparent1 : nodes st1 !! Os.parent_key (resolve path) = Some (Dir true)).
  { simpl. rewrite lookup_insert_ne; [exact Hparent |]. intros Heq.
    rewrite <- Heq in Hparent. congruence. }
  rewrite Hparent1. simpl.
  rewrite delete_insert_id by exact Hnone.
  destruct st as [m f]. simpl in *. f_equal. lia.
Qed.

End CopyTheorems.

(* ===================================================================== *)
(** * Adding a bundle *)
(* ===================================================================== *)

Section AddBundleFacts.

Context `{Libraries} `{Locale}.

Import OsPath.

(** A copying loop that went through all the images: one name for each,
    nothing shown, nothing on the disk changed or removed. *)
Lemma copy_images_copied (fuel : nat) (image_paths : list string) (self self1 : DigitizationDialog)
    (acc names : list string) (st st1 : filesystem) :
  copy_images fuel self image_paths acc st = Some (self1, st1, Copied names) ->
  self1 = self /\ length names = (length acc + length image_paths)%nat /\
  nodes st ⊆ nodes st1.
Proof.
  revert self acc st. induction image_paths as [|img_path rest IH]; intros self acc st; simpl.
  - intros [= <- <- <-]. repeat split; [lia | done].
  - destruct (Os.path_exists img_path st); simpl; [| discriminate].
    destruct (current_project (manager self)) as [project|]; [| discriminate].
    destruct (copy_image_to_directory fuel img_path (directory project) st)
      as [[[st2 events] filename]|] eqn:Hcopy; [| discriminate].
    destruct filename as [name|]; simpl; [| discriminate].
    destruct (negb (String.eqb name "")); [| discriminate].
    pose proof (copy_image_keeps _ _ _ _ _ _ _ Hcopy) as Hkeeps.
    apply copy_image_steps in Hcopy as (n & content & _ & -> & _). simpl.
    intros Hrest. apply IH in Hrest as (-> & Hlen & Hkeeps').
    rewrite length_app in Hlen. simpl in Hlen.
    repeat split; [lia | by transitivity (nodes st2)].
Qed.

Lemma list_insert_at_in_range (i : Z) (x : pyval) (l : list pyval) :
  (0 <= i <= Z.of_nat (length l))%Z ->
  list_insert_at i x l = (take (Z.to_nat i) l ++ x :: drop (Z.to_nat i) l)%list.
Proof.
  intros Hi. unfold list_insert_at.
  assert ((i <? 0)%Z = false) as -> by (apply Z.ltb_ge; lia).
  by rewrite Z.min_l by lia.
Qed.

Lemma plain_list_insert (n : nat) (x : pyval) (l : list pyval) :
  plain x = true -> plain (PList l) = true ->
  plain (bundles_document (PList (take n l ++ x :: drop n l))) = true.
Proof.
  intros Hx Hl. unfold bundles_document.
  change (forallb plain (take n l ++ x :: drop n l) && true
            && bool_decide (NoDup ["bundles"]) = true).
  rewrite andb_true_r. apply andb_true_iff. split; [| reflexivity].
  change (forallb plain l = true) in Hl.
  rewrite <- (take_drop n l) in Hl. rewrite forallb_app in Hl.
  apply andb_true_iff in Hl as [Ht Hd].
  rewrite forallb_app. simpl. by rewrite Ht, Hx, Hd.
Qed.

(** X13.  A bundle added within the list.  When the images were copied and
    [bundles.json] was written, [add_bundle_from_images] returns [True]; the
    bundle list has one record more, made of the names the copies were given,
    at the position that follows the bundle on display, the records around
    it keeping their order; the index on display has moved to it, and a
    redraw was asked for.  Where the locale reads [bundles.json] as it was
    written (a UTF-8 locale, or file names in ASCII), what the file then
    holds reads back as the list in memory. *)
Theorem add_bundle_inserts_and_saves (fuel : nat) (self self1 : DigitizationDialog)
    (image_paths names : list string) (st st1 st2 : filesystem)
    (project : Project) (l : list pyval) (message : option message) :
  (1 <= length image_paths <= 3)%nat ->
  copy_images fuel self image_paths [] st = Some (self1, st1, Copied names) ->
  current_project (manager self) = Some project ->
  bundles project = PList l ->
  let new_bundle := bundle_record "generic" names in
  let position := (current_bundle_index self + 1)%Z in
  let l' := list_insert_at position new_bundle l in
  (0 <= position <= Z.of_nat (length l))%Z ->
  save_bundles (set_bundles project (PList l')) st1 = (st2, (true, message)) ->
  exists self',
    add_bundle_from_images fuel self image_paths st = Some (self', st2, true) /\
    length names = length image_paths /\
    current_bundle_index self' = position /\
    gui self' = (gui self ++ [ShowCurrentBundle])%list /\
    dialog_bundles self' = Ok (PList l') /\
    length l' = S (length l) /\
    l' !! Z.to_nat position = Some new_bundle /\
    (forall i, (i < Z.to_nat position)%nat -> l' !! i = l !! i) /\
    (forall i, (Z.to_nat position <= i)%nat -> l' !! S i = l !! i) /\
    ((forall v, plain v = true -> json_loads (json_dumps v) = Some v) ->
     plain (PList l) = true ->
     locale_decode (json_dumps (bundles_document (PList l')))
       = inl (json_dumps (bundles_document (PList l'))) ->
     Os.read_bytes (files_bundles (files project)) st2
       <> Raise (OSError EACCES (files_bundles (files project))) ->
     load_bundles project st2 = (set_bundles project (PList l'), (true, None))).
Proof.
  intros Hlen Hcopy Hcur Hl new_bundle position inserted Hpos Hsave.
  destruct (copy_images_copied _ _ _ _ _ _ _ _ Hcopy) as (-> & Hnames & _).
  simpl in Hnames.
  set (n := Z.to_nat position).
  set (l' := (take n l ++ new_bundle :: drop n l)%list).
  assert (Hins : list_insert_at position new_bundle l = l')
    by by apply list_insert_at_in_range.
  subst inserted. rewrite Hins in Hsave |- *.
  assert (Hn : (n <= length l)%nat) by (unfold n; lia).
  eexists. split; [| split; [exact Hnames |]].
  - unfold add_bundle_from_images. rewrite (length_check _ Hlen), Hcopy.
    fold new_bundle. unfold bundle_record in new_bundle. fold new_bundle.
    unfold dialog_bundles at 1. rewrite Hcur, Hl. simpl bind.
    fold position. rewrite Hins.
    unfold set_dialog_bundles at 1. rewrite Hcur. simpl current_project.
    cbv iota. rewrite Hsave. cbv beta iota zeta. reflexivity.
  - unfold dialog_bundles, set_dialog_bundles. rewrite Hcur. simpl.
    split; [reflexivity |]. split; [reflexivity |]. split; [reflexivity |].
    assert (Htake : length (take n l) = n) by (rewrite length_take; lia).
    split; [| split; [| split; [| split]]].
    + unfold l'. rewrite length_app, Htake. simpl. rewrite length_drop. lia.
    + unfold l'. rewrite lookup_app_r by lia. by rewrite Htake, Nat.sub_diag.
    + intros i Hi. unfold l'. rewrite lookup_app_l by lia. apply lookup_take_lt. lia.
    + intros i Hi. unfold l'. rewrite lookup_app_r by lia. rewrite Htake.
      replace (S i - n)%nat with (S (i - n)) by lia. simpl.
      rewrite lookup_drop. f_equal. lia.
    + intros Hcodec Hplain Hlocale Hread.
      assert (Hdoc : plain (bundles_document (PList l')) = true).
      { apply plain_list_insert; [apply bundle_record_plain | exact Hplain]. }
      apply (load_after_save (set_bundles project (PList l')) project st1 st2 message);
        [reflexivity | exact (Hcodec _ Hdoc) | exact Hlocale | exact Hsave | exact Hread].
Qed.

(** X14.  An image that is missing when its turn comes stops
    [add_bundle_from_images] with an error dialog and [False], and the
    copies made of the images before it are left in the project directory:
    this way out does not call [_cleanup_copied_files], as the one taken
    when a copy fails does.  The bundle list is as it was. *)
Theorem add_bundle_missing_image_leaves_copies (fuel : nat) (self : DigitizationDialog)
    (project : Project) (first second : string) (rest : list string)
    (st st1 : filesystem) (events : list gui_event) (name : string) :
  (length rest <= 1)%nat ->
  current_project (manager self) = Some project ->
  Os.path_exists first st = true ->
  copy_image_to_directory fuel first (directory project) st = Some (st1, events, Some name) ->
  name <> "" ->
  Os.path_exists second st1 = false ->
  let self' := emit (ShowError "Error" ("No se encuentra el archivo: " +:+ second)) self in
  add_bundle_from_images fuel self (first :: second :: rest) st = Some (self', st1, false) /\
  Os.path_isfile (join (directory project) name) st = false /\
  Os.path_isfile (join (directory project) name) st1 = true /\
  dialog_bundles self' = dialog_bundles self.
Proof.
  intros Hrest Hcur Hfirst Hcopy Hname Hsecond self'.
  destruct (copy_image_steps _ _ _ _ _ _ _ Hcopy)
    as (n & content & _ & -> & Hfree & _ & _ & Hw).
  destruct (write_text_missing _ _ _ _ _ Hfree Hw) as [_ Hnone].
  specialize (Hnone () eq_refl).
  destruct (write_text_fresh_ok _ _ _ _ _ Hnone Hw) as (Hp & He & _ & Hst1 & _).
  split; [| split; [| split]].
  - unfold add_bundle_from_images.
    assert (Hcheck : Nat.eqb (length (first :: second :: rest)) 0
                     || Nat.ltb 3 (length (first :: second :: rest)) = false).
    { apply length_check. simpl. lia. }
    rewrite Hcheck. simpl copy_images. rewrite Hfirst. simpl negb. cbv iota.
    rewrite Hcur, Hcopy. simpl str_truthy.
    apply String.eqb_neq in Hname. rewrite Hname. simpl negb. cbv iota.
    simpl fold_left. rewrite Hsecond. reflexivity.
  - unfold Os.path_isfile, Os.stat. rewrite Hnone. by destruct (String.eqb _ "").
  - unfold Os.path_isfile. erewrite (stat_node_file _ _ true true); [reflexivity | done | done |].
    subst st1. simpl. apply lookup_insert_eq.
  - reflexivity.
Qed.

End AddBundleFacts.

(* ===================================================================== *)
(** * Moving through the bundles *)
(* ===================================================================== *)

Section NavigationFacts.

Context `{Libraries} `{Locale}.

(** The two handlers on a list of [count] bundles, from a position in it. *)
Lemma navigation_steps (self : DigitizationDialog) (project : Project)
    (l : list pyval) :
  current_project (manager self) = Some project ->
  bundles project = PList l ->
  let index := current_bundle_index self in
  let count := Z.of_nat (length l) in
  (0 <= index < count)%Z ->
  exists next previous,
    next_bundle self = Ok next /\ previous_bundle self = Ok previous /\
    manager next = manager self /\ manager previous = manager self /\
    current_bundle_index next = Z.min (index + 1) (count - 1) /\
    current_bundle_index previous = Z.max (index - 1) 0 /\
    (index = count - 1 -> next = self)%Z /\
    (index = 0 -> previous = self)%Z /\
    ((index < count - 1)%Z ->
     exists back, previous_bundle next = Ok back /\ current_bundle_index back = index).
Proof.
  intros Hcur Hl index count Hrange.
  assert (Htruthy : py_truthy (PList l) = true) by (destruct l; [simpl in *; lia | done]).
  unfold next_bundle, previous_bundle, dialog_bundles. rewrite Hcur, Hl. simpl bind.
  change (match l with [] => false | _ :: _ => true end) with (py_truthy (PList l)).
  rewrite Htruthy. cbv iota. fold index count. simpl andb.
  destruct (index <? count - 1)%Z eqn:Hnext, (0 <? index)%Z eqn:Hprev.
  all: try apply Z.ltb_lt in Hnext; try apply Z.ltb_ge in Hnext.
  all: try apply Z.ltb_lt in Hprev; try apply Z.ltb_ge in Hprev.
  all: eexists _, _; split; [reflexivity |]; split; [reflexivity |].
  all: simpl manager; simpl current_bundle_index;
    (split; [reflexivity |]); (split; [reflexivity |]); (split; [lia |]);
    (split; [lia |]); (split; [try lia; done |]); (split; [try lia; done |]).
  all: try (intros Hlt; lia).
  all: intros _; rewrite Hcur, Hl; simpl bind;
    change (match l with [] => false | _ :: _ => true end) with (py_truthy (PList l));
    rewrite Htruthy; cbv iota;
    assert ((0 <? index + 1)%Z = true) as -> by (apply Z.ltb_lt; lia);
    simpl andb; cbv iota; eexists; split; [reflexivity | simpl; lia].
Qed.

(** X15.  The two navigation handlers keep the index on display inside the
    bundle list.  On a list of bundle records, from a position in the list,
    [next_bundle] moves one step forward unless it stands on the last
    bundle, [previous_bundle] one step backward unless it stands on the
    first, neither touches the project, and a step forward followed by a
    step backward comes back to the same bundle. *)
Theorem navigation_stays_in_range (self : DigitizationDialog) (project : Project)
    (records : list (string * list string)) :
  current_project (manager self) = Some project ->
  bundles project = PList (map (fun r => bundle_record (fst r) (snd r)) records) ->
  let index := current_bundle_index self in
  let count := Z.of_nat (length records) in
  (0 <= index < count)%Z ->
  exists next previous,
    next_bundle self = Ok next /\ previous_bundle self = Ok previous /\
    manager next = manager self /\ manager previous = manager self /\
    current_bundle_index next = Z.min (index + 1) (count - 1) /\
    current_bundle_index previous = Z.max (index - 1) 0 /\
    (index = count - 1 -> next = self)%Z /\
    (index = 0 -> previous = self)%Z /\
    ((index < count - 1)%Z ->
     exists back, previous_bundle next = Ok back /\ current_bundle_index back = index).
Proof.
  intros Hcur Hl index count Hrange.
  pose proof (navigation_steps self project _ Hcur Hl) as Hsteps.
  cbv zeta in Hsteps. rewrite length_map in Hsteps. by apply Hsteps.
Qed.

End NavigationFacts.

(* ===================================================================== *)
(** * Opening a project from the dialog *)
(* ===================================================================== *)

Section OpenDialogFacts.

Context `{Libraries} `{Locale}.

Import OsPath.

Lemma set_manager_same (self : DigitizationDialog) : set_manager self (manager self) = self.
Proof. by destruct self. Qed.

(** X16.  What [load_project_and_update_dialog] can do.  When it returns
    [True] the project picked is the current one, its metadata has a title
    and the index on display is [0]; when it returns [False] the manager
    and the index are as they were, and either nothing was picked or one
    error dialog was shown. *)
Theorem load_dialog_outcomes (self self' : DigitizationDialog)
    (new_directory : option string) (st st' : filesystem) (r : result bool) :
  load_project_and_update_dialog self new_directory st = (self', st', r) ->
  (r = Ok true ->
     current_bundle_index self' = 0%Z /\
     exists directory project title,
       new_directory = Some directory /\
       current_project (manager self') = Some project /\
       Project_directory project = directory /\
       py_getitem (project_metadata project) "title" = Ok title) /\
  (r = Ok false ->
     manager self' = manager self /\
     current_bundle_index self' = current_bundle_index self /\
     ((new_directory = None \/ new_directory = Some "") /\ self' = self /\ st' = st \/
      exists title detail, gui self' = (gui self ++ [ShowError title detail])%list)).
Proof.
  unfold load_project_and_update_dialog.
  destruct (str_truthy new_directory) eqn:Hpicked; simpl negb; cbv iota.
  2:{ intros [= <- <- <-]. split; [discriminate |].
      intros _. split; [reflexivity |]. split; [reflexivity |]. left.
      split; [| done]. destruct new_directory as [d|]; [| by left]. right.
      simpl in Hpicked. f_equal. apply String.eqb_eq. by destruct (String.eqb d ""). }
  destruct new_directory as [directory|]; [| discriminate]. simpl default.
  destruct (load_project (manager self) directory st) as [[m st1] r1] eqn:Hload.
  destruct (load_project_inv _ _ _ _ _ _ Hload) as [_ Hcases].
  destruct r1 as [[b|result message]|e].
  - intros [= <- <- <-]. split; discriminate.
  - destruct result; simpl negb; cbv iota.
    + destruct Hcases as [[_ Hfail] | [[= ->] (project & -> & Hdir & _)]];
        [by destruct (Hfail message) |].
      simpl current_project.
      destruct (py_getitem (project_metadata project) "title") as [title|e] eqn:Htitle.
      * assert (Hgoal : forall d : DigitizationDialog,
                  current_bundle_index d = 0%Z ->
                  manager d = set_current_project (manager self) (Some project) ->
                  (d, st1, Ok true) = (self', st', r) ->
                  r = Ok true /\ current_bundle_index self' = 0%Z /\
                  current_project (manager self') = Some project).
        { intros d Hd Hm [= <- <- <-]. by rewrite Hm. }
        intros Hret. rewrite ?Htitle in Hret.
        assert (Hall : r = Ok true /\ current_bundle_index self' = 0%Z /\
                       current_project (manager self') = Some project).
        { destruct (py_truthy (bundles project));
            (eapply Hgoal; [| | exact Hret]; reflexivity). }
        destruct Hall as (-> & Hindex & Hproject).
        split; [| discriminate].
        intros _. split; [exact Hindex |]. by exists directory, project, title.
      * rewrite ?Htitle. intros [= <- <- <-]. split; discriminate.
    + destruct Hcases as [[-> _] | [[=] _]]. rewrite set_manager_same.
      destruct message as [[title detail]|].
      * intros [= <- <- <-]. split; [discriminate |].
        intros _. split; [reflexivity |]. split; [reflexivity |]. right. by exists title, detail.
      * intros [= <- <- <-]. split; discriminate.
  - intros [= <- <- <-]. split; discriminate.
Qed.

(** X17.  A project directory that may not be written to and has lost its
    [.cache] folder cannot be opened, and the user is not told why.
    [ensure_subfolders] fails with its message; [load_project] keeps that
    message under another name and returns [False] with the message of
    [load_bundles], which is [None]; [load_project_and_update_dialog] then
    hands [None] to the error dialog, which ends in [TypeError] before
    anything is shown. *)
Theorem open_read_only_project_hides_error (self : DigitizationDialog)
    (directory text : string) (items : list (string * pyval)) (st : filesystem) :
  well_formed st ->
  Os.stat directory st = Ok (Dir false) ->
  nodes st !! (resolve directory ++ [".cache"])%list = None ->
  Os.read_text (join directory "bundles.json") st = Ok text ->
  json_loads text = Some (PDict items) ->
  (exists detail,
     ensure_subfolders (Project_init directory) st = (st, (false, Some ("Error", detail)))) /\
  load_project (manager self) directory st = (manager self, st, Ok (RetTuple false None)) /\
  exists detail,
    load_project_and_update_dialog self (Some directory) st
      = (self, st, Raise (TypeError detail)).
Proof.
  intros Hwf Hstat Hcache Hread Hjson.
  destruct (load_project_read_only (manager self) _ _ _ _ Hwf Hstat Hcache Hread Hjson)
    as (Hst & [detail Hmsg] & Hload).
  split; [| split; [exact Hload |]].
  - exists detail. destruct (ensure_subfolders (Project_init directory) st) as [st1 r1].
    simpl in Hst, Hmsg. by subst.
  - eexists. unfold load_project_and_update_dialog.
    destruct (stat_dir _ _ _ Hstat) as [Hd _]. simpl str_truthy.
    apply String.eqb_neq in Hd. rewrite Hd. simpl negb. cbv iota. simpl default.
    rewrite Hload. cbv beta iota zeta. simpl negb. cbv iota.
    by rewrite set_manager_same.
Qed.

(** X18.  A project whose [project_metadata.json] holds an object without
    the [project_metadata] key is opened by [load_project], the warning of
    [load_from_json] being dropped and the metadata being the default [[]] of
    the lookup; [load_project_and_update_dialog] then asks that list for its
    [title] and ends in [TypeError]: the manager has the new project for
    current one while the index on display is still that of the one
    before. *)
Theorem open_untitled_project (self : DigitizationDialog) (directory text : string)
    (items : list (string * pyval)) (st st1 : filesystem) (loaded : Project)
    (m1 m2 : option message) :
  Os.path_exists directory st = true ->
  load_bundles (Project_init directory) st = (loaded, (true, m1)) ->
  ensure_subfolders loaded st = (st1, (true, m2)) ->
  Os.read_text (join directory "project_metadata.json") st1 = Ok text ->
  json_loads text = Some (PDict items) ->
  assoc_get "project_metadata" items = None ->
  let project := set_project_metadata loaded (PList []) in
  load_project (manager self) directory st
    = (set_current_project (manager self) (Some project), st1, Ok (RetTuple true None)) /\
  exists self',
    load_project_and_update_dialog self (Some directory) st
      = (self', st1,
         Raise (TypeError "list indices must be integers or slices, not str")) /\
    current_project (manager self') = Some project /\
    current_bundle_index self' = current_bundle_index self /\
    gui self' = gui self.
Proof.
  intros Hex Hlb Hens Hread Hjson Hkey project.
  assert (Hfiles : files_project_metadata (files loaded)
                   = join directory "project_metadata.json").
  { apply load_bundles_inv in Hlb as [[? _] | (_ & _ & w & item & _ & ->)]; [done |].
    reflexivity. }
  assert (Hload : load_project (manager self) directory st
            = (set_current_project (manager self) (Some project), st1,
               Ok (RetTuple true None))).
  { unfold load_project. rewrite Hex, Hlb. cbv beta iota zeta. simpl negb. cbv iota.
    rewrite Hens. cbv beta iota zeta. simpl negb. cbv iota.
    pose proof (load_from_json_dict _ "project_metadata" _ _ _ Hread Hjson) as Hmeta.
    cbv zeta in Hmeta. rewrite Hkey in Hmeta. simpl in Hmeta.
    unfold load_project_metadata. rewrite Hfiles, Hmeta. reflexivity. }
  split; [exact Hload |].
  eexists. split; [| split; [| split]].
  - unfold load_project_and_update_dialog.
    assert (Hd : directory <> "").
    { intros ->. unfold Os.path_exists, Os.stat in Hex. simpl in Hex. discriminate. }
    simpl str_truthy. apply String.eqb_neq in Hd. rewrite Hd. simpl negb. cbv iota.
    simpl default. rewrite Hload. cbv beta iota zeta. simpl negb. cbv iota.
    reflexivity.
  - reflexivity.
  - reflexivity.
  - reflexivity.
Qed.

End OpenDialogFacts.

(* ===================================================================== *)
(** * [ensure_subfolders] in a project directory *)
(* ===================================================================== *)

Section SubfolderTheorems.

Context `{Libraries} `{Locale}.

Import OsPath.

(** [os.makedirs] of an entry of an existing, writable directory: a
    directory that is there is left alone, one that is missing is made. *)
Lemma makedirs_entry (p : string) (kd : list string) (name : string) (st : filesystem) :
  p <> "" -> resolve p = (kd ++ [name])%list ->
  dirs_along [] kd st -> nodes st !! kd = Some (Dir true) ->
  (forall r w content, nodes st !! (kd ++ [name])%list <> Some (File r w content)) ->
  (1 <= free st)%nat ->
  Os.makedirs p st
    = (match nodes st !! (kd ++ [name])%list with
       | Some _ => st
       | None => Filesystem (<[(kd ++ [name])%list := Dir true]> (nodes st)) (free st - 1)
       end, Ok ()).
Proof.
  intros Hp Hkey Hway Hdir Hnofile Hfree.
  destruct (nodes st !! (kd ++ [name])%list) as [[w|r w c]|] eqn:Hk.
  - unfold Os.makedirs. apply String.eqb_neq in Hp.
    rewrite Hp, Hkey, (makedirs_walk_through _ _ _ _ _ Hway). simpl.
    by rewrite Hk.
  - by destruct (Hnofile r w c).
  - destruct (free st) as [|f] eqn:Hf; [lia |].
    rewrite (makedirs_child p kd name st f); try done.
    by replace (S f - 1)%nat with f by lia.
Qed.

(** A path whose node is a regular file is a file for [os.path.isfile]. *)
Lemma node_file_isfile (p content : string) (r w : bool) (st : filesystem) :
  p <> "" -> PyStr.endswith_char sep p = false ->
  nodes st !! resolve p = Some (File r w content) -> Os.path_isfile p st = true.
Proof.
  intros Hp He Hk. unfold Os.path_isfile. by rewrite (stat_node_file _ _ _ _ _ Hp He Hk).
Qed.

(** C9.  In a project directory that exists and may be written to, with room
    for two directories and no regular file in the place of a subfolder,
    [ensure_subfolders] succeeds, and a second call right after it succeeds
    too and changes nothing: the cache and capture folders are directories
    after the first call, the first call has not touched any other path,
    and where it has changed one of the two it has made a directory where
    nothing stood. *)
Theorem ensure_subfolders_idempotent (self : Project) (st : filesystem) :
  let cache := cache_subfolder (subfolders self) in
  let capture := capture_subfolder (subfolders self) in
  project_layout self ->
  well_formed st ->
  Os.stat (directory self) st = Ok (Dir true) ->
  Os.path_isfile cache st = false ->
  Os.path_isfile capture st = false ->
  (2 <= free st)%nat ->
  exists st1,
    ensure_subfolders self st = (st1, (true, None)) /\
    ensure_subfolders self st1 = (st1, (true, None)) /\
    Os.path_isdir cache st1 = true /\
    Os.path_isdir capture st1 = true /\
    adds_dirs st st1 /\
    (forall k, k <> resolve cache -> k <> resolve capture ->
       nodes st1 !! k = nodes st !! k).
Proof.
  intros cache capture [_ Hsub] Hwf Hstat Hcache Hcapture Hfree.
  subst cache capture. rewrite Hsub in *. simpl cache_subfolder in *.
  simpl capture_subfolder in *.
  set (d := directory self) in *.
  destruct (stat_dir _ _ _ Hstat) as [Hd Hnode].
  pose proof (well_formed_dirs_along st (resolve d) [] true Hwf Hnode) as Hway.
  assert (Hentry : forall name, PyStr.contains sep name = false -> component_ok name = true ->
            join d name <> "" /\ resolve (join d name) = (resolve d ++ [name])%list /\
            PyStr.endswith_char sep (join d name) = false).
  { intros name Hn1 Hn2. split; [apply join_not_empty; by apply component_ok_not_empty |].
    split; [by apply resolve_join |].
    rewrite endswith_join; [by apply contains_endswith | | exact Hn1].
    by apply component_ok_not_empty. }
  destruct (Hentry ".cache" eq_refl eq_refl) as (Hc1 & Hc2 & Hc3).
  destruct (Hentry ".capture" eq_refl eq_refl) as (Hp1 & Hp2 & Hp3).
  set (kc := (resolve d ++ [".cache"])%list) in *.
  set (kp := (resolve d ++ [".capture"])%list) in *.
  assert (Hne : kc <> kp) by (intros Hk; apply app_inv_head in Hk; discriminate).
  assert (HnofileC : forall r w content, nodes st !! kc <> Some (File r w content)).
  { intros r w content Hk. rewrite <- Hc2 in Hk.
    by rewrite (node_file_isfile _ _ _ _ _ Hc1 Hc3 Hk) in Hcache. }
  assert (HnofileP : forall r w content, nodes st !! kp <> Some (File r w content)).
  { intros r w content Hk. rewrite <- Hp2 in Hk.
    by rewrite (node_file_isfile _ _ _ _ _ Hp1 Hp3 Hk) in Hcapture. }
  pose proof (makedirs_entry _ _ _ st Hc1 Hc2 Hway Hnode HnofileC ltac:(lia)) as Hstep1.
  fold kc in Hstep1.
  set (st1 := match nodes st !! kc with
              | Some _ => st
              | None => Filesystem (<[kc := Dir true]> (nodes st)) (free st - 1)
              end) in *.
  assert (Hsame1 : forall k, k <> kc -> nodes st1 !! k = nodes st !! k).
  { intros k Hk. unfold st1. destruct (nodes st !! kc); [reflexivity |].
    simpl. by rewrite lookup_insert_ne. }
  assert (Hfree1 : (1 <= free st1)%nat).
  { unfold st1. destruct (nodes st !! kc); simpl; lia. }
  assert (Hway1 : dirs_along [] (resolve d) st1)
    by (eapply dirs_along_grows; [by eapply makedirs_grows | exact Hway]).
  assert (Hnode1 : nodes st1 !! resolve d = Some (Dir true)).
  { rewrite Hsame1; [exact Hnode |]. apply key_not_child. }
  assert (HnofileP1 : forall r w content, nodes st1 !! kp <> Some (File r w content)).
  { intros r w content. rewrite Hsame1 by done. apply HnofileP. }
  pose proof (makedirs_entry _ _ _ st1 Hp1 Hp2 Hway1 Hnode1 HnofileP1 Hfree1) as Hstep2.
  fold kp in Hstep2.
  set (st2 := match nodes st1 !! kp with
              | Some _ => st1
              | None => Filesystem (<[kp := Dir true]> (nodes st1)) (free st1 - 1)
              end) in *.
  assert (Hsame2 : forall k, k <> kp -> nodes st2 !! k = nodes st1 !! k).
  { intros k Hk. unfold st2. destruct (nodes st1 !! kp); [reflexivity |].
    simpl. by rewrite lookup_insert_ne. }
  assert (Hrun : ensure_subfolders self st = (st2, (true, None))).
  { unfold ensure_subfolders, subfolders_values. rewrite Hsub. simpl.
    fold d. by rewrite Hstep1, Hstep2. }
  exists st2. split; [exact Hrun |].
  unfold ensure_subfolders in Hrun.
  split; [exact (ensure_subfolders_from_again _ _ _ _ Hrun) |].
  destruct (ensure_subfolders_from_ok _ _ _ _ Hrun) as [_ Hall].
  unfold subfolders_values in Hall. rewrite Hsub in Hall. simpl in Hall.
  apply Forall_cons in Hall as [Hmc Hall]. apply Forall_cons in Hall as [Hmp _].
  split; [by apply makedirs_noop_isdir |]. split; [by apply makedirs_noop_isdir |].
  split; [exact (ensure_subfolders_from_adds _ _ _ _ Hrun) |].
  intros k Hkc Hkp. rewrite Hc2 in Hkc. rewrite Hp2 in Hkp.
  by rewrite Hsame2, Hsame1.
Qed.

End SubfolderTheorems.

(* ===================================================================== *)
(** * Two projects of one title *)
(* ===================================================================== *)

Section TreeFacts.

Import OsPath.

Lemma parent_key_shorter (k : list string) : k <> [] -> Os.parent_key k <> k.
Proof.
  intros Hk Heq. destruct k as [|c k] using rev_ind; [done |].
  rewrite parent_key_child in Heq. by apply key_not_child in Heq.
Qed.

(** A node added under a directory, where nothing stood, leaves a tree. *)
Lemma well_formed_insert (st : filesystem) (k : list string) (n : node) (f : nat) :
  well_formed st -> nodes st !! k = None ->
  node_is_dir (nodes st !! Os.parent_key k) = true ->
  well_formed (Filesystem (<[k := n]> (nodes st)) f).
Proof.
  intros Hwf Hnone Hparent k0 n0. simpl.
  assert (Hother : forall k', node_is_dir (nodes st !! k') = true ->
            node_is_dir (<[k := n]> (nodes st) !! k') = true).
  { intros k' Hdir. rewrite lookup_insert_ne; [exact Hdir |].
    intros <-. by rewrite Hnone in Hdir. }
  destruct (decide (k0 = k)) as [-> | Hne].
  - intros _. right. by apply Hother.
  - rewrite lookup_insert_ne by done. intros Hk0.
    destruct (Hwf _ _ Hk0) as [-> | Hdir]; [by left |]. right. by apply Hother.
Qed.





End TreeFacts.

Section TwiceFacts.

Context `{Libraries} `{Locale}.

Import OsPath.






End TwiceFacts.

Section CollisionTheorems.

Context `{Libraries} `{Locale}.

Import OsPath.




End CollisionTheorems.

(* ===================================================================== *)
(** * The further statements on the session *)
(* ===================================================================== *)

(** A closed equation between two runs is settled by evaluating both sides. *)
Ltac run :=
  lazymatch goal with
  | |- ?l = ?r => vm_cast_no_check (@eq_refl _ r)
  end.

Section SessionWitnesses.

#[local] Existing Instance Reference.libraries.
#[local] Existing Instance Reference.locale.

Import Scenario Session.

Lemma archived_disk_well_formed : well_formed archived_disk.
Proof.
  unfold well_formed, archived_disk. simpl.
  repeat (apply map_Forall_insert_2; [by (left + right) |]).
  apply map_Forall_empty.
Qed.

Lemma created_run :
  create_project 5 the_manager (Some "Libro") None disk
    = Some (created_manager, created_disk, created).
Proof. run. Qed.

Lemma created_current : current_project created_manager = Some libro.
Proof. run. Qed.

Lemma opened_created :
  load_project the_manager "../example_projects/libro" created_disk
    = (created_manager, created_disk, Ok (RetTuple true None)).
Proof. run. Qed.

Lemma refused_empty :
  load_project created_manager "../example_projects/libro" empty_project_disk
    = (created_manager, empty_project_disk,
       Ok (RetTuple false (Some ("Error", "No existe bundles.json en el proyecto")))).
Proof. run. Qed.

Lemma titled_run : save_project_metadata libro empty_project_disk = (titled_disk, (true, None)).
Proof. run. Qed.

Lemma filled_saved : save_bundles filled empty_project_disk = (saved_disk, (true, None)).
Proof. run. Qed.

Lemma imported_run :
  copy_image_to_directory 5 "scans/left.jpg" "../example_projects/libro" created_disk
    = Some (imported_disk, [], Some "left.jpg").
Proof. run. Qed.

Lemma reimported_run :
  copy_image_to_directory (probe_fuel imported_disk) "scans/left.jpg"
    "../example_projects/libro" imported_disk
    = Some (reimported_disk, [], Some "left_001.jpg").
Proof. run. Qed.

Lemma copied_run :
  copy_images 5 created_dialog ["scans/left.jpg"] [] created_disk
    = Some (created_dialog, imported_disk, Copied ["left.jpg"]).
Proof. run. Qed.

Lemma catalogued_run :
  save_bundles (set_bundles libro (PList [bundle_record "generic" ["left.jpg"]])) imported_disk
    = (catalogued_disk, (true, None)).
Proof. run. Qed.

Lemma reopened_run :
  load_project_and_update_dialog created_dialog (Some "../example_projects/libro") created_disk
    = (reopened_dialog, created_disk, Ok true).
Proof. run. Qed.

Lemma browsing_copied :
  copy_images 5 browsing ["scans/left.jpg"] [] created_disk
    = Some (browsing, imported_disk, Copied ["left.jpg"]).
Proof. run. Qed.

Lemma shelved_run :
  save_bundles (set_bundles shelf (PList shelved)) imported_disk = (shelved_disk, (true, None)).
Proof. run. Qed.

Lemma accented_run : save_bundles accented empty_project_disk = (accented_disk, (true, None)).
Proof. run. Qed.

Lemma empty_project_disk_well_formed : well_formed empty_project_disk.
Proof. apply well_formed_insert; [exact disk_well_formed | run | run]. Qed.

Lemma untitled_subfolders :
  ensure_subfolders opened untitled_disk = (untitled_opened_disk, (true, None)).
Proof. run. Qed.

Lemma load_project_outcomes_witness :
  load_project the_manager "../example_projects/libro" created_disk
    = (created_manager, created_disk, Ok (RetTuple true None)) /\
  (exists project,
     created_manager = set_current_project the_manager (Some project) /\
     Project_directory project = "../example_projects/libro") /\
  load_project created_manager "../example_projects/libro" empty_project_disk
    = (created_manager, empty_project_disk,
       Ok (RetTuple false (Some ("Error", "No existe bundles.json en el proyecto")))).
Proof.
  split; [exact opened_created |]. split; [| exact refused_empty].
  destruct (load_project_outcomes _ _ _ _ _ _ opened_created) as (_ & Hsuccess & _).
  destruct (Hsuccess None eq_refl) as (_ & project & Hmanager & Hdirectory & _).
  exists project. split; [exact Hmanager | exact Hdirectory].
Defined.

Lemma load_project_needs_bundles_file_witness :
  load_project the_manager "../example_projects/libro" created_disk
    = (created_manager, created_disk, Ok (RetTuple true None)) /\
  is_copista_project "../example_projects/libro" created_disk = true /\
  is_copista_project "../example_projects/libro" empty_project_disk = false.
Proof.
  split; [exact opened_created |]. split; [| run].
  destruct (load_project_needs_bundles_file _ _ _ _ _ _ opened_created) as [Hbefore _].
  exact Hbefore.
Defined.

Lemma load_created_project_witness :
  well_formed disk /\
  create_project 5 the_manager (Some "Libro") None disk
    = Some (created_manager, created_disk, created) /\
  exists project,
    current_project created_manager = Some project /\
    bundles project = PList [] /\
    py_get (project_metadata project) "title" PNone = Ok (PStr "Libro") /\
    load_project the_manager (directory project) created_disk
      = (set_current_project the_manager (Some project), created_disk,
         Ok (RetTuple true None)).
Proof.
  split; [exact disk_well_formed |]. split; [exact created_run |].
  assert (Hbundles : locale_decode (json_dumps (bundles_document (PList [])))
                     = inl (json_dumps (bundles_document (PList [])))) by run.
  assert (Hmetadata : locale_decode (json_dumps (metadata_document (project_metadata libro)))
                      = inl (json_dumps (metadata_document (project_metadata libro)))) by run.
  exact (load_created_project 5 the_manager created_manager the_manager (Some "Libro") None
           disk created_disk loads_dumps Hbundles Hmetadata disk_well_formed created_run).
Defined.

Lemma created_project_is_recognised_witness :
  exists project,
    current_project created_manager = Some project /\
    is_copista_project (directory project) disk = false /\
    is_copista_project (directory project) created_disk = true.
Proof.
  exact (created_project_is_recognised 5 the_manager created_manager (Some "Libro") None
           disk created_disk disk_well_formed created_run).
Defined.

Lemma create_project_keeps_existing_witness :
  nodes disk ⊆ nodes created_disk /\
  nodes created_disk !! ["scans"; "left.jpg"] = Some (File true true "left page").
Proof.
  pose proof (create_project_keeps_existing 5 the_manager created_manager (Some "Libro") None
                disk created_disk created disk_well_formed created_run) as Hkeeps.
  split; [exact Hkeeps |].
  assert (Hscan : nodes disk !! ["scans"; "left.jpg"] = Some (File true true "left page"))
    by run.
  exact (lookup_weaken _ _ _ _ Hscan Hkeeps).
Defined.

Lemma save_load_project_metadata_roundtrip_witness :
  save_project_metadata libro empty_project_disk = (titled_disk, (true, None)) /\
  Os.read_bytes (files_project_metadata (files libro)) titled_disk
    = Ok (json_dumps (metadata_document (project_metadata libro))) /\
  load_project_metadata opened titled_disk = (libro, (true, None)).
Proof.
  split; [exact titled_run |].
  destruct (save_load_project_metadata_roundtrip libro opened empty_project_disk titled_disk
              None) as (_ & Hfile & Hload & _).
  - exact loads_dumps.
  - reflexivity.
  - reflexivity.
  - exact titled_run.
  - assert (Hread : Os.read_bytes (files_project_metadata (files libro)) titled_disk
                    = Ok (json_dumps (metadata_document (project_metadata libro))))
      by run.
    rewrite Hread. discriminate.
  - split; [exact Hfile |]. apply Hload. run.
Defined.


Lemma save_bundles_touches_one_file_witness :
  save_bundles filled empty_project_disk = (saved_disk, (true, None)) /\
  nodes saved_disk !! ["scans"; "left.jpg"] = nodes empty_project_disk !! ["scans"; "left.jpg"] /\
  exists r w,
    nodes saved_disk !! [".."; "example_projects"; "libro"; "bundles.json"]
      = Some (File r w (json_dumps (PDict [("bundles", bundles filled)]))).
Proof.
  split; [exact filled_saved |].
  destruct (save_bundles_touches_one_file _ _ _ _ _ filled_saved) as (Hother & Hok & _).
  split.
  - apply Hother. discriminate.
  - destruct (Hok eq_refl) as [_ Hnode]. exact Hnode.
Defined.

Lemma copy_image_never_overwrites_witness :
  copy_image_to_directory 5 "scans/left.jpg" "../example_projects/libro" created_disk
    = Some (imported_disk, [], Some "left.jpg") /\
  nodes created_disk ⊆ nodes imported_disk /\
  Os.path_exists "../example_projects/libro/left.jpg" created_disk = false /\
  Os.read_bytes "../example_projects/libro/left.jpg" imported_disk = Ok "left page".
Proof.
  split; [exact imported_run |].
  destruct (copy_image_never_overwrites _ _ _ _ _ _ _ imported_run) as (Hkeeps & _ & Hname).
  split; [exact Hkeeps |].
  destruct (Hname "left.jpg" eq_refl) as (_ & Hfree & _ & content & Hread & Hwritten).
  split; [exact Hfree |].
  assert (Hcontent : Os.read_bytes "scans/left.jpg" created_disk = Ok "left page") by run.
  rewrite Hcontent in Hread. injection Hread as <-. exact Hwritten.
Defined.

Lemma copy_image_picks_first_free_name_witness :
  copy_image_to_directory (probe_fuel imported_disk) "scans/left.jpg"
    "../example_projects/libro" imported_disk
    = Some (reimported_disk, [], Some "left_001.jpg") /\
  Os.path_exists "../example_projects/libro/left.jpg" imported_disk = true /\
  Os.path_exists "../example_projects/libro/left_001.jpg" imported_disk = false.
Proof.
  split; [exact reimported_run |].
  destruct (copy_image_picks_first_free_name "scans/left.jpg" "../example_projects/libro"
              imported_disk) as (st' & events & filename & Hcopy & Hname).
  assert (Hfilename : filename = Some "left_001.jpg").
  { exact (f_equal (fun o : option (filesystem * list gui_event * option string) =>
                      match o with Some (_, _, f) => f | None => None end)
             (eq_trans (eq_sym Hcopy) reimported_run)). }
  destruct (Hname "left_001.jpg" Hfilename) as (n & _ & Hfree & _).
  split; [run | exact Hfree].
Defined.

Lemma copy_then_cleanup_restores_witness :
  copy_image_to_directory 5 "scans/left.jpg" "../example_projects/libro" created_disk
    = Some (imported_disk, [], Some "left.jpg") /\
  Os.path_exists "../example_projects/libro/left.jpg" imported_disk = true /\
  _cleanup_copied_files created_manager ["left.jpg"] imported_disk = created_disk.
Proof.
  split; [exact imported_run |].
  exact (copy_then_cleanup_restores 5 created_manager libro "scans/left.jpg" created_disk
           imported_disk [] "left.jpg" created_current imported_run).
Defined.

Lemma add_bundle_inserts_and_saves_witness :
  bundles shelf = PList [bundle_record "generic" ["p1.jpg"];
                         bundle_record "generic" ["p2.jpg"; "p3.jpg"];
                         bundle_record "generic" ["p4.jpg"]] /\
  current_bundle_index browsing = 1%Z /\
  exists self',
    add_bundle_from_images 5 browsing ["scans/left.jpg"] created_disk
      = Some (self', shelved_disk, true) /\
    current_bundle_index self' = 2%Z /\
    dialog_bundles self'
      = Ok (PList [bundle_record "generic" ["p1.jpg"];
                   bundle_record "generic" ["p2.jpg"; "p3.jpg"];
                   bundle_record "generic" ["left.jpg"];
                   bundle_record "generic" ["p4.jpg"]]) /\
    load_bundles shelf shelved_disk = (set_bundles shelf (PList shelved), (true, None)).
Proof.
  split; [reflexivity |]. split; [reflexivity |].
  destruct (add_bundle_inserts_and_saves 5 browsing browsing ["scans/left.jpg"]
              ["left.jpg"] created_disk imported_disk shelved_disk shelf
              [bundle_record "generic" ["p1.jpg"];
               bundle_record "generic" ["p2.jpg"; "p3.jpg"];
               bundle_record "generic" ["p4.jpg"]] None)
    as (self' & Hrun & _ & Hindex & _ & Hbundles & _ & _ & _ & _ & Hload).
  - simpl. lia.
  - exact browsing_copied.
  - reflexivity.
  - reflexivity.
  - simpl. lia.
  - exact shelved_run.
  - exists self'. split; [exact Hrun |]. split; [exact Hindex |].
    split; [exact Hbundles |].
    apply Hload.
    + exact loads_dumps.
    + reflexivity.
    + run.
    + assert (Hread : Os.read_bytes (files_bundles (files shelf)) shelved_disk
                      = Ok (json_dumps (bundles_document (PList shelved)))) by run.
      rewrite Hread. discriminate.
Defined.

Lemma add_bundle_missing_image_leaves_copies_witness :
  add_bundle_from_images 5 created_dialog ["scans/left.jpg"; "scans/right.jpg"] created_disk
    = Some (emit (ShowError "Error" "No se encuentra el archivo: scans/right.jpg") created_dialog,
            imported_disk, false) /\
  Os.path_isfile "../example_projects/libro/left.jpg" created_disk = false /\
  Os.path_isfile "../example_projects/libro/left.jpg" imported_disk = true.
Proof.
  destruct (add_bundle_missing_image_leaves_copies 5 created_dialog libro
              "scans/left.jpg" "scans/right.jpg" [] created_disk imported_disk [] "left.jpg")
    as (Hrun & Hbefore & Hafter & _).
  - simpl. lia.
  - exact created_current.
  - run.
  - exact imported_run.
  - discriminate.
  - run.
  - split; [exact Hrun |]. split; [exact Hbefore | exact Hafter].
Defined.

Lemma navigation_stays_in_range_witness :
  exists next previous,
    next_bundle browsing = Ok next /\ previous_bundle browsing = Ok previous /\
    current_bundle_index next = 2%Z /\ current_bundle_index previous = 0%Z.
Proof.
  destruct (navigation_stays_in_range browsing shelf
              [("generic", ["p1.jpg"]); ("generic", ["p2.jpg"; "p3.jpg"]);
               ("generic", ["p4.jpg"])])
    as (next & previous & Hnext & Hprevious & _ & _ & Hforward & Hbackward & _).
  - reflexivity.
  - reflexivity.
  - simpl. lia.
  - exists next, previous. split; [exact Hnext |]. split; [exact Hprevious |].
    split; [exact Hforward | exact Hbackward].
Defined.

Lemma load_dialog_outcomes_witness :
  load_project_and_update_dialog created_dialog (Some "../example_projects/libro") created_disk
    = (reopened_dialog, created_disk, Ok true) /\
  current_bundle_index created_dialog = (-1)%Z /\
  current_bundle_index reopened_dialog = 0%Z /\
  exists project title,
    current_project (manager reopened_dialog) = Some project /\
    py_getitem (project_metadata project) "title" = Ok title.
Proof.
  split; [exact reopened_run |]. split; [reflexivity |].
  destruct (load_dialog_outcomes _ _ _ _ _ _ reopened_run) as (Htrue & _).
  destruct (Htrue eq_refl) as (Hindex & directory & project & title & _ & Hcur & _ & Htitle).
  split; [exact Hindex |]. exists project, title. split; [exact Hcur | exact Htitle].
Defined.

Lemma open_read_only_project_hides_error_witness :
  load_project (manager dialog) "../example_projects/libro" archived_disk
    = (manager dialog, archived_disk, Ok (RetTuple false None)) /\
  exists detail,
    load_project_and_update_dialog dialog (Some "../example_projects/libro") archived_disk
      = (dialog, archived_disk, Raise (TypeError detail)).
Proof.
  destruct (open_read_only_project_hides_error dialog "../example_projects/libro"
              (json_dumps (bundles_document (PList []))) [("bundles", PList [])] archived_disk)
    as (_ & Hload & Hdialog).
  - exact archived_disk_well_formed.
  - run.
  - run.
  - run.
  - run.
  - split; [exact Hload | exact Hdialog].
Defined.

Lemma open_untitled_project_witness :
  exists self',
    load_project_and_update_dialog browsing (Some "../example_projects/libro") untitled_disk
      = (self', untitled_opened_disk,
         Raise (TypeError "list indices must be integers or slices, not str")) /\
    current_project (manager self') = Some (set_project_metadata opened (PList [])) /\
    current_project (manager browsing) = Some shelf /\
    current_bundle_index self' = 1%Z.
Proof.
  destruct (open_untitled_project browsing "../example_projects/libro" "{}" []
              untitled_disk untitled_opened_disk opened None None)
    as (_ & self' & Hrun & Hcur & Hindex & _).
  - run.
  - run.
  - exact untitled_subfolders.
  - run.
  - run.
  - reflexivity.
  - exists self'. split; [exact Hrun |]. split; [exact Hcur |]. split; [reflexivity |].
    exact Hindex.
Defined.

(** C6.  The round trip fails where the locale is not UTF-8.  [save_bundles]
    writes the name [página.jpg] as UTF-8, for it opens the file with
    [encoding='utf-8']; [load_bundles] opens it with no [encoding], and in a
    locale whose encoding is ISO-8859-1 it succeeds with a bundle whose
    image is [pÃ¡gina.jpg]: the sequence loaded is not the sequence
    saved. *)
Theorem save_load_bundles_locale :
  bundles accented = PList [bundle_record "generic" ["página.jpg"]] /\
  save_bundles accented empty_project_disk = (accented_disk, (true, None)) /\
  load_bundles accented accented_disk = (set_bundles accented misread, (true, None)) /\
  bundles (fst (load_bundles accented accented_disk)) <> bundles accented.
Proof.
  assert (Hload : load_bundles accented accented_disk
                  = (set_bundles accented misread, (true, None))) by run.
  split; [reflexivity |]. split; [exact accented_run |]. split; [exact Hload |].
  rewrite Hload. discriminate.
Qed.


Lemma ensure_subfolders_idempotent_witness :
  Os.path_exists "../example_projects/libro/.cache" empty_project_disk = false /\
  Os.path_exists "../example_projects/libro/.capture" empty_project_disk = false /\
  exists st1,
    ensure_subfolders opened empty_project_disk = (st1, (true, None)) /\
    ensure_subfolders opened st1 = (st1, (true, None)) /\
    Os.path_isdir "../example_projects/libro/.cache" st1 = true /\
    Os.path_isdir "../example_projects/libro/.capture" st1 = true /\
    nodes st1 !! ["scans"; "left.jpg"] = nodes empty_project_disk !! ["scans"; "left.jpg"].
Proof.
  split; [run |]. split; [run |].
  destruct (ensure_subfolders_idempotent opened empty_project_disk)
    as (st1 & Hfirst & Hsecond & Hcache & Hcapture & _ & Hother).
  - by split.
  - exact empty_project_disk_well_formed.
  - run.
  - run.
  - run.
  - apply Nat.leb_le. run.
  - exists st1. split; [exact Hfirst |]. split; [exact Hsecond |].
    split; [exact Hcache |]. split; [exact Hcapture |].
    apply Hother; discriminate.
Defined.

End SessionWitnesses.
